(** * AAAPackageDev: settings knowledge base and scope completion

    A shallow embedding of
    - [src/settings.py]: [decode_value], [format_completion_item] and the
      [KnownSettings] methods [_load_settings], [_is_syntax_specific],
      [_parse_settings], [_value_completions_for],
      [_completions_from_comment], [_completions_from_default];
    - [src/plugins/syntax_dev/completions.py]: [_complete_scope] and
      [_complete_base_scope] of [SyntaxDefCompletionsListener];
    - further parts of [src/settings.py]: [html_encode],
      [sorted_completions], the functions that read key and value regions
      of a view, [key_completions], [value_completions], [do_linting],
      [insert_snippet], [on_navigate], [build_tooltip], [on_hover],
      [_color_scheme_completions] and the two [__init__] methods;
    - further parts of [src/plugins/syntax_dev/completions.py]:
      [_complete_context] and [_complete_keyword].

    Text is modelled over the ASCII range: a [string] is a sequence of
    characters with codes below 128, and the classes the code relies on
    (white space, word characters, upper case) are the ASCII ones.  The
    host editor's API ([sublime.find_resources], [sublime.load_resource],
    [sublime.decode_value]) and the Python builtins whose results depend on
    number syntax ([int], [float], [repr]) are section variables. *)

From stdpp Require Import base list strings gmap pretty sorting.
From Stdlib Require Import ZArith Ascii Lia PrimFloat.

Local Open Scope Z_scope.
Local Open Scope nat_scope.

(** ** Python string methods used by the sources *)

Module PyStr.

Definition dquote : ascii := "034"%char.
Definition newline : ascii := "010"%char.
Definition tab : ascii := "009"%char.
Definition backslash : ascii := "092"%char.
Definition backtick : ascii := "096"%char.

Definition code_in (lo hi : nat) (c : ascii) : bool :=
  let n := nat_of_ascii c in (lo <=? n) && (n <=? hi).

(** [str.isspace] on one character: tab to carriage return, the four
    separators 28..31 and the blank. *)
Definition is_space (c : ascii) : bool :=
  code_in 9 13 c || code_in 28 32 c.

Fixpoint mem_char (c : ascii) (set : string) : bool :=
  match set with
  | EmptyString => false
  | String d set' => Ascii.eqb c d || mem_char c set'
  end.

Fixpoint lstrip_by (p : ascii -> bool) (s : string) : string :=
  match s with
  | EmptyString => EmptyString
  | String c s' => if p c then lstrip_by p s' else s
  end.

Fixpoint rstrip_by (p : ascii -> bool) (s : string) : string :=
  match s with
  | EmptyString => EmptyString
  | String c s' =>
      match rstrip_by p s' with
      | EmptyString => if p c then EmptyString else String c EmptyString
      | r => String c r
      end
  end.

(** [s.strip()] *)
Definition strip (s : string) : string :=
  rstrip_by is_space (lstrip_by is_space s).

(** [s.lstrip(chars)] and [s.rstrip(chars)] *)
Definition lstrip (s chars : string) : string :=
  lstrip_by (fun c => mem_char c chars) s.
Definition rstrip (s chars : string) : string :=
  rstrip_by (fun c => mem_char c chars) s.

(** [s.startswith(pre)] *)
Fixpoint startswith (s pre : string) : bool :=
  match pre, s with
  | EmptyString, _ => true
  | String _ _, EmptyString => false
  | String a pre', String b s' => Ascii.eqb a b && startswith s' pre'
  end.

(** [s[n:]] *)
Fixpoint slice_from (n : nat) (s : string) : string :=
  match n, s with
  | O, _ => s
  | S _, EmptyString => EmptyString
  | S n', String _ s' => slice_from n' s'
  end.

(** [s.endswith(suf)] *)
Definition endswith (s suf : string) : bool :=
  let n := String.length s in
  let k := String.length suf in
  (k <=? n) && String.eqb (slice_from (n - k) s) suf.

(** [sep.join(parts)] *)
Fixpoint join (sep : string) (parts : list string) : string :=
  match parts with
  | [] => EmptyString
  | [x] => x
  | x :: rest => x +:+ sep +:+ join sep rest
  end.

(** [needle in hay] on strings *)
Fixpoint contains (hay needle : string) : bool :=
  startswith hay needle ||
  match hay with
  | EmptyString => false
  | String _ hay' => contains hay' needle
  end.

(** [s.split(sep)] for a separator of one character *)
Fixpoint split (sep : ascii) (s : string) : list string :=
  match s with
  | EmptyString => [EmptyString]
  | String c s' =>
      if Ascii.eqb c sep then EmptyString :: split sep s'
      else match split sep s' with
           | h :: r => String c h :: r
           | [] => [String c EmptyString]
           end
  end.

(** [s.rpartition(sep)] for a separator of one character: the text before
    the last separator, the separator, and the text after it; two empty
    strings and [s] when [s] has no separator. *)
Fixpoint rpartition (sep : ascii) (s : string) : string * string * string :=
  match s with
  | EmptyString => (EmptyString, EmptyString, EmptyString)
  | String c s' =>
      match rpartition sep s' with
      | (h, EmptyString, t) =>
          if Ascii.eqb c sep then (EmptyString, String sep EmptyString, t)
          else (EmptyString, EmptyString, String c t)
      | (h, m, t) => (String c h, m, t)
      end
  end.

Definition lower_char (c : ascii) : ascii :=
  if code_in 65 90 c then ascii_of_nat (nat_of_ascii c + 32) else c.

(** [s.lower()] *)
Fixpoint lower (s : string) : string :=
  match s with
  | EmptyString => EmptyString
  | String c s' => String (lower_char c) (lower s')
  end.

(** Line boundaries of [str.splitlines]: line feed, vertical tab, form feed,
    carriage return and the separators 28..30. *)
Definition is_linebreak (c : ascii) : bool :=
  code_in 10 13 c || code_in 28 30 c.

Fixpoint splitlines_go (cur : string) (s : string) : list string :=
  match s with
  | EmptyString => match cur with EmptyString => [] | _ => [cur] end
  | String c s' =>
      if is_linebreak c then
        match c, s' with
        | "013"%char, String "010"%char s'' => cur :: splitlines_go EmptyString s''
        | _, _ => cur :: splitlines_go EmptyString s'
        end
      else splitlines_go (cur +:+ String c EmptyString) s'
  end.

(** [s.splitlines()] *)
Definition splitlines (s : string) : list string :=
  splitlines_go EmptyString s.

(** [os.path.splitext(p)] with the separator [/]: the extension starts at
    the last dot of the last path component, unless only dots precede that
    dot in the component; without an extension the second part is empty. *)
Definition splitext (p : string) : string * string :=
  match rpartition "/" p with
  | (dir, slash, base) =>
      match rpartition "." base with
      | (_, EmptyString, _) => (p, EmptyString)
      | (stem, _, ext) =>
          match lstrip_by (Ascii.eqb ".") stem with
          | EmptyString => (p, EmptyString)
          | _ => (dir +:+ slash +:+ stem, String "." ext)
          end
      end
  end.

Definition nl : string := String newline EmptyString.

Definition is_empty (s : string) : bool :=
  match s with EmptyString => true | _ => false end.

End PyStr.

Example strip_ex : PyStr.strip "   // a b  " = "// a b".
Proof. reflexivity. Qed.
Example rstrip_ex :
  PyStr.rstrip "  end of it **/ " ("*/ " +:+ String PyStr.tab "") = "  end of it".
Proof. reflexivity. Qed.
Example split_ex : PyStr.split "." "comment.line." = ["comment"; "line"; ""].
Proof. reflexivity. Qed.
Example rpartition_ex :
  PyStr.rpartition "." "source.python" = ("source", ".", "python").
Proof. reflexivity. Qed.
Example rpartition_none : PyStr.rpartition "." "python" = ("", "", "python").
Proof. reflexivity. Qed.
Example splitext_ex :
  PyStr.splitext "Python.sublime-settings" = ("Python", ".sublime-settings").
Proof. reflexivity. Qed.
Example splitext_dotfile : PyStr.splitext "a/.hidden" = ("a/.hidden", "").
Proof. reflexivity. Qed.
Example splitlines_ex :
  PyStr.splitlines (String "a" (String PyStr.newline (String PyStr.newline (String "b" (String "013" (String PyStr.newline ""))))))
  = ["a"; ""; "b"].
Proof. reflexivity. Qed.

(** ** Python values, exceptions and outcomes *)

Module Py.

(** The exception classes the modelled code can meet; all derive from
    [Exception]. *)
Inductive exn : Type :=
| ValueError
| AttributeError
| TypeError
| StopIteration
| IOError.

(** Decoded JSON values and the values completions carry. *)
#[warnings="-register-all"]
Inductive value : Type :=
| VNone
| VBool (b : bool)
| VInt (n : Z)
| VFloat (x : float)
| VStr (s : string)
| VList (items : list value)
| VDict (items : list (string * value)).

(** The result of evaluating a call: a value or a raised exception. *)
Inductive outcome (A : Type) : Type :=
| Return (a : A)
| Raise (e : exn).

Arguments Return {A} a.
Arguments Raise {A} e.

(** [type(v).__name__] *)
Definition type_name (v : value) : string :=
  match v with
  | VNone => "NoneType"
  | VBool _ => "bool"
  | VInt _ => "int"
  | VFloat _ => "float"
  | VStr _ => "str"
  | VList _ => "list"
  | VDict _ => "dict"
  end.

(** Whether [hash(v)] succeeds: lists and dicts are unhashable. *)
Definition hashable (v : value) : bool :=
  match v with
  | VList _ | VDict _ => false
  | _ => true
  end.

(** [v.items()]: only a dict has the method; its pairs come in insertion
    order and a dict holds each key once. *)
Definition py_items (v : value) : outcome (list (string * value)) :=
  match v with
  | VDict d => Return d
  | _ => Raise AttributeError
  end.

(** First binding of [k] in the pairs of a dict. *)
Fixpoint dict_get (k : string) (d : list (string * value)) : option value :=
  match d with
  | [] => None
  | (k', v) :: d' => if String.eqb k k' then Some v else dict_get k d'
  end.

End Py.

Export Py.

(** ** [src/settings.py] *)

Module Settings.

Definition PREF_FILE : string := "Preferences.sublime-settings".

(** What the code sends to its logger [l] and, last, the call of the
    [on_loaded] callback; kept in order so that the resources a scan
    touches can be read back. *)
Inductive event : Type :=
| DebugLoading (filename : string)
| DebugFound (n : nat) (filename : string)
| DebugSyntaxSpecific (resource : string)
| DebugParsing (resource : string)
| ErrorParsing (resource : string) (e : exn)
| DebugLoadingTook
| DebugBuilding (key : string)
| CallOnLoaded.

(** The fields of a [KnownSettings] object. [on_loaded] records whether a
    callback was given. *)
Record KnownSettings : Type := mkKnownSettings {
  filename : string;
  on_loaded : bool;
  defaults : gmap string value;
  comments : gmap string string;
  trace : list event
}.

Definition set_defaults (d : gmap string value) (self : KnownSettings) :=
  mkKnownSettings (filename self) (on_loaded self) d (comments self) (trace self).
Definition set_comments (c : gmap string string) (self : KnownSettings) :=
  mkKnownSettings (filename self) (on_loaded self) (defaults self) c (trace self).
Definition add_event (e : event) (self : KnownSettings) :=
  mkKnownSettings (filename self) (on_loaded self) (defaults self)
    (comments self) (trace self ++ [e]).

(** [trigger_settings_reload] resets both dictionaries before the scan is
    scheduled. *)
Definition trigger_settings_reload (self : KnownSettings) : KnownSettings :=
  set_comments ∅ (set_defaults ∅ self).

(** *** Methods as computations over the object

    A method body is a function from the object's state to an outcome and
    the state it leaves behind; a raised exception keeps the state reached
    when it was raised. *)

Definition M (A : Type) : Type := KnownSettings -> outcome A * KnownSettings.

Definition ret {A} (a : A) : M A := fun self => (Return a, self).

Definition bind {A B} (m : M A) (k : A -> M B) : M B :=
  fun self =>
    match m self with
    | (Return a, self') => k a self'
    | (Raise e, self') => (Raise e, self')
    end.

Definition lift {A} (o : outcome A) : M A := fun self => (o, self).

Definition get_self : M KnownSettings := fun self => (Return self, self).

Definition update (f : KnownSettings -> KnownSettings) : M unit :=
  fun self => (Return tt, f self).

Definition emit (e : event) : M unit := update (add_event e).

(** [try: body except Exception as e: handler e] *)
Definition try_except {A} (body : M A) (handler : exn -> M A) : M A :=
  fun self =>
    match body self with
    | (Raise e, self') => handler e self'
    | r => r
    end.

Declare Scope py_scope.
Delimit Scope py_scope with py.
Notation "x <- c1 ;; c2" := (bind c1 (fun x => c2))
  (at level 100, c1 at next level, right associativity) : py_scope.
Notation "c1 ;; c2" := (bind c1 (fun _ => c2))
  (at level 100, right associativity) : py_scope.
Local Open Scope py_scope.

(** [for x in xs: body x] *)
Fixpoint for_each {A} (xs : list A) (body : A -> M unit) : M unit :=
  match xs with
  | [] => ret tt
  | x :: xs' => body x ;; for_each xs' body
  end.

(** A [for] loop whose body rebinds local variables [L]. *)
Fixpoint for_fold {A L} (xs : list A) (body : L -> A -> M L) (l : L) : M L :=
  match xs with
  | [] => ret l
  | x :: xs' => l' <- body l x ;; for_fold xs' body l'
  end.

(** *** The key pattern of [_parse_settings]

    [re.match] anchors the pattern at the start of the stripped line: a
    double quote, group 1, a double quote and a colon. Group 1 is a starred
    alternation of a character that is no double quote and of a backslash
    followed by any character but a line feed. [key_body] matches the group
    and the closing quote and colon in the order of a backtracking matcher:
    one more plain character, else one more escaped pair, else the end of
    the group. It returns group 1. *)
Fixpoint key_body (s : string) : option string :=
  match s with
  | EmptyString => None
  | String c rest =>
      let plain :=
        if Ascii.eqb c PyStr.dquote then None
        else String c <$> key_body rest in
      let escaped :=
        if Ascii.eqb c PyStr.backslash then
          match rest with
          | String d rest' =>
              if Ascii.eqb d PyStr.newline then None
              else (fun k => String c (String d k)) <$> key_body rest'
          | EmptyString => None
          end
        else None in
      let close :=
        if Ascii.eqb c PyStr.dquote then
          match rest with
          | String ":" _ => Some EmptyString
          | _ => None
          end
        else None in
      match plain with
      | Some k => Some k
      | None => match escaped with Some k => Some k | None => close end
      end
  end.

Definition re_match_key (stripped : string) : option string :=
  match stripped with
  | String c rest => if Ascii.eqb c PyStr.dquote then key_body rest else None
  | EmptyString => None
  end.

Definition q (s : string) : string :=
  String PyStr.dquote s +:+ String PyStr.dquote "".

(** *** The scan and the loader *)

(** The local variables of the loop in [_parse_settings]. *)
Record scan : Type := mkScan {
  content : list string;
  comment : list string;
  in_comment : bool
}.

Definition comment_append (x : string) (sc : scan) : scan :=
  mkScan (content sc) (comment sc ++ [x]) (in_comment sc).
Definition content_append (x : string) (sc : scan) : scan :=
  mkScan (content sc ++ [x]) (comment sc) (in_comment sc).
Definition comment_clear (sc : scan) : scan :=
  mkScan (content sc) [] (in_comment sc).
Definition set_in_comment (b : bool) (sc : scan) : scan :=
  mkScan (content sc) (comment sc) b.

(** [d.setdefault(k, v)] *)
Definition setdefault {V} (k : string) (v : V) (d : gmap string V) : gmap string V :=
  match d !! k with
  | Some _ => d
  | None => <[k := v]> d
  end.

Definition ignored_patterns : list string := ["/User/"; "/Preferences Editor/"].
Definition syntax_file_exts : list string := [".sublime-syntax"; ".tmLanguage"].

Section Host.

(** [sublime.find_resources], [sublime.load_resource] and
    [sublime.decode_value] of the host editor. *)
Variable find_resources : string -> list string.
Variable load_resource : string -> outcome string.
Variable sublime_decode_value : string -> outcome value.

(** [textwrap.dedent] of the host's Python. *)
Variable dedent : string -> string.

(** The body of the loop over [lines] in [_parse_settings]. *)
Definition parse_line (sc : scan) (line : string) : M scan :=
  let stripped := PyStr.strip line in
  if in_comment sc then
    if PyStr.endswith stripped "*/" then
      let sc := set_in_comment false sc in
      let line := PyStr.rstrip line ("*/ " +:+ String PyStr.tab "") in
      if PyStr.is_empty line then ret sc else ret (comment_append line sc)
    else if PyStr.startswith stripped "* " then
      ret (comment_append (PyStr.slice_from 2 stripped) sc)
    else ret (comment_append line sc)
  else if PyStr.is_empty stripped then ret sc
  else if PyStr.startswith stripped "/*" then
    let sc := set_in_comment true sc in
    let stripped := PyStr.lstrip (PyStr.slice_from 2 stripped) "*" in
    if PyStr.is_empty stripped then ret sc else ret (comment_append stripped sc)
  else if PyStr.startswith stripped "//" then
    let stripped := PyStr.slice_from 2 stripped in
    if PyStr.is_empty stripped || negb (PyStr.endswith stripped "//")
    then ret (comment_append stripped sc)
    else ret sc
  else
    let sc := content_append line sc in
    match comment sc with
    | [] => ret sc
    | _ :: _ =>
        match re_match_key stripped with
        | None => ret sc
        | Some key =>
            self <- get_self ;;
            match comments self !! key with
            | Some _ => ret tt
            | None =>
                update (set_comments
                  (<[key := dedent (PyStr.join PyStr.nl (comment sc))]> (comments self)))
            end ;;
            ret (comment_clear sc)
        end
    end.

Definition _parse_settings (lines : list string) : M value :=
  sc <- for_fold lines parse_line (mkScan [] [] false) ;;
  lift (sublime_decode_value (PyStr.join PyStr.nl (content sc))).

Fixpoint syntax_def_exists (name_no_ext : string) (exts : list string) : M bool :=
  match exts with
  | [] => ret false
  | ext :: exts' =>
      match find_resources (name_no_ext +:+ ext) with
      | r0 :: _ => emit (DebugSyntaxSpecific r0) ;; ret true
      | [] => syntax_def_exists name_no_ext exts'
      end
  end.

Definition _is_syntax_specific : M bool :=
  self <- get_self ;;
  let name_no_ext := fst (PyStr.splitext (filename self)) in
  syntax_def_exists name_no_ext syntax_file_exts.

(** The statement under the loop over [items()] in [_load_settings]. *)
Definition merge_entry (kv : string * value) : M unit :=
  update (fun self => set_defaults (setdefault kv.1 kv.2 (defaults self)) self).

(** The body of the loop over [resources] in [_load_settings]. *)
Definition load_resource_into (resource : string) : M unit :=
  if existsb (PyStr.contains resource) ignored_patterns then ret tt
  else
    try_except
      (emit (DebugParsing resource) ;;
       text <- lift (load_resource resource) ;;
       parsed <- _parse_settings (PyStr.splitlines text) ;;
       items <- lift (py_items parsed) ;;
       for_each items merge_entry)
      (fun e => emit (ErrorParsing resource e)).

(** The list [resources] as it stands when the loop starts. *)
Definition collect_resources : M (list string) :=
  self <- get_self ;;
  let resources :=
    find_resources (filename self) ++ find_resources (filename self +:+ "-hints") in
  emit (DebugFound (length resources) (filename self)) ;;
  specific <- _is_syntax_specific ;;
  if specific then
    let pref_resources :=
      find_resources PREF_FILE ++ find_resources (PREF_FILE +:+ "-hints") in
    emit (DebugFound (length resources) PREF_FILE) ;;
    ret (resources ++ pref_resources)
  else ret resources.

Definition _load_settings : M unit :=
  self <- get_self ;;
  emit (DebugLoading (filename self)) ;;
  resources <- collect_resources ;;
  for_each resources load_resource_into ;;
  emit DebugLoadingTook ;;
  self <- get_self ;;
  if on_loaded self then emit CallOnLoaded else ret tt.

(** *** Value completions *)

(** [int(s)] and [float(s)]: [None] stands for the [ValueError] of a string
    that is no number. [repr] is [str(v)] for floats, lists and dicts. *)
Variable py_int : string -> option Z.
Variable py_float : string -> option float.
Variable repr : value -> string.

(** The completions of the two special-cased keys,
    [_color_scheme_completions] and [_theme_completions]. *)
Variable _color_scheme_completions : M (option (list (string * value))).
Variable _theme_completions : M (option (list (string * value))).

Definition decode_value (s : string) : outcome value :=
  if String.eqb (PyStr.lower s) "true" then Return (VBool true)
  else if String.eqb (PyStr.lower s) "false" then Return (VBool false)
  else
    match py_int s with
    | Some n => Return (VInt n)
    | None =>
        match py_float s with
        | Some x => Return (VFloat x)
        | None => Raise ValueError
        end
    end.

(** [str(v)], as [str.format] renders its argument. *)
Definition py_str (v : value) : string :=
  match v with
  | VNone => "None"
  | VBool true => "True"
  | VBool false => "False"
  | VInt n => pretty n
  | VStr s => s
  | _ => repr v
  end.

Definition format_completion_item (v : value) : string * value :=
  (py_str v +:+ "  " +:+ String PyStr.tab "" +:+ type_name v, v).

(** A Python [set] of completion items, kept as the list of the items added
    to it; only membership and emptiness of it are observed. Adding a
    tuple hashes its members, which raises [TypeError] on a list or dict. *)
Definition set_add (x : string * value) (s : list (string * value))
  : outcome (list (string * value)) :=
  if hashable x.2 then Return (s ++ [x]) else Raise TypeError.

Fixpoint set_update (xs : list (string * value)) (s : list (string * value))
  : outcome (list (string * value)) :=
  match xs with
  | [] => Return s
  | x :: xs' =>
      match set_add x s with
      | Return s' => set_update xs' s'
      | Raise e => Raise e
      end
  end.

(** [try: v = call except ValueError: pass], with [v] bound to [fallback]
    before. *)
Definition or_on_value_error (call : outcome value) (fallback : value) : outcome value :=
  match call with
  | Raise ValueError => Return fallback
  | o => o
  end.

(** Group 1 of each match of [re.finditer] for a pattern made of an opening
    delimiter, one or more characters of a class that excludes the
    delimiter, and the closing delimiter. [opened] holds the characters
    read since the last candidate opening delimiter. *)
Fixpoint delimited_groups (delim : ascii) (inside : ascii -> bool)
    (opened : option string) (s : string) : list string :=
  match s with
  | EmptyString => []
  | String c s' =>
      match opened with
      | None =>
          delimited_groups delim inside
            (if Ascii.eqb c delim then Some EmptyString else None) s'
      | Some acc =>
          if Ascii.eqb c delim then
            match acc with
            | EmptyString => delimited_groups delim inside (Some EmptyString) s'
            | _ => acc :: delimited_groups delim inside None s'
            end
          else if inside c then
            delimited_groups delim inside (Some (acc +:+ String c EmptyString)) s'
          else delimited_groups delim inside None s'
      end
  end.

(** The class of the backtick pattern: no backtick, no line feed. *)
Definition in_backticks (c : ascii) : bool :=
  negb (Ascii.eqb c PyStr.backtick) && negb (Ascii.eqb c PyStr.newline).

(** The class of the quoted-token pattern: a dot or a word character. *)
Definition is_word (c : ascii) : bool :=
  PyStr.code_in 48 57 c || PyStr.code_in 65 90 c || PyStr.code_in 97 122 c
  || Ascii.eqb c "_".
Definition in_token (c : ascii) : bool := Ascii.eqb c "." || is_word c.

Definition backticked (comment : string) : list string :=
  delimited_groups PyStr.backtick in_backticks None comment.
Definition quoted_tokens (comment : string) : list string :=
  delimited_groups PyStr.dquote in_token None comment.

(** The body of the first loop of [_completions_from_comment]. *)
Definition add_backticked (completions : list (string * value)) (raw : string)
  : outcome (list (string * value)) :=
  match or_on_value_error (sublime_decode_value raw) (VStr raw) with
  | Raise e => Raise e
  | Return (VList vs) => set_update (format_completion_item <$> vs) completions
  | Return v => set_add (format_completion_item v) completions
  end.

(** The body of its second loop. *)
Definition add_quoted (completions : list (string * value)) (raw : string)
  : outcome (list (string * value)) :=
  match or_on_value_error (decode_value raw) (VStr raw) with
  | Raise e => Raise e
  | Return v => set_add (format_completion_item v) completions
  end.

Fixpoint fold_outcome {A B} (f : B -> A -> outcome B) (xs : list A) (b : B) : outcome B :=
  match xs with
  | [] => Return b
  | x :: xs' =>
      match f b x with
      | Return b' => fold_outcome f xs' b'
      | Raise e => Raise e
      end
  end.

Definition _completions_from_comment (key : string)
  : M (option (list (string * value))) :=
  self <- get_self ;;
  match comments self !! key with
  | None | Some EmptyString => ret None
  | Some comment =>
      completions <- lift (fold_outcome add_backticked (backticked comment) []) ;;
      completions <- lift (fold_outcome add_quoted (quoted_tokens comment) completions) ;;
      ret (Some completions)
  end.

Definition _completions_from_default (key : string)
  : M (option (list (string * value))) :=
  self <- get_self ;;
  match defaults self !! key with
  | None | Some VNone => ret None
  | Some (VBool _) =>
      completions <- lift (set_update
        [format_completion_item (VBool false); format_completion_item (VBool true)] []) ;;
      ret (Some completions)
  | Some (VList items) =>
      completions <- lift (set_update (format_completion_item <$> items) []) ;;
      ret (Some completions)
  | Some default =>
      completions <- lift (set_update [format_completion_item default] []) ;;
      ret (Some completions)
  end.

Definition _value_completions_for (key : string)
  : M (option (list (string * value))) :=
  if String.eqb key "color_scheme" then _color_scheme_completions
  else if String.eqb key "theme" then _theme_completions
  else
    emit (DebugBuilding key) ;;
    completions <- _completions_from_comment key ;;
    match completions with
    | None | Some [] => _completions_from_default key
    | Some _ => ret completions
    end.

(** ** Properties of the scan *)

(** A line that the loop keeps as content when it is outside a block
    comment: not blank, and its stripped text opens no comment. *)
Definition is_content_line (line : string) : bool :=
  let stripped := PyStr.strip line in
  negb (PyStr.is_empty stripped)
  && negb (PyStr.startswith stripped "/*")
  && negb (PyStr.startswith stripped "//").

(** The run of the loop of [_parse_settings] from its initial variables. *)
Definition scan_lines (lines : list string) : M scan :=
  for_fold lines parse_line (mkScan [] [] false).

(** The content lines the scan retains; [content_independent] shows that
    the choice of the object does not matter. *)
Definition retained_content (lines : list string) (self : KnownSettings) : list string :=
  match (scan_lines lines self).1 with
  | Return sc => content sc
  | Raise _ => []
  end.

Lemma set_comments_id self : set_comments (comments self) self = self.
Proof. by destruct self. Qed.

Lemma set_comments_twice c1 c2 self :
  set_comments c2 (set_comments c1 self) = set_comments c2 self.
Proof. by destruct self. Qed.

Ltac run_m :=
  unfold emit; unfold bind, ret, lift, update, get_self, try_except; cbv beta iota.

(** One step of the loop returns, leaves everything but [comments] alone,
    and keeps every comment already stored. *)
Lemma parse_line_effect sc line self :
  ∃ sc' cm,
    parse_line sc line self = (Return sc', set_comments cm self)
    ∧ (∀ k c, comments self !! k = Some c → cm !! k = Some c).
Proof.
  unfold parse_line.
  repeat case_match; run_m; repeat case_match; simplify_eq;
    try (eexists _, (comments _); rewrite set_comments_id; split; [reflexivity|done]).
  eexists _, _. split; [reflexivity|].
  intros k' c' Hk. rewrite lookup_insert_ne; [done|]. intros ->. congruence.
Qed.

Lemma parse_line_scan_independent sc line self1 self2 :
  (parse_line sc line self1).1 = (parse_line sc line self2).1.
Proof.
  unfold parse_line. repeat case_match; run_m; repeat case_match; done.
Qed.

Lemma for_fold_parse_effect lines : ∀ sc self,
  ∃ sc' cm,
    for_fold lines parse_line sc self = (Return sc', set_comments cm self)
    ∧ (∀ k c, comments self !! k = Some c → cm !! k = Some c).
Proof.
  induction lines as [|line lines IH]; intros sc self; simpl.
  - exists sc, (comments self). by rewrite set_comments_id.
  - destruct (parse_line_effect sc line self) as (sc1 & cm1 & E1 & K1).
    destruct (IH sc1 (set_comments cm1 self)) as (sc2 & cm2 & E2 & K2).
    exists sc2, cm2. unfold bind. rewrite E1, E2, set_comments_twice.
    split; [done|]. intros k c Hk. apply K2. simpl. by apply K1.
Qed.

Lemma for_fold_scan_independent lines : ∀ sc self1 self2,
  (for_fold lines parse_line sc self1).1 = (for_fold lines parse_line sc self2).1.
Proof.
  induction lines as [|line lines IH]; intros sc self1 self2; simpl; [done|].
  unfold bind.
  pose proof (parse_line_scan_independent sc line self1 self2) as E.
  destruct (parse_line_effect sc line self1) as (sc1 & cm1 & E1 & _).
  destruct (parse_line_effect sc line self2) as (sc2 & cm2 & E2 & _).
  rewrite E1, E2 in *. simpl in E. simplify_eq. apply IH.
Qed.

Lemma content_independent lines self1 self2 :
  retained_content lines self1 = retained_content lines self2.
Proof.
  unfold retained_content, scan_lines.
  by rewrite (for_fold_scan_independent lines _ self1 self2).
Qed.

(** Outside a block comment a content line joins [content]; nothing else
    of the loop's variables changes but, at most, [comment] being cleared. *)
Lemma parse_line_content sc line self :
  in_comment sc = false → is_content_line line = true →
  ∃ sc' self',
    parse_line sc line self = (Return sc', self')
    ∧ content sc' = content sc ++ [line] ∧ in_comment sc' = false.
Proof.
  intros Hin Hline. unfold is_content_line in Hline.
  apply andb_prop in Hline as [Hline H3]. apply andb_prop in Hline as [H1 H2].
  apply negb_true_iff in H1, H2, H3.
  unfold parse_line. rewrite Hin, H1, H2, H3.
  repeat case_match; run_m; repeat case_match; simplify_eq;
    eexists _, _; (split; [reflexivity|]); done.
Qed.

Lemma for_fold_content lines : ∀ sc self,
  in_comment sc = false → Forall (λ l, is_content_line l = true) lines →
  ∃ sc' self',
    for_fold lines parse_line sc self = (Return sc', self')
    ∧ content sc' = content sc ++ lines ∧ in_comment sc' = false.
Proof.
  induction lines as [|line lines IH]; intros sc self Hin Hall; simpl.
  - exists sc, self. by rewrite app_nil_r.
  - inversion Hall as [|? ? Hline Hrest]; subst.
    destruct (parse_line_content sc line self Hin Hline) as (sc1 & self1 & E1 & C1 & I1).
    destruct (IH sc1 self1 I1 Hrest) as (sc2 & self2 & E2 & C2 & I2).
    exists sc2, self2. unfold bind. rewrite E1, E2. split; [done|].
    split; [|done]. by rewrite C2, C1, <- app_assoc.
Qed.

(** Whatever the loop appends to [content] is a content line. *)
Lemma parse_line_keeps_content_lines sc line self :
  ∃ sc' self' kept,
    parse_line sc line self = (Return sc', self')
    ∧ content sc' = content sc ++ kept
    ∧ Forall (λ l, is_content_line l = true) kept.
Proof.
  unfold parse_line.
  destruct (in_comment sc) eqn:Hin.
  { repeat case_match; run_m; eexists _, _, []; rewrite app_nil_r; done. }
  destruct (PyStr.is_empty (PyStr.strip line)) eqn:H1.
  { run_m; eexists _, _, []; rewrite app_nil_r; done. }
  destruct (PyStr.startswith (PyStr.strip line) "/*") eqn:H2.
  { repeat case_match; run_m; eexists _, _, []; rewrite app_nil_r; done. }
  destruct (PyStr.startswith (PyStr.strip line) "//") eqn:H3.
  { repeat case_match; run_m; eexists _, _, []; rewrite app_nil_r; done. }
  assert (is_content_line line = true) as Hline.
  { unfold is_content_line. by rewrite H1, H2, H3. }
  repeat case_match; run_m; repeat case_match; simplify_eq;
    eexists _, _, [line]; (split; [reflexivity|]); (split; [done|]); by constructor.
Qed.

Lemma for_fold_keeps_content_lines lines : ∀ sc self,
  ∃ sc' self' kept,
    for_fold lines parse_line sc self = (Return sc', self')
    ∧ content sc' = content sc ++ kept
    ∧ Forall (λ l, is_content_line l = true) kept.
Proof.
  induction lines as [|line lines IH]; intros sc self; simpl.
  - exists sc, self, []. by rewrite app_nil_r.
  - destruct (parse_line_keeps_content_lines sc line self) as (sc1 & self1 & k1 & E1 & C1 & F1).
    destruct (IH sc1 self1) as (sc2 & self2 & k2 & E2 & C2 & F2).
    exists sc2, self2, (k1 ++ k2). unfold bind. rewrite E1, E2. split; [done|].
    split; [by rewrite C2, C1, <- app_assoc|]. by apply Forall_app.
Qed.

Lemma retained_content_lines lines self :
  Forall (λ l, is_content_line l = true) (retained_content lines self).
Proof.
  unfold retained_content, scan_lines.
  destruct (for_fold_keeps_content_lines lines (mkScan [] [] false) self)
    as (sc & self' & kept & E & C & F).
  rewrite E. simpl. by rewrite C.
Qed.

Lemma retained_content_fixed lines self :
  Forall (λ l, is_content_line l = true) lines → retained_content lines self = lines.
Proof.
  intros Hall. unfold retained_content, scan_lines.
  destruct (for_fold_content lines (mkScan [] [] false) self eq_refl Hall)
    as (sc & self' & E & C & _).
  rewrite E. simpl. by rewrite C.
Qed.

(** The stripping pass is idempotent on every input. *)
Lemma retained_content_idempotent lines self self' :
  retained_content (retained_content lines self) self' = retained_content lines self.
Proof. apply retained_content_fixed, retained_content_lines. Qed.

(** C8. Comment stripping is idempotent on already-stripped text: when no
    line of the input is blank or a comment line, the content lines the
    parser retains are exactly the input lines, and a second pass over its
    own output returns that output unchanged. *)
Theorem comment_stripping_idempotent lines self :
  Forall (λ l, is_content_line l = true) lines →
  retained_content lines self = lines
  ∧ retained_content (retained_content lines self) self = retained_content lines self.
Proof.
  intros Hall. split.
  - by apply retained_content_fixed.
  - apply retained_content_idempotent.
Qed.

(** ** Properties of the loader *)

Definition is_ignored (resource : string) : bool :=
  existsb (PyStr.contains resource) ignored_patterns.

(** An object with empty fields, to name results that do not depend on the
    object. *)
Definition blank : KnownSettings := mkKnownSettings "" false ∅ ∅ [].

(** The comments table as the loop of [_parse_settings] leaves it. *)
Definition harvested (lines : list string) (self : KnownSettings) : gmap string string :=
  comments (scan_lines lines self).2.

(** What [_parse_settings] returns or raises for these lines. *)
Definition decoded (lines : list string) : outcome value :=
  sublime_decode_value (PyStr.join PyStr.nl (retained_content lines blank)).

(** The exception, if any, that loading and parsing a resource raises. *)
Definition resource_failure (resource : string) : option exn :=
  match load_resource resource with
  | Raise e => Some e
  | Return text =>
      match decoded (PyStr.splitlines text) with
      | Raise e => Some e
      | Return v =>
          match py_items v with
          | Raise e => Some e
          | Return _ => None
          end
      end
  end.

(** The entries a resource contributes: those of the dict it decodes to,
    when it is not ignored and nothing raises. *)
Definition resource_entries (resource : string) : option (list (string * value)) :=
  if is_ignored resource then None
  else
    match load_resource resource with
    | Raise _ => None
    | Return text =>
        match decoded (PyStr.splitlines text) with
        | Return (VDict d) => Some d
        | _ => None
        end
    end.

(** The value a resource defines for a key. *)
Definition defines (resource key : string) : option value :=
  match resource_entries resource with
  | Some d => dict_get key d
  | None => None
  end.

Definition merge_all (items : list (string * value)) (d : gmap string value)
  : gmap string value :=
  foldl (λ d kv, setdefault kv.1 kv.2 d) d items.

(** The object after the loop body has run for one resource. *)
Definition after_resource (resource : string) (self : KnownSettings) : KnownSettings :=
  if is_ignored resource then self
  else
    let self1 := add_event (DebugParsing resource) self in
    match load_resource resource with
    | Raise e => add_event (ErrorParsing resource e) self1
    | Return text =>
        let lines := PyStr.splitlines text in
        let self2 := set_comments (harvested lines self1) self1 in
        match decoded lines with
        | Raise e => add_event (ErrorParsing resource e) self2
        | Return v =>
            match py_items v with
            | Raise e => add_event (ErrorParsing resource e) self2
            | Return items => set_defaults (merge_all items (defaults self2)) self2
            end
        end
    end.

Lemma set_defaults_id self : set_defaults (defaults self) self = self.
Proof. by destruct self. Qed.

Lemma for_each_merge items : ∀ self,
  for_each items merge_entry self
  = (Return tt, set_defaults (merge_all items (defaults self)) self).
Proof.
  induction items as [|kv items IH]; intros self; simpl.
  - unfold ret. by rewrite set_defaults_id.
  - unfold bind, merge_entry at 1, update. rewrite IH. by destruct self.
Qed.

Lemma setdefault_lookup {V} (k k' : string) (v : V) (d : gmap string V) :
  setdefault k v d !! k'
  = match d !! k' with
    | Some w => Some w
    | None => if String.eqb k' k then Some v else None
    end.
Proof.
  unfold setdefault. destruct (String.eqb_spec k' k) as [->|Hne].
  - destruct (d !! k) eqn:E; [by rewrite E|by rewrite lookup_insert_eq].
  - destruct (d !! k) eqn:E; [by destruct (d !! k')|].
    rewrite lookup_insert_ne; [|done]. by destruct (d !! k').
Qed.

Lemma merge_all_lookup items : ∀ d k,
  merge_all items d !! k
  = match d !! k with Some v => Some v | None => dict_get k items end.
Proof.
  induction items as [|[k0 v0] items IH]; intros d k; simpl.
  - by destruct (d !! k).
  - unfold merge_all in *. simpl. rewrite IH, setdefault_lookup.
    destruct (d !! k); [done|]. by destruct (String.eqb k k0).
Qed.

Lemma scan_lines_run lines self :
  ∃ sc, scan_lines lines self = (Return sc, set_comments (harvested lines self) self)
        ∧ content sc = retained_content lines blank.
Proof.
  unfold harvested, retained_content.
  pose proof (for_fold_scan_independent lines (mkScan [] [] false) self blank) as Hind.
  unfold scan_lines in *.
  destruct (for_fold_parse_effect lines (mkScan [] [] false) self) as (sc & cm & E & _).
  destruct (for_fold_parse_effect lines (mkScan [] [] false) blank) as (sc' & cm' & E' & _).
  rewrite E, E' in *. simpl in *. simplify_eq. exists sc'. split; [|done].
  by destruct self.
Qed.


Lemma _parse_settings_run lines self :
  _parse_settings lines self
  = (decoded lines, set_comments (harvested lines self) self).
Proof.
  unfold _parse_settings, decoded, bind, lift.
  destruct (scan_lines_run lines self) as (sc & E & C).
  unfold scan_lines in E. rewrite E. by rewrite C.
Qed.

(** The loop body never raises; it leaves the object [after_resource]. *)
Lemma load_resource_into_run resource self :
  load_resource_into resource self = (Return tt, after_resource resource self).
Proof.
  unfold load_resource_into, after_resource, is_ignored.
  destruct (existsb _ ignored_patterns); [done|].
  unfold try_except, bind at 1, emit at 1, update. unfold bind at 1, lift at 1.
  destruct (load_resource resource) as [text|e]; [|done].
  unfold bind at 1. rewrite _parse_settings_run.
  destruct (decoded (PyStr.splitlines text)) as [v|e]; [|done].
  unfold bind at 1, lift at 1.
  destruct (py_items v) as [items|e]; [|done].
  by rewrite for_each_merge.
Qed.

Lemma for_each_load_run resources : ∀ self,
  for_each resources load_resource_into self
  = (Return tt, foldl (λ s r, after_resource r s) self resources).
Proof.
  induction resources as [|r resources IH]; intros self; simpl; [done|].
  unfold bind. by rewrite load_resource_into_run, IH.
Qed.

Lemma after_resource_defaults resource self k :
  defaults (after_resource resource self) !! k
  = match defaults self !! k with
    | Some v => Some v
    | None => defines resource k
    end.
Proof.
  unfold after_resource, defines, resource_entries.
  destruct (is_ignored resource); [by destruct (defaults self !! k)|].
  destruct (load_resource resource) as [text|e];
    [|simpl; by destruct (defaults self !! k)].
  destruct (decoded (PyStr.splitlines text)) as [v|e];
    [|simpl; by destruct (defaults self !! k)].
  destruct v; simpl; try by destruct (defaults self !! k).
  apply merge_all_lookup.
Qed.


(** The first value a list of resources defines for a key, in scan order. *)
Fixpoint first_defined (key : string) (resources : list string) : option value :=
  match resources with
  | [] => None
  | r :: rs =>
      match defines r key with
      | Some v => Some v
      | None => first_defined key rs
      end
  end.

Lemma scan_defaults resources : ∀ self k,
  defaults (for_each resources load_resource_into self).2 !! k
  = match defaults self !! k with
    | Some v => Some v
    | None => first_defined k resources
    end.
Proof.
  intros self k. rewrite for_each_load_run. simpl. revert self.
  induction resources as [|r rs IH]; intros self; simpl.
  - by destruct (defaults self !! k).
  - rewrite IH, after_resource_defaults.
    destruct (defaults self !! k); [done|]. by destruct (defines r k).
Qed.

Lemma first_defined_app key pre r post v :
  Forall (λ r', defines r' key = None) pre → defines r key = Some v →
  first_defined key (pre ++ r :: post) = Some v.
Proof.
  induction 1 as [|r' pre Hr' _ IH]; intros Hr; simpl.
  - by rewrite Hr.
  - rewrite Hr'. by apply IH.
Qed.

Lemma first_defined_none key resources :
  Forall (λ r, defines r key = None) resources → first_defined key resources = None.
Proof. induction 1 as [|r rs Hr _ IH]; simpl; [done|]. by rewrite Hr. Qed.

(** C1. Merging parsed settings into [defaults] is first-write-wins. For
    every sequence of resources and every key: an entry that [defaults]
    already holds is never overwritten by the scan; a key that [defaults]
    does not hold yet ends with the value of the earliest resource in scan
    order that defines it; and a key no resource defines stays absent. *)
Theorem merge_first_write_wins resources self k :
  let after := (for_each resources load_resource_into self).2 in
  (∀ v, defaults self !! k = Some v → defaults after !! k = Some v)
  ∧ (∀ pre r post v,
        defaults self !! k = None →
        resources = pre ++ r :: post →
        Forall (λ r', defines r' k = None) pre →
        defines r k = Some v →
        defaults after !! k = Some v)
  ∧ (defaults self !! k = None →
     Forall (λ r, defines r k = None) resources →
     defaults after !! k = None).
Proof.
  simpl. rewrite scan_defaults. split; [|split].
  - by intros v ->.
  - intros pre r post v -> -> Hpre Hr. by apply first_defined_app.
  - intros -> Hall. by apply first_defined_none.
Qed.

(** *** Failures of single resources *)

Lemma after_resource_failure resource self e :
  is_ignored resource = false → resource_failure resource = Some e →
  ∃ cm,
    after_resource resource self
    = add_event (ErrorParsing resource e)
        (set_comments cm (add_event (DebugParsing resource) self)).
Proof.
  intros Hign Hfail. unfold after_resource, resource_failure in *. rewrite Hign.
  destruct (load_resource resource) as [text|e'].
  - exists (harvested (PyStr.splitlines text) (add_event (DebugParsing resource) self)).
    destruct (decoded (PyStr.splitlines text)) as [v|e']; [|by simplify_eq].
    destruct (py_items v) as [items|e']; by simplify_eq.
  - simplify_eq. exists (comments self). by destruct self.
Qed.

Lemma for_each_app {A} (xs ys : list A) (body : A → M unit) self :
  (for_each xs body self).1 = Return tt →
  for_each (xs ++ ys) body self = for_each ys body (for_each xs body self).2.
Proof.
  revert self. induction xs as [|x xs IH]; intros self; simpl; [done|].
  unfold bind. destruct (body x self) as [[[]|e] self1]; [|done]. apply IH.
Qed.

(** The list [resources] that the loop of [_load_settings] runs over. *)
Definition syntax_specific (name : string) : bool :=
  existsb
    (λ ext, match find_resources ((PyStr.splitext name).1 +:+ ext) with
            | [] => false
            | _ :: _ => true
            end)
    syntax_file_exts.

Definition resource_list (name : string) : list string :=
  find_resources name ++ find_resources (name +:+ "-hints")
  ++ (if syntax_specific name
      then find_resources PREF_FILE ++ find_resources (PREF_FILE +:+ "-hints")
      else []).

(** The resources a trace reports as parsed, in order. *)
Definition parsed_resources (tr : list event) : list string :=
  omap (λ e, match e with DebugParsing r => Some r | _ => None end) tr.

Definition add_events (evs : list event) (self : KnownSettings) : KnownSettings :=
  mkKnownSettings (filename self) (on_loaded self) (defaults self)
    (comments self) (trace self ++ evs).

Lemma syntax_def_exists_run name exts : ∀ self,
  ∃ evs,
    syntax_def_exists name exts self
    = (Return (existsb
                 (λ ext, match find_resources (name +:+ ext) with
                         | [] => false
                         | _ :: _ => true
                         end) exts),
       add_events evs self)
    ∧ parsed_resources evs = [].
Proof.
  induction exts as [|ext exts IH]; intros self; simpl.
  - exists []. unfold ret, add_events. rewrite app_nil_r. by destruct self.
  - destruct (find_resources (name +:+ ext)) as [|r0 rs]; simpl.
    + apply IH.
    + by exists [DebugSyntaxSpecific r0].
Qed.

Lemma collect_resources_run self :
  ∃ evs,
    collect_resources self
    = (Return (resource_list (filename self)), add_events evs self)
    ∧ parsed_resources evs = [].
Proof.
  unfold collect_resources, _is_syntax_specific, resource_list, syntax_specific.
  run_m.
  destruct (syntax_def_exists_run (PyStr.splitext (filename self)).1 syntax_file_exts
              (add_event
                 (DebugFound
                    (length (find_resources (filename self)
                             ++ find_resources (filename self +:+ "-hints")))
                    (filename self)) self))
    as (evs & E & Hevs).
  cbn [filename add_event] in *. rewrite E.
  set (n := length (find_resources (filename self)
                    ++ find_resources (filename self +:+ "-hints"))).
  destruct (existsb _ syntax_file_exts).
  - exists (DebugFound n (filename self) :: evs ++ [DebugFound n PREF_FILE]). split.
    + unfold add_events, add_event. simpl. rewrite <- !app_assoc. done.
    + unfold parsed_resources in *. simpl. rewrite omap_app, Hevs. done.
  - exists (DebugFound n (filename self) :: evs). split.
    + unfold add_events, add_event. simpl. rewrite <- !app_assoc, app_nil_r. done.
    + done.
Qed.

(** What follows the loop in [_load_settings]. *)
Definition finish (self : KnownSettings) : KnownSettings :=
  let self := add_event DebugLoadingTook self in
  if on_loaded self then add_event CallOnLoaded self else self.

Lemma _load_settings_run self :
  ∃ evs,
    parsed_resources evs = []
    ∧ _load_settings self
      = (Return tt,
         finish (foldl (λ s r, after_resource r s)
                   (add_events (DebugLoading (filename self) :: evs) self)
                   (resource_list (filename self)))).
Proof.
  unfold _load_settings. unfold bind at 1, get_self at 1.
  unfold bind at 1, emit at 1, update. unfold bind at 1.
  destruct (collect_resources_run (add_event (DebugLoading (filename self)) self))
    as (evs & E & Hevs).
  exists evs. split; [done|]. rewrite E. simpl filename.
  unfold bind at 1. rewrite for_each_load_run.
  unfold finish. run_m.
  replace (add_events evs (add_event (DebugLoading (filename self)) self))
    with (add_events (DebugLoading (filename self) :: evs) self).
  2:{ unfold add_events, add_event. simpl. by rewrite <- app_assoc. }
  by destruct (on_loaded _).
Qed.



Lemma after_resource_on_loaded resource self :
  on_loaded (after_resource resource self) = on_loaded self.
Proof. unfold after_resource. by repeat case_match. Qed.

Lemma scan_on_loaded resources : ∀ self,
  on_loaded (foldl (λ s r, after_resource r s) self resources) = on_loaded self.
Proof.
  induction resources as [|r rs IH]; intros self; simpl; [done|].
  by rewrite IH, after_resource_on_loaded.
Qed.

(** C3. A resource whose loading or parsing raises is caught and logged,
    contributes nothing to [defaults], and the scan goes on with the
    remaining resources: the loop and [_load_settings] as a whole always
    return normally, whatever the resources do. *)
Theorem resource_failure_is_contained resources self :
  (for_each resources load_resource_into self).1 = Return tt
  ∧ (_load_settings self).1 = Return tt
  ∧ (on_loaded self = true → last (trace (_load_settings self).2) = Some CallOnLoaded)
  ∧ ∀ pre r post e,
      resources = pre ++ r :: post →
      is_ignored r = false →
      resource_failure r = Some e →
      let before := (for_each pre load_resource_into self).2 in
      let after := (load_resource_into r before).2 in
      (load_resource_into r before).1 = Return tt
      ∧ defaults after = defaults before
      ∧ trace after = trace before ++ [DebugParsing r; ErrorParsing r e]
      ∧ for_each resources load_resource_into self
        = for_each post load_resource_into after.
Proof.
  split; [by rewrite for_each_load_run|].
  destruct (_load_settings_run self) as (evs & _ & E).
  split; [by rewrite E|]. split.
  - intros Hon. rewrite E. simpl. unfold finish. simpl.
    rewrite scan_on_loaded. simpl. rewrite Hon. simpl. apply last_snoc.
  - intros pre r post e -> Hign Hfail. simpl.
    rewrite for_each_app by by rewrite for_each_load_run.
    set (before := (for_each pre load_resource_into self).2).
    destruct (after_resource_failure r before e Hign Hfail) as (cm & Hcm).
    simpl. unfold bind. rewrite !load_resource_into_run. simpl. rewrite Hcm. simpl.
    by rewrite <- app_assoc.
Qed.

Lemma is_ignored_spec resource :
  is_ignored resource = true
  ↔ PyStr.contains resource "/User/" = true
    ∨ PyStr.contains resource "/Preferences Editor/" = true.
Proof.
  unfold is_ignored, ignored_patterns. simpl. rewrite orb_false_r.
  apply orb_true_iff.
Qed.




(** *** The comments table *)

Lemma parse_line_comments_only sc line self1 self2 :
  comments self1 = comments self2 →
  comments (parse_line sc line self1).2 = comments (parse_line sc line self2).2.
Proof.
  intros Hc. unfold parse_line.
  repeat case_match; run_m; rewrite <- ?Hc; repeat case_match; simplify_eq; simpl;
    by rewrite ?Hc.
Qed.

Lemma for_fold_comments_only lines : ∀ sc self1 self2,
  comments self1 = comments self2 →
  comments (for_fold lines parse_line sc self1).2
  = comments (for_fold lines parse_line sc self2).2.
Proof.
  induction lines as [|line lines IH]; intros sc self1 self2 Hc; simpl; [done|].
  unfold bind.
  pose proof (parse_line_scan_independent sc line self1 self2) as Hsc.
  pose proof (parse_line_comments_only sc line self1 self2 Hc) as Hcm.
  destruct (parse_line_effect sc line self1) as (sc1 & cm1 & E1 & _).
  destruct (parse_line_effect sc line self2) as (sc2 & cm2 & E2 & _).
  rewrite E1, E2 in *. simpl in *. simplify_eq. by apply IH.
Qed.

Lemma harvested_comments_only lines self1 self2 :
  comments self1 = comments self2 → harvested lines self1 = harvested lines self2.
Proof. apply for_fold_comments_only. Qed.



(** ** Properties of the value completions *)





Lemma decode_value_raises s e :
  decode_value s = Raise e
  ↔ e = ValueError
    ∧ PyStr.lower s ≠ "true" ∧ PyStr.lower s ≠ "false"
    ∧ py_int s = None ∧ py_float s = None.
Proof.
  unfold decode_value. destruct (String.eqb_spec (PyStr.lower s) "true") as [E|E].
  { split; [done|]. by intros (_ & ? & _). }
  destruct (String.eqb_spec (PyStr.lower s) "false") as [E'|E'].
  { split; [done|]. by intros (_ & _ & ? & _). }
  destruct (py_int s) as [m|].
  { split; [done|]. by intros (_ & _ & _ & ? & _). }
  destruct (py_float s) as [y|].
  { split; [done|]. by intros (_ & _ & _ & _ & ?). }
  split; [intros; by simplify_eq|]. by intros (-> & _).
Qed.

(** The value the second loop of [_completions_from_comment] binds for a
    quoted token: the decoded boolean or number, or the token itself. *)
Definition token_value (raw : string) : value :=
  match decode_value raw with
  | Return v => v
  | Raise _ => VStr raw
  end.

Lemma decode_value_hashable s v : decode_value s = Return v → hashable v = true.
Proof. unfold decode_value. repeat case_match; intros; by simplify_eq. Qed.

Lemma add_quoted_run completions raw :
  add_quoted completions raw
  = Return (completions ++ [format_completion_item (token_value raw)]).
Proof.
  unfold add_quoted, token_value, or_on_value_error, set_add.
  destruct (decode_value raw) as [v|e] eqn:E.
  - simpl. by rewrite (decode_value_hashable _ _ E).
  - apply decode_value_raises in E as (-> & _). done.
Qed.

Lemma quoted_loop_run tokens : ∀ completions,
  fold_outcome add_quoted tokens completions
  = Return (completions ++ (format_completion_item ∘ token_value <$> tokens)).
Proof.
  induction tokens as [|t tokens IH]; intros completions; simpl.
  - by rewrite app_nil_r.
  - rewrite add_quoted_run, IH. by rewrite <- app_assoc.
Qed.

Lemma _completions_from_comment_run key self :
  _completions_from_comment key self
  = (match comments self !! key with
     | None | Some EmptyString => Return None
     | Some comment =>
         match fold_outcome add_backticked (backticked comment) [] with
         | Return acc =>
             Return (Some (acc ++ (format_completion_item ∘ token_value
                                     <$> quoted_tokens comment)))
         | Raise e => Raise e
         end
     end, self).
Proof.
  unfold _completions_from_comment. run_m.
  destruct (comments self !! key) as [[|c comment]|]; [done| |done].
  destruct (fold_outcome add_backticked _ []) as [acc|e]; [|done].
  by rewrite quoted_loop_run.
Qed.


Lemma set_update_hashable xs : ∀ acc,
  forallb (λ x, hashable x.2) xs = true → set_update xs acc = Return (acc ++ xs).
Proof.
  induction xs as [|x xs IH]; intros acc Hall; simpl in *.
  - by rewrite app_nil_r.
  - apply andb_prop in Hall as [Hx Hxs]. unfold set_add. rewrite Hx, IH by done.
    by rewrite <- app_assoc.
Qed.

Lemma set_update_unhashable xs : ∀ acc,
  forallb (λ x, hashable x.2) xs = false → set_update xs acc = Raise TypeError.
Proof.
  induction xs as [|x xs IH]; intros acc Hall; simpl in *; [done|].
  unfold set_add. destruct (hashable x.2); simpl in *; [by apply IH|done].
Qed.

Lemma forallb_items_hashable items :
  forallb (λ x : string * value, hashable x.2) (format_completion_item <$> items)
  = forallb hashable items.
Proof. induction items as [|v items IH]; csimpl; [done|]. by rewrite IH. Qed.

(** The outcome of [_completions_from_default], by the shape of the
    default. *)
Definition default_completions (default : option value)
  : outcome (option (list (string * value))) :=
  match default with
  | None | Some VNone => Return None
  | Some (VBool _) =>
      Return (Some [format_completion_item (VBool false);
                    format_completion_item (VBool true)])
  | Some (VList items) =>
      if forallb hashable items
      then Return (Some (format_completion_item <$> items))
      else Raise TypeError
  | Some (VDict d) => Raise TypeError
  | Some v => Return (Some [format_completion_item v])
  end.

Lemma _completions_from_default_run key self :
  _completions_from_default key self
  = (default_completions (defaults self !! key), self).
Proof.
  unfold _completions_from_default, default_completions. run_m.
  destruct (defaults self !! key) as [[]|]; try done.
  destruct (forallb hashable items) eqn:E.
  - rewrite set_update_hashable; [done|]. by rewrite forallb_items_hashable.
  - rewrite set_update_unhashable; [done|]. by rewrite forallb_items_hashable.
Qed.

(** Completions for a key that is not special-cased: those of the comment
    when the scan of the comment yields any, else those of the default; an
    exception of either pass goes to the caller. *)
Lemma _value_completions_for_run key self :
  key ≠ "color_scheme" → key ≠ "theme" →
  _value_completions_for key self
  = (match (_completions_from_comment key self).1 with
     | Return (Some (c :: cs)) => Return (Some (c :: cs))
     | Return _ => default_completions (defaults self !! key)
     | Raise e => Raise e
     end, add_event (DebugBuilding key) self).
Proof.
  intros H1 H2. unfold _value_completions_for.
  destruct (String.eqb_spec key "color_scheme"); [done|].
  destruct (String.eqb_spec key "theme"); [done|].
  unfold bind at 1, emit at 1, update. unfold bind at 1.
  rewrite !_completions_from_comment_run. simpl.
  destruct (comments self !! key) as [[|c comment]|]; simpl;
    try by rewrite _completions_from_default_run.
  destruct (fold_outcome add_backticked _ []) as [acc|e]; [|done].
  destruct (acc ++ _) as [|x xs]; [|done].
  by rewrite _completions_from_default_run.
Qed.

End Host.

End Settings.

(** ** The scope trie *)

Module ScopeData.

(** Modelled from the spec: the module [scope_data] that defines
    [ScopeNode], [NodeSet] and [COMPILED_HEADS] is not among the sources
    (only its text [DATA] is). The spec gives a node a name segment and an
    ordered set of child nodes, insertion order preserved. *)
#[warnings="-register-all"]
Inductive ScopeNode : Type :=
| Node (name : string) (children : list ScopeNode).

Definition name (n : ScopeNode) : string :=
  match n with Node s _ => s end.
Definition children (n : ScopeNode) : list ScopeNode :=
  match n with Node _ c => c end.

(** Modelled from the spec: [NodeSet.find] is missing from the sources; the
    spec has a child looked up by exact segment match. [None] stands for a
    segment that matches no node of the set. *)
Fixpoint find (nodes : list ScopeNode) (segment : string) : option ScopeNode :=
  match nodes with
  | [] => None
  | n :: nodes' => if String.eqb (name n) segment then Some n else find nodes' segment
  end.

(** The first two heads of [DATA] in [data.py], as the trie holds them. *)
Definition leaf (s : string) : ScopeNode := Node s [].
Definition heads_fragment : list ScopeNode :=
  [ Node "comment"
      [ Node "line"
          (leaf <$> ["double-slash"; "double-dash"; "number-sign";
                     "percentage"; "semi-colon"]);
        Node "block" [leaf "documentation"] ];
    Node "constant"
      [ Node "numeric" (leaf <$> ["integer"; "float"; "hex"; "octal"; "complex"]);
        Node "character" [leaf "escape"];
        leaf "language";
        Node "other" [leaf "placeholder"] ] ].

End ScopeData.

(** ** [src/plugins/syntax_dev/completions.py] *)

Module Completions.

Import ScopeData.

Inductive kind : Type :=
| KIND_AMBIGUOUS
| KIND_BRANCH
| KIND_CONTEXT
| KIND_SCOPE
| KIND_VARIABLE.

(** The fields of [sublime.CompletionItem] that the modelled code sets. *)
Record CompletionItem : Type := mkItem {
  trigger : string;
  annotation : string;
  item_kind : kind;
  details : string
}.

(** The view as the listener reads it: whether it has a window, the texts
    of the regions the base-scope selector finds, and the text of the line
    before each point. *)
Record View : Type := mkView {
  window : bool;
  scope_regions : list string;
  _line_prefix : nat → string
}.

(** What the listener changes: its field [base_suffix], the status bar and
    the console. *)
Record Listener : Type := mkListener {
  base_suffix : option string;
  status_bar : list string;
  console : list string
}.

Definition set_base_suffix (b : option string) (st : Listener) : Listener :=
  mkListener b (status_bar st) (console st).

Definition goto_line (row : nat) : string :=
  "Defined at line <a href='subl:goto_line {" +:+ String PyStr.dquote "line"
  +:+ String PyStr.dquote ": " +:+ String PyStr.dquote (pretty row)
  +:+ String PyStr.dquote "}'>" +:+ pretty row +:+ "</a>".

Definition format_completions (items : list (string * option nat))
    (annotation : string) (k : kind) : list CompletionItem :=
  (λ it, mkItem it.1 annotation k
           (match it.2 with Some row => goto_line row | None => "" end))
  <$> items.

(** Modelled from the spec: [NodeSet.to_completion] is missing from the
    sources; the spec has the nodes of a set offered as completions. Each
    node gives one item, in order, triggered by its name segment; the
    fields the spec does not fix are left at the defaults of
    [sublime.CompletionItem]. *)
Definition to_completion (nodes : list ScopeNode) : list CompletionItem :=
  (λ n, mkItem (name n) "" KIND_AMBIGUOUS "") <$> nodes.

Section Listener.

(** [PACKAGE_NAME], the first component of the plugin's package path. *)
Variable PACKAGE_NAME : string.

(** Modelled from the spec: [COMPILED_HEADS], the set of top-level nodes
    built at load time from [DATA], comes from the missing module. *)
Variable COMPILED_HEADS : list ScopeNode.

(** [status(msg, console)] as defined: its two parameters are the message
    and the console flag. *)
Definition status (msg : string) (to_console : bool) (st : Listener) : Listener :=
  let msg := "[" +:+ PACKAGE_NAME +:+ "] " +:+ msg in
  mkListener (base_suffix st) (status_bar st ++ [msg])
    (if to_console then console st ++ [msg] else console st).

(** The call [status(msg, window, console=True)]: the second positional
    argument and the keyword both bind the parameter [console], so the call
    raises [TypeError] before the body of [status] runs. *)
Definition status_positional_and_keyword (msg : string) (positional keyword : bool)
  (st : Listener) : outcome unit * Listener :=
  (Raise TypeError, st).

Definition _complete_base_scope (view : View) (last_token : string) (st : Listener)
  : outcome (list CompletionItem) * Listener :=
  match scope_regions view with
  | [region0] =>
      let base_scope := region0 in
      let base_suffix := (PyStr.rpartition "." base_scope).2 in
      if String.eqb last_token base_suffix then
        (Return [], set_base_suffix None st)
      else
        (Return (format_completions [(base_suffix, None)] "base suffix" KIND_SCOPE),
         set_base_suffix (Some base_suffix) st)
  | _ =>
      match status_positional_and_keyword
              "Warning: Could not determine base scope uniquely" (window view) true st with
      | (Raise e, st) => (Raise e, st)
      | (Return _, st) => (Return [], set_base_suffix None st)
      end
  end.

(** The loop of [_complete_scope] over [tokens[:-1]]: the nodes reached
    when the loop runs to its end, or the status message of the [break].
    [walked] holds the tokens before the current one. *)
Fixpoint walk (all_but_last walked : list string) (nodes : list ScopeNode)
    (todo : list string) : list ScopeNode + string :=
  match todo with
  | [] => inl nodes
  | token :: todo' =>
      match find nodes token with
      | None =>
          inr ("`" +:+ PyStr.join "." (walked ++ [token])
               +:+ "` not found in scope naming conventions")
      | Some node =>
          match children node with
          | [] =>
              inr ("No nodes available in scope naming conventions after `"
                   +:+ PyStr.join "." all_but_last +:+ "`")
          | nodes' => walk all_but_last (walked ++ [token]) nodes' todo'
          end
      end
  end.

Definition _complete_scope (view : View) (locations : list nat) (st : Listener)
  : outcome (option (list CompletionItem)) * Listener :=
  let prefixes :=
    remove_dups ((λ point, (PyStr.rpartition " " (_line_prefix view point)).2)
                 <$> locations) in
  match prefixes with
  | [] => (Raise StopIteration, st)
  | _ :: _ :: _ => (Return None, st)
  | [real_prefix] =>
      let tokens := PyStr.split "." real_prefix in
      if length tokens <=? 1 then (Return (Some (to_completion COMPILED_HEADS)), st)
      else
        match _complete_base_scope view (List.last tokens "") st with
        | (Raise e, st) => (Raise e, st)
        | (Return base_scope_completion, st) =>
            match walk (removelast tokens) [] COMPILED_HEADS (removelast tokens) with
            | inl nodes =>
                (Return (Some (to_completion nodes ++ base_scope_completion)), st)
            | inr msg =>
                (Return (Some base_scope_completion), status msg (window view) st)
            end
        end
  end.

(** *** Properties of the walk *)

(** The nodes reached by matching every token of a list, each by a node
    that has children. *)
Fixpoint descend (nodes : list ScopeNode) (tokens : list string)
  : option (list ScopeNode) :=
  match tokens with
  | [] => Some nodes
  | token :: tokens' =>
      match find nodes token with
      | None => None
      | Some node =>
          match children node with
          | [] => None
          | nodes' => descend nodes' tokens'
          end
      end
  end.

Lemma walk_descend all_but_last pre : ∀ walked nodes nodes' todo,
  descend nodes pre = Some nodes' →
  walk all_but_last walked nodes (pre ++ todo)
  = walk all_but_last (walked ++ pre) nodes' todo.
Proof.
  induction pre as [|t pre IH]; intros walked nodes nodes' todo Hd; simpl in *.
  - simplify_eq. by rewrite app_nil_r.
  - destruct (find nodes t) as [node|]; [|done].
    destruct (children node) as [|c cs] eqn:Hc; [done|].
    rewrite (IH (walked ++ [t]) (c :: cs) nodes' todo Hd).
    by rewrite <- app_assoc.
Qed.

Lemma _complete_base_scope_one view last_token st region :
  scope_regions view = [region] →
  _complete_base_scope view last_token st
  = let suffix := (PyStr.rpartition "." region).2 in
    if String.eqb last_token suffix
    then (Return [], set_base_suffix None st)
    else (Return [mkItem suffix "base suffix" KIND_SCOPE ""],
          set_base_suffix (Some suffix) st).
Proof. intros Hr. unfold _complete_base_scope. by rewrite Hr. Qed.

(** With no base-scope region, or more than one, the call of [status]
    raises before anything is reported or returned. *)
Lemma _complete_base_scope_not_unique view last_token st :
  length (scope_regions view) ≠ 1 →
  _complete_base_scope view last_token st = (Raise TypeError, st).
Proof.
  intros Hlen. unfold _complete_base_scope.
  by destruct (scope_regions view) as [|r0 [|r1 rs]].
Qed.

(** The final segment of a dotted name is what [rpartition] leaves after
    the last dot. *)
Lemma rpartition_split sep s :
  match PyStr.rpartition sep s with
  | (h, m, t) =>
      t = List.last (PyStr.split sep s) ""
      ∧ (m = "" → PyStr.split sep s = [s])
      ∧ (m ≠ "" → 2 ≤ length (PyStr.split sep s))
  end.
Proof.
  induction s as [|c s IH]; [done|]. simpl.
  destruct (PyStr.rpartition sep s) as [[h m] t]. destruct IH as (Ht & Hnone & Hsome).
  destruct m as [|x m].
  - specialize (Hnone eq_refl). rewrite Hnone in *. simpl in Ht. subst t.
    destruct (Ascii.eqb c sep); simpl; repeat split; try done; lia.
  - assert (2 ≤ length (PyStr.split sep s)) as Hlen by by apply Hsome.
    destruct (PyStr.split sep s) as [|a [|b rest]]; simpl in Hlen; [lia|lia|].
    destruct (Ascii.eqb c sep); simpl in *; repeat split; try done; lia.
Qed.

Lemma rpartition_last_segment sep s :
  (PyStr.rpartition sep s).2 = List.last (PyStr.split sep s) "".
Proof.
  pose proof (rpartition_split sep s) as H.
  destruct (PyStr.rpartition sep s) as [[h m] t]. by destruct H.
Qed.

(** The one completion that carries the base-scope suffix. *)
Definition base_suffix_item (suffix : string) : CompletionItem :=
  mkItem suffix "base suffix" KIND_SCOPE "".

(** With exactly one base-scope region the base-scope suffix is offered if
    and only if the last token differs from the final dot-separated segment
    of the region's text, and it is then the only item. *)
Lemma base_suffix_offered view last_token st region :
  scope_regions view = [region] →
  let suffix := List.last (PyStr.split "." region) "" in
  ∃ items st',
    _complete_base_scope view last_token st = (Return items, st')
    ∧ (items ≠ [] ↔ last_token ≠ suffix)
    ∧ (last_token ≠ suffix →
       items = [base_suffix_item suffix] ∧ base_suffix st' = Some suffix)
    ∧ (last_token = suffix → items = [] ∧ base_suffix st' = None)
    ∧ status_bar st' = status_bar st.
Proof.
  intros Hr. simpl. rewrite (_complete_base_scope_one _ _ _ _ Hr). simpl.
  rewrite rpartition_last_segment.
  destruct (String.eqb_spec last_token (List.last (PyStr.split "." region) "")) as [E|E].
  - eexists _, _. split; [reflexivity|]. naive_solver.
  - eexists _, _. split; [reflexivity|]. naive_solver.
Qed.

(** C2, as amended. For a dotted prefix of at least two segments in a view
    with exactly one base-scope region, [_complete_scope] splits the prefix
    on dots and walks the trie over every segment but the last. If a
    segment matches no node, the walk stops, a status message names the
    dotted path through the unmatched segment, and only the base-scope
    completion is returned. If a matched node has no children, the walk
    stops with a status message naming all segments but the last, and only
    the base-scope completion is returned. If every segment but the last
    is matched by a node with children, the children of the deepest node
    are offered, followed by the base-scope completion, with no message. *)
Theorem scope_walk view locations st real_prefix region :
  remove_dups ((λ point, (PyStr.rpartition " " (_line_prefix view point)).2)
               <$> locations) = [real_prefix] →
  2 ≤ length (PyStr.split "." real_prefix) →
  scope_regions view = [region] →
  let tokens := PyStr.split "." real_prefix in
  let segments := removelast tokens in
  ∃ base st1,
    _complete_base_scope view (List.last tokens "") st = (Return base, st1)
    ∧ (∀ pre t post nodes,
          segments = pre ++ t :: post →
          descend COMPILED_HEADS pre = Some nodes →
          find nodes t = None →
          _complete_scope view locations st
          = (Return (Some base),
             status ("`" +:+ PyStr.join "." (pre ++ [t])
                     +:+ "` not found in scope naming conventions")
               (window view) st1))
    ∧ (∀ pre t post nodes node,
          segments = pre ++ t :: post →
          descend COMPILED_HEADS pre = Some nodes →
          find nodes t = Some node →
          children node = [] →
          _complete_scope view locations st
          = (Return (Some base),
             status ("No nodes available in scope naming conventions after `"
                     +:+ PyStr.join "." segments +:+ "`")
               (window view) st1))
    ∧ (∀ nodes,
          descend COMPILED_HEADS segments = Some nodes →
          _complete_scope view locations st
          = (Return (Some (to_completion nodes ++ base)), st1)).
Proof.
  intros Hpre Hlen Hr. simpl.
  destruct (base_suffix_offered view (List.last (PyStr.split "." real_prefix) "") st region Hr)
    as (base & st1 & Hbase & _).
  exists base, st1. split; [done|].
  assert ((length (PyStr.split "." real_prefix) <=? 1) = false) as Hle
    by (apply Nat.leb_gt; lia).
  unfold _complete_scope. rewrite Hpre, Hle, Hbase.
  split; [|split].
  - intros pre t post nodes Hseg Hd Hfind.
    rewrite Hseg at 2. rewrite (walk_descend _ pre [] _ nodes _ Hd). simpl.
    by rewrite Hfind.
  - intros pre t post nodes node Hseg Hd Hfind Hch.
    rewrite Hseg at 2. rewrite (walk_descend _ pre [] _ nodes _ Hd). simpl.
    by rewrite Hfind, Hch.
  - intros nodes Hd.
    rewrite <- (app_nil_r (removelast _)) at 2.
    by rewrite (walk_descend _ _ [] _ nodes _ Hd).
Qed.

End Listener.

End Completions.

(** ** A sample installation

    A host with four packages, used to run the model on concrete resources.
    The stand-ins for the host functions and builtins are tables over the
    texts that occur in it. *)

Module Sample.

Import Settings.

Definition python_lines : list string :=
  [ "{";
    "    // Tab size";
    "    " +:+ q "tab_size" +:+ ": 4,";
    "";
    "    /*";
    "     * Columns in which to draw rulers";
    "     */";
    "    " +:+ q "rulers" +:+ ": [79]";
    "}" ].

Definition python_content : list string :=
  [ "{";
    "    " +:+ q "tab_size" +:+ ": 4,";
    "    " +:+ q "rulers" +:+ ": [79]";
    "}" ].

Definition broken_lines : list string :=
  [ "{";
    "    // Use spaces";
    "    " +:+ q "translate_tabs_to_spaces" +:+ ": true,";
    "    oops" ].

Definition broken_content : list string :=
  [ "{";
    "    " +:+ q "translate_tabs_to_spaces" +:+ ": true,";
    "    oops" ].

Definition extra_lines : list string :=
  [ "{ // more";
    "    // Tab size of Extra";
    "    " +:+ q "tab_size" +:+ ": 8,";
    "    " +:+ q "word_wrap" +:+ ": false";
    "}" ].

Definition extra_content : list string :=
  [ "{ // more";
    "    " +:+ q "tab_size" +:+ ": 8,";
    "    " +:+ q "word_wrap" +:+ ": false";
    "}" ].

Definition triggers_line : string :=
  "    " +:+ q "auto_complete_triggers" +:+ ": [ {" +:+ q "selector" +:+ ": "
  +:+ q "text.html" +:+ ", " +:+ q "characters" +:+ ": " +:+ q "<" +:+ "} ],".

Definition default_lines : list string :=
  [ "{";
    "    // The number of spaces a tab is considered equal to";
    "    " +:+ q "tab_size" +:+ ": 2,";
    "    // Set to " +:+ q "none" +:+ ", " +:+ q "selection" +:+ " or "
      +:+ q "all" +:+ " to draw white space";
    "    " +:+ q "draw_white_space" +:+ ": " +:+ q "selection" +:+ ",";
    "    // Additional situations to trigger auto complete";
    triggers_line;
    "}" ].

Definition default_content : list string :=
  [ "{";
    "    " +:+ q "tab_size" +:+ ": 2,";
    "    " +:+ q "draw_white_space" +:+ ": " +:+ q "selection" +:+ ",";
    triggers_line;
    "}" ].

Definition triggers_value : value :=
  VList [VDict [("selector", VStr "text.html"); ("characters", VStr "<")]].

Definition find_resources (name : string) : list string :=
  if String.eqb name "Python.sublime-settings" then
    [ "Packages/Python/Python.sublime-settings";
      "Packages/User/Python.sublime-settings";
      "Packages/Broken/Python.sublime-settings";
      "Packages/Extra/Python.sublime-settings" ]
  else if String.eqb name "Python.sublime-syntax" then
    [ "Packages/Python/Python.sublime-syntax" ]
  else if String.eqb name "Preferences.sublime-settings" then
    [ "Packages/Default/Preferences.sublime-settings" ]
  else [].

Definition load_resource (resource : string) : outcome string :=
  if String.eqb resource "Packages/Python/Python.sublime-settings" then
    Return (PyStr.join PyStr.nl python_lines)
  else if String.eqb resource "Packages/Broken/Python.sublime-settings" then
    Return (PyStr.join PyStr.nl broken_lines)
  else if String.eqb resource "Packages/Extra/Python.sublime-settings" then
    Return (PyStr.join PyStr.nl extra_lines)
  else if String.eqb resource "Packages/Default/Preferences.sublime-settings" then
    Return (PyStr.join PyStr.nl default_lines)
  else Raise IOError.

Definition sublime_decode_value (text : string) : outcome value :=
  if String.eqb text (PyStr.join PyStr.nl python_content) then
    Return (VDict [("tab_size", VInt 4); ("rulers", VList [VInt 79])])
  else if String.eqb text (PyStr.join PyStr.nl default_content) then
    Return (VDict [("tab_size", VInt 2);
                   ("draw_white_space", VStr "selection");
                   ("auto_complete_triggers", triggers_value)])
  else if String.eqb text (PyStr.join PyStr.nl extra_content) then
    Return (VDict [("tab_size", VInt 8); ("word_wrap", VBool false)])
  else if String.eqb text "[79]" then Return (VList [VInt 79])
  else Raise ValueError.

(** [textwrap.dedent] on a text of one line: its leading blanks and tabs
    go. Every comment of the sample has one line. *)
Definition dedent (text : string) : string :=
  PyStr.lstrip text (" " +:+ String PyStr.tab "").

Fixpoint digits_value (acc : Z) (s : string) : option Z :=
  match s with
  | EmptyString => Some acc
  | String c s' =>
      match Ascii.is_nat c with
      | Some d => digits_value (10 * acc + Z.of_nat d)%Z s'
      | None => None
      end
  end.

(** [int] on the strings of decimal digits. *)
Definition py_int (s : string) : option Z :=
  match s with
  | EmptyString => None
  | _ => digits_value 0 s
  end.

Definition py_float (s : string) : option float :=
  if String.eqb s "1.5" then Some 1.5%float else None.

Definition repr (v : value) : string := "<" +:+ type_name v +:+ ">".

Definition no_completions : M (option (list (string * value))) := ret None.

(** A fresh object for [Python.sublime-settings], with a callback. *)
Definition python_settings : KnownSettings :=
  mkKnownSettings "Python.sublime-settings" true ∅ ∅ [].

Definition loaded : KnownSettings :=
  (_load_settings find_resources load_resource sublime_decode_value dedent
     python_settings).2.

Definition user_resource : string := "Packages/User/Python.sublime-settings".
Definition python_resource : string := "Packages/Python/Python.sublime-settings".
Definition broken_resource : string := "Packages/Broken/Python.sublime-settings".
Definition extra_resource : string := "Packages/Extra/Python.sublime-settings".
Definition default_resource : string := "Packages/Default/Preferences.sublime-settings".

Definition sample_resources : list string :=
  [python_resource; user_resource; broken_resource; extra_resource; default_resource].

Local Abbreviation load_into := (load_resource_into load_resource sublime_decode_value dedent).
Local Abbreviation parse := (parse_line dedent).
Local Abbreviation complete_value :=
  (_value_completions_for sublime_decode_value py_int py_float repr
     no_completions no_completions).
Local Abbreviation from_comment :=
  (_completions_from_comment sublime_decode_value py_int py_float repr).

(** The scan of the sample: the first package wins [tab_size], the user
    package is skipped, and the package whose text does not decode leaves
    its comment behind but no default. *)
Example loaded_defaults :
  defaults loaded !! "tab_size" = Some (VInt 4)
  ∧ defaults loaded !! "word_wrap" = Some (VBool false)
  ∧ defaults loaded !! "draw_white_space" = Some (VStr "selection")
  ∧ defaults loaded !! "translate_tabs_to_spaces" = None.
Proof. vm_compute. done. Qed.

Example loaded_comments :
  comments loaded !! "tab_size" = Some "Tab size"
  ∧ comments loaded !! "rulers" = Some "Columns in which to draw rulers"
  ∧ comments loaded !! "translate_tabs_to_spaces" = Some "Use spaces".
Proof. vm_compute. done. Qed.

Example loaded_trace :
  parsed_resources (trace loaded)
  = [python_resource; broken_resource; extra_resource; default_resource].
Proof. vm_compute. done. Qed.

(** *** The theorems at the sample *)

Lemma merge_first_write_wins_witness :
  defaults (for_each sample_resources load_into python_settings).2 !! "word_wrap"
  = Some (VBool false).
Proof.
  destruct (merge_first_write_wins load_resource sublime_decode_value dedent
              sample_resources python_settings "word_wrap") as (_ & H & _).
  apply (H [python_resource; user_resource; broken_resource] extra_resource
           [default_resource] (VBool false)).
  - reflexivity.
  - reflexivity.
  - repeat constructor.
  - vm_compute. reflexivity.
Defined.

Lemma resource_failure_is_contained_witness :
  let before := (for_each [python_resource; user_resource] load_into python_settings).2 in
  let after := (load_into broken_resource before).2 in
  (load_into broken_resource before).1 = Return tt
  ∧ defaults after = defaults before
  ∧ trace after
    = trace before ++ [DebugParsing broken_resource; ErrorParsing broken_resource ValueError]
  ∧ for_each sample_resources load_into python_settings
    = for_each [extra_resource; default_resource] load_into after.
Proof.
  destruct (resource_failure_is_contained find_resources load_resource
              sublime_decode_value dedent sample_resources python_settings)
    as (_ & _ & _ & H).
  apply (H [python_resource; user_resource] broken_resource
           [extra_resource; default_resource] ValueError).
  - reflexivity.
  - vm_compute. reflexivity.
  - vm_compute. reflexivity.
Defined.

Lemma comment_stripping_idempotent_witness :
  retained_content dedent python_content python_settings = python_content
  ∧ retained_content dedent (retained_content dedent python_content python_settings)
      python_settings
    = retained_content dedent python_content python_settings.
Proof.
  apply (comment_stripping_idempotent dedent python_content python_settings).
  repeat constructor.
Defined.

(** The scan of lines with comments drops them, and what is left is a fixed
    point of the scan. *)
Example python_lines_stripped :
  retained_content dedent python_lines python_settings = python_content.
Proof. vm_compute. reflexivity. Qed.

(** The comment of the resource that failed to decode is in the table,
    its default is not. *)
Example broken_resource_comment :
  let after := (load_into broken_resource python_settings).2 in
  comments after !! "translate_tabs_to_spaces" = Some "Use spaces"
  ∧ defaults after !! "translate_tabs_to_spaces" = None
  ∧ comments python_settings !! "translate_tabs_to_spaces" = None.
Proof. vm_compute. done. Qed.

Definition str_item (s : string) : string * value :=
  (s +:+ "  " +:+ String PyStr.tab "" +:+ "str", VStr s).


(** Tokens that are booleans or numbers are decoded; the rest stay
    strings. *)
Example decode_value_samples :
  decode_value py_int py_float "TRUE" = Return (VBool true)
  ∧ decode_value py_int py_float "False" = Return (VBool false)
  ∧ decode_value py_int py_float "80" = Return (VInt 80)
  ∧ decode_value py_int py_float "1.5" = Return (VFloat 1.5)
  ∧ decode_value py_int py_float "none" = Raise ValueError.
Proof. vm_compute. done. Qed.

(** C4, at the failing input. The sample's default for
    [auto_complete_triggers] is a list of one dict and its comment holds
    neither backticks nor quoted tokens: generation falls back to the
    default, and building the set of the list's members raises [TypeError]
    instead of suggesting the member. *)
Theorem list_default_with_dict_raises :
  defaults loaded !! "auto_complete_triggers" = Some triggers_value
  ∧ comments loaded !! "auto_complete_triggers"
    = Some "Additional situations to trigger auto complete"
  ∧ (from_comment "auto_complete_triggers" loaded).1 = Return (Some [])
  ∧ (complete_value "auto_complete_triggers" loaded).1 = Raise TypeError.
Proof. vm_compute. done. Qed.

(** Where the members are hashable the fallback does suggest them. *)
Example list_default_of_numbers :
  (complete_value "rulers" loaded).1
  = Return (Some [(pretty 79%Z +:+ "  " +:+ String PyStr.tab "" +:+ "int", VInt 79)]).
Proof. vm_compute. done. Qed.

Example bool_default :
  (complete_value "word_wrap" loaded).1
  = Return (Some [("False  " +:+ String PyStr.tab "" +:+ "bool", VBool false);
                  ("True  " +:+ String PyStr.tab "" +:+ "bool", VBool true)]).
Proof. vm_compute. done. Qed.

End Sample.

(** ** A sample view *)

Module ScopeSample.

Import ScopeData Completions.

(** A syntax definition whose base scope is [source.python], with the
    caret after a scope name of three segments. *)
Definition view_python (typed : string) : View :=
  mkView true ["source.python"] (λ _, "      scope: " +:+ typed).

(** The same without a [scope] line. *)
Definition view_without_scope (typed : string) : View :=
  mkView true [] (λ _, "      scope: " +:+ typed).

Definition fresh : Listener := mkListener None [] [].

Local Abbreviation complete_scope := (_complete_scope "PackageDev" heads_fragment).

Definition comment_node : ScopeNode :=
  Node "comment"
    [ Node "line"
        (leaf <$> ["double-slash"; "double-dash"; "number-sign";
                   "percentage"; "semi-colon"]);
      Node "block" [leaf "documentation"] ].

Definition not_found_message : string :=
  "[PackageDev] `comment.foo` not found in scope naming conventions".

(** C2, as stated, fails on the prefix [comment.foo.x]: the walk reaches
    the node [comment], the segment [foo] matches none of its children, and
    the completions returned are the base-scope suffix alone; neither
    child of [comment] is among them. *)
Lemma unmatched_segment_offers_no_children :
  find heads_fragment "comment" = Some comment_node
  ∧ find (children comment_node) "foo" = None
  ∧ complete_scope (view_python "comment.foo.x") [0] fresh
    = (Return (Some [base_suffix_item "python"]),
       mkListener (Some "python") [not_found_message] [not_found_message])
  ∧ ¬ Forall (λ item, item ∈ [base_suffix_item "python"])
        (to_completion (children comment_node)).
Proof.
  split; [reflexivity|]. split; [reflexivity|]. split; [vm_compute; reflexivity|].
  intros H. apply Forall_cons in H as [H _].
  apply list_elem_of_singleton in H. discriminate H.
Qed.

Lemma scope_walk_witness :
  complete_scope (view_python "comment.foo.x") [0] fresh
  = (Return (Some [base_suffix_item "python"]),
     status "PackageDev" "`comment.foo` not found in scope naming conventions" true
       (mkListener (Some "python") [] [])).
Proof.
  destruct (scope_walk "PackageDev" heads_fragment (view_python "comment.foo.x") [0]
              fresh "comment.foo.x" "source.python")
    as (base & st1 & Hbase & Hunmatched & _ & _).
  - vm_compute. reflexivity.
  - vm_compute. lia.
  - reflexivity.
  - vm_compute in Hbase. injection Hbase as <- <-.
    apply (Hunmatched ["comment"] "foo" [] (children comment_node)).
    + vm_compute. reflexivity.
    + vm_compute. reflexivity.
    + vm_compute. reflexivity.
Defined.

(** When every segment but the last is matched, the children of the
    deepest node come first and the base-scope suffix last. *)
Example matched_segments_offer_children :
  (complete_scope (view_python "comment.block.") [0] fresh).1
  = Return (Some [mkItem "documentation" "" KIND_AMBIGUOUS "";
                  base_suffix_item "python"]).
Proof. vm_compute. reflexivity. Qed.

Example single_segment_offers_heads :
  (complete_scope (view_python "com") [0] fresh).1
  = Return (Some [mkItem "comment" "" KIND_AMBIGUOUS "";
                  mkItem "constant" "" KIND_AMBIGUOUS ""]).
Proof. vm_compute. reflexivity. Qed.

(** C5, at the failing input. In a view without a base-scope region the
    call of [status] with the console flag given twice raises [TypeError]:
    no warning reaches the status bar, [base_suffix] is not reset, no list
    is returned, and the exception leaves [_complete_scope] too. *)
Theorem no_base_scope_region_raises :
  _complete_base_scope (view_without_scope "comment.line.") "" fresh
  = (Raise TypeError, fresh)
  ∧ complete_scope (view_without_scope "comment.line.") [0] fresh
    = (Raise TypeError, fresh).
Proof. split; vm_compute; reflexivity. Qed.

End ScopeSample.

(** ** [html_encode] of [src/settings.py] *)

Module Html.

(** Number of occurrences of a character in a text. *)
Fixpoint count (c : ascii) (s : string) : nat :=
  match s with
  | EmptyString => 0
  | String d s' => (if Ascii.eqb d c then 1 else 0) + count c s'
  end.

(** [s.replace(old, new)] for a non-empty [old]: the occurrences of [old]
    are found from the left and do not overlap. [fuel] bounds the number of
    steps; the length of [s] is enough. *)
Fixpoint replace_go (fuel : nat) (s old new : string) : string :=
  match fuel with
  | O => s
  | S fuel' =>
      match s with
      | EmptyString => EmptyString
      | String c s' =>
          if PyStr.startswith s old
          then new +:+ replace_go fuel' (PyStr.slice_from (String.length old) s) old new
          else String c (replace_go fuel' s' old new)
      end
  end.

(** [s.replace(old, new)]; with an empty [old] Python puts [new] before
    every character and at the end. *)
Fixpoint interleave (s new : string) : string :=
  match s with
  | EmptyString => new
  | String c s' => new +:+ String c (interleave s' new)
  end.

Definition replace (s old new : string) : string :=
  match old with
  | EmptyString => interleave s new
  | _ => replace_go (String.length s) s old new
  end.

Definition html_encode (string : String.string) : String.string :=
  if PyStr.is_empty string then ""
  else
    replace
      (replace
         (replace
            (replace
               (replace (replace string "&" "&amp;") "<" "&lt;")
               ">" "&gt;")
            (String PyStr.tab "") "&nbsp;&nbsp;")
         "    " "&nbsp;&nbsp;")
      PyStr.nl "<br>".

Lemma app_cons d (a b : string) : String d a +:+ b = String d (a +:+ b).
Proof. reflexivity. Qed.

Lemma count_app c (a b : string) : count c (a +:+ b) = count c a + count c b.
Proof.
  induction a as [|d a IH]; [done|]. rewrite app_cons. simpl. rewrite IH. lia.
Qed.

Lemma startswith_split (s old : string) :
  PyStr.startswith s old = true →
  s = old +:+ PyStr.slice_from (String.length old) s.
Proof.
  revert s. induction old as [|a old IH]; intros s H; simpl in *; [done|].
  destruct s as [|b s]; [done|]. apply andb_prop in H as [Hab Hs].
  apply Ascii.eqb_eq in Hab as ->. rewrite app_cons. simpl. f_equal. by apply IH.
Qed.

Lemma slice_from_length n (s : string) :
  String.length (PyStr.slice_from n s) = String.length s - n.
Proof.
  revert s. induction n as [|n IH]; intros s; simpl; [lia|].
  destruct s as [|c s]; simpl; [done|]. apply IH.
Qed.

(** Replacing leaves alone the count of a character that occurs neither in
    [old] nor in [new]. *)
Lemma replace_go_count_other d old new : ∀ fuel s,
  old ≠ EmptyString → count d old = 0 → count d new = 0 →
  count d (replace_go fuel s old new) = count d s.
Proof.
  intros fuel. induction fuel as [|fuel IH]; intros s Hold Hd Hnew; simpl; [done|].
  destruct s as [|c s]; [done|].
  destruct (PyStr.startswith (String c s) old) eqn:Hs.
  - rewrite count_app, Hnew, IH by done.
    rewrite (startswith_split _ _ Hs) at 2. rewrite count_app, Hd. done.
  - simpl. by rewrite IH.
Qed.

Lemma replace_count_other d s old new :
  old ≠ EmptyString → count d old = 0 → count d new = 0 →
  count d (replace s old new) = count d s.
Proof.
  intros Hold Hd Hnew. unfold replace. destruct old as [|a old]; [done|].
  by apply replace_go_count_other.
Qed.

(** Replacing a single character: its own occurrences go, and each brings
    the characters of [new]. *)
Lemma startswith_nil (s : string) : PyStr.startswith s EmptyString = true.
Proof. by destruct s. Qed.

Lemma replace_go_count_char c d new : ∀ fuel s,
  String.length s ≤ fuel →
  count d (replace_go fuel s (String c EmptyString) new)
  = (if Ascii.eqb c d then 0 else count d s) + count c s * count d new.
Proof.
  intros fuel. induction fuel as [|fuel IH]; intros s Hlen.
  - destruct s; simpl in *; [|lia]. by destruct (Ascii.eqb c d).
  - destruct s as [|b s]; [simpl; by destruct (Ascii.eqb c d)|].
    simpl in Hlen. cbn [replace_go PyStr.startswith]. rewrite startswith_nil, andb_true_r.
    cbn [String.length PyStr.slice_from count].
    rewrite (Ascii.eqb_sym b c). destruct (Ascii.eqb c b) eqn:Hbc.
    + apply Ascii.eqb_eq in Hbc as ->. rewrite count_app, IH by lia.
      destruct (Ascii.eqb b d); simpl; lia.
    + cbn [count]. rewrite IH by lia. destruct (Ascii.eqb b d) eqn:Hbd.
      * apply Ascii.eqb_eq in Hbd as ->. rewrite Hbc. simpl. lia.
      * destruct (Ascii.eqb c d); simpl; lia.
Qed.

Lemma replace_count_char c d s new :
  count d (replace s (String c EmptyString) new)
  = (if Ascii.eqb c d then 0 else count d s) + count c s * count d new.
Proof. unfold replace. by apply replace_go_count_char. Qed.

(** A text without an occurrence of [old] is returned as it is. *)
Lemma replace_go_absent old new : ∀ fuel s,
  PyStr.contains s old = false → replace_go fuel s old new = s.
Proof.
  intros fuel. induction fuel as [|fuel IH]; intros s Hc; [done|].
  destruct s as [|c s]; [done|].
  change (PyStr.contains (String c s) old)
    with (PyStr.startswith (String c s) old || PyStr.contains s old) in Hc.
  apply orb_false_elim in Hc as [Hs Hrest].
  cbn [replace_go]. rewrite Hs. f_equal. by apply IH.
Qed.

Lemma replace_absent s old new :
  PyStr.contains s old = false → replace s old new = s.
Proof.
  intros Hc. unfold replace. destruct old as [|a old].
  - by destruct s.
  - by apply replace_go_absent.
Qed.

Lemma count_zero_absent c (s : string) :
  count c s = 0 → PyStr.contains s (String c EmptyString) = false.
Proof.
  induction s as [|d s IH]; intros H; [done|].
  change (PyStr.contains (String d s) (String c EmptyString))
    with (PyStr.startswith (String d s) (String c EmptyString)
          || PyStr.contains s (String c EmptyString)).
  cbn [count PyStr.startswith] in *. rewrite startswith_nil, andb_true_r.
  rewrite (Ascii.eqb_sym c d). destruct (Ascii.eqb d c); simpl in *; [lia|].
  by apply IH.
Qed.

(** X1. The text [html_encode] returns holds no tab and no line feed, and
    every [<] and [>] in it belongs to a line break tag: there are as many
    of each as the input has line feeds. *)
Theorem html_encode_markup (s : string) :
  count PyStr.tab (html_encode s) = 0
  ∧ count PyStr.newline (html_encode s) = 0
  ∧ count "<" (html_encode s) = count PyStr.newline s
  ∧ count ">" (html_encode s) = count PyStr.newline s.
Proof.
  unfold html_encode. destruct (PyStr.is_empty s) eqn:E.
  { destruct s; [done|discriminate]. }
  unfold PyStr.nl, PyStr.tab, PyStr.newline.
  repeat split;
    repeat (rewrite replace_count_char
            || rewrite replace_count_other by done);
    simpl; lia.
Qed.

(** X2. A text with none of the five special characters and no run of four
    blanks is returned unchanged. *)
Theorem html_encode_plain (s : string) :
  count "&" s = 0 → count "<" s = 0 → count ">" s = 0 →
  count PyStr.tab s = 0 → count PyStr.newline s = 0 →
  PyStr.contains s "    " = false →
  html_encode s = s.
Proof.
  intros Hamp Hlt Hgt Htab Hnl Hsp. unfold html_encode.
  destruct (PyStr.is_empty s) eqn:E; [by destruct s|].
  rewrite (replace_absent s "&") by by apply count_zero_absent.
  rewrite (replace_absent s "<") by by apply count_zero_absent.
  rewrite (replace_absent s ">") by by apply count_zero_absent.
  rewrite (replace_absent s (String PyStr.tab "")) by by apply count_zero_absent.
  rewrite (replace_absent s "    ") by done.
  apply replace_absent. by apply count_zero_absent.
Qed.

Lemma html_encode_plain_witness :
  html_encode "No description." = "No description.".
Proof. apply html_encode_plain; reflexivity. Defined.

End Html.

Example html_encode_ex :
  Html.html_encode
    ("a <b> & c" +:+ PyStr.nl +:+ String PyStr.tab "" +:+ "     x")
  = "a &lt;b&gt; &amp; c<br>&nbsp;&nbsp;&nbsp;&nbsp; x".
Proof. vm_compute. reflexivity. Qed.

(** ** [sorted_completions] of [src/settings.py] *)

Module Ordering.

(** The key of the sort: the lowercased trigger. *)
Definition sort_key {B} (x : string * B) : string := PyStr.lower x.1.

(** [sorted] is stable and compares keys only. The stable arrangement of a
    list by a total order on keys is unique; it is computed here by
    inserting each item, from the last to the first, before the first item
    whose key is not smaller. Strings compare by their character codes. *)
Fixpoint insert_sorted {B} (x : string * B) (l : list (string * B))
  : list (string * B) :=
  match l with
  | [] => [x]
  | y :: l' =>
      if String.leb (sort_key x) (sort_key y) then x :: l
      else y :: insert_sorted x l'
  end.

Definition sorted_completions {B} (completions : list (string * B))
  : list (string * B) :=
  foldr insert_sorted [] completions.

Definition key_le {B} (x y : string * B) : Prop :=
  String.le (sort_key x) (sort_key y).

Lemma insert_sorted_perm {B} (x : string * B) l : insert_sorted x l ≡ₚ x :: l.
Proof.
  induction l as [|y l IH]; simpl; [done|].
  destruct (String.leb _ _); [done|]. rewrite IH. apply Permutation_swap.
Qed.

Lemma sorted_completions_perm {B} (l : list (string * B)) :
  sorted_completions l ≡ₚ l.
Proof.
  induction l as [|x l IH]; simpl; [done|].
  rewrite insert_sorted_perm. by f_equiv.
Qed.

Lemma insert_sorted_sorted {B} (x : string * B) l :
  StronglySorted key_le l → StronglySorted key_le (insert_sorted x l).
Proof.
  induction 1 as [|y l Hl IH Hy]; simpl.
  - by repeat constructor.
  - destruct (String.leb (sort_key x) (sort_key y)) eqn:E.
    + constructor; [by constructor|]. constructor.
      * unfold key_le, String.le. by rewrite E.
      * eapply Forall_impl; [exact Hy|]. intros z Hz. unfold key_le in *.
        etrans; [|exact Hz]. unfold String.le. by rewrite E.
    + constructor; [done|]. rewrite insert_sorted_perm. constructor; [|done].
      unfold key_le. destruct (total String.le (sort_key y) (sort_key x)) as [H|H];
        [done|]. unfold String.le in H. by rewrite E in H.
Qed.

Lemma sorted_completions_sorted {B} (l : list (string * B)) :
  StronglySorted key_le (sorted_completions l).
Proof.
  induction l as [|x l IH]; simpl; [constructor|]. by apply insert_sorted_sorted.
Qed.

Lemma insert_sorted_filter {B} (k : string) (x : string * B) l :
  filter (λ y, sort_key y = k) (insert_sorted x l)
  = filter (λ y, sort_key y = k) (x :: l).
Proof.
  induction l as [|y l IH]; simpl; [done|].
  destruct (String.leb (sort_key x) (sort_key y)) eqn:E; [done|].
  rewrite filter_cons, IH, !filter_cons.
  destruct (decide (sort_key y = k)) as [Hy|Hy]; [|done].
  destruct (decide (sort_key x = k)) as [Hx|Hx]; [|done].
  exfalso. rewrite Hx, Hy in E.
  assert (String.le k k) as H by done. unfold String.le in H. by rewrite E in H.
Qed.

Lemma sorted_completions_filter {B} (k : string) (l : list (string * B)) :
  filter (λ y, sort_key y = k) (sorted_completions l)
  = filter (λ y, sort_key y = k) l.
Proof.
  induction l as [|x l IH]; simpl; [done|].
  rewrite insert_sorted_filter, !filter_cons. fold (sorted_completions l).
  by rewrite IH.
Qed.

(** X3. [sorted_completions] rearranges its input without adding or losing
    an item, orders it by lowercased trigger, and keeps the input order of
    the items whose lowercased triggers are equal. *)
Theorem sorted_completions_stable {B} (completions : list (string * B)) :
  sorted_completions completions ≡ₚ completions
  ∧ StronglySorted (λ x y, String.le (PyStr.lower x.1) (PyStr.lower y.1))
      (sorted_completions completions)
  ∧ ∀ k, filter (λ x, PyStr.lower x.1 = k) (sorted_completions completions)
         = filter (λ x, PyStr.lower x.1 = k) completions.
Proof.
  split; [apply sorted_completions_perm|]. split; [apply sorted_completions_sorted|].
  intros k. exact (sorted_completions_filter k completions).
Qed.

End Ordering.

Example sorted_completions_ex :
  Ordering.sorted_completions [("b", 1); ("A", 2); ("a", 3); ("C", 4)]
  = [("A", 2); ("a", 3); ("b", 1); ("C", 4)].
Proof. vm_compute. reflexivity. Qed.

(** ** More on the scan and the loader of [src/settings.py] *)

Module Scan.

Import Settings.

(** The text a [//] line adds to the collected comment lines: what follows
    the slashes, unless that is a non-empty text ending in [//]. *)
Definition line_comment_text (line : string) : option string :=
  let text := PyStr.slice_from 2 (PyStr.strip line) in
  if PyStr.is_empty text || negb (PyStr.endswith text "//") then Some text else None.

(** The text a line inside a block comment adds: the line as it is, or
    what follows a leading asterisk and blank. *)
Definition block_comment_text (line : string) : string :=
  if PyStr.startswith (PyStr.strip line) "* "
  then PyStr.slice_from 2 (PyStr.strip line)
  else line.

(** What the line that opens a block comment adds: the text after the
    slash and the asterisks, if any. *)
Definition block_open_text (line : string) : list string :=
  let text := PyStr.lstrip (PyStr.slice_from 2 (PyStr.strip line)) "*" in
  if PyStr.is_empty text then [] else [text].

(** What the line that closes a block comment adds: the line without the
    asterisks, slashes, blanks and tabs at its end, if anything is left. *)
Definition block_close_text (line : string) : list string :=
  let text := PyStr.rstrip line ("*/ " +:+ String PyStr.tab "") in
  if PyStr.is_empty text then [] else [text].

Section Host.

Variable find_resources : string → list string.
Variable load_resource : string → outcome string.
Variable sublime_decode_value : string → outcome value.
Variable dedent : string → string.

Local Abbreviation parse := (parse_line dedent).
Local Abbreviation load := (_load_settings find_resources load_resource sublime_decode_value dedent).

Lemma startswith_slashes (s : string) :
  PyStr.startswith s "//" = true →
  PyStr.is_empty s = false ∧ PyStr.startswith s "/*" = false.
Proof.
  destruct s as [|a [|b s]]; cbn [PyStr.startswith PyStr.is_empty].
  - done.
  - by rewrite andb_false_r.
  - intros H. apply andb_prop in H as [Ha H]. apply andb_prop in H as [Hb _].
    apply Ascii.eqb_eq in Ha as <-. apply Ascii.eqb_eq in Hb as <-.
    split; reflexivity.
Qed.

Lemma startswith_block_open (s : string) :
  PyStr.startswith s "/*" = true → PyStr.is_empty s = false.
Proof. by destruct s. Qed.

Lemma parse_line_in_block sc line self :
  in_comment sc = true →
  PyStr.endswith (PyStr.strip line) "*/" = false →
  parse sc line self
  = (Return (mkScan (content sc) (comment sc ++ [block_comment_text line]) true), self).
Proof.
  intros Hin Hend. unfold parse_line, block_comment_text. rewrite Hin, Hend.
  destruct sc as [ct cm ic]. simpl in *. subst ic.
  by destruct (PyStr.startswith _ "* ").
Qed.

Lemma for_fold_in_block rest : ∀ sc self,
  in_comment sc = true →
  Forall (λ l, PyStr.endswith (PyStr.strip l) "*/" = false) rest →
  for_fold rest parse sc self
  = (Return (mkScan (content sc) (comment sc ++ (block_comment_text <$> rest)) true),
     self).
Proof.
  induction rest as [|line rest IH]; intros sc self Hin Hall; simpl.
  - rewrite app_nil_r. destruct sc as [ct cm ic]. simpl in *. by subst ic.
  - inversion Hall as [|? ? Hline Hrest]; subst.
    unfold bind. rewrite parse_line_in_block by done.
    rewrite IH by done. simpl. by rewrite <- app_assoc.
Qed.

Lemma parse_line_block_open sc line self :
  in_comment sc = false →
  PyStr.startswith (PyStr.strip line) "/*" = true →
  parse sc line self
  = (Return (mkScan (content sc) (comment sc ++ block_open_text line) true), self).
Proof.
  intros Hin Hopen. unfold parse_line, block_open_text.
  rewrite Hin, (startswith_block_open _ Hopen), Hopen.
  destruct sc as [ct cm ic]. simpl in *. subst ic.
  destruct (PyStr.is_empty _); [by rewrite app_nil_r|done].
Qed.

Lemma parse_line_block_close sc line self :
  in_comment sc = true →
  PyStr.endswith (PyStr.strip line) "*/" = true →
  parse sc line self
  = (Return (mkScan (content sc) (comment sc ++ block_close_text line) false), self).
Proof.
  intros Hin Hend. unfold parse_line, block_close_text. rewrite Hin, Hend.
  destruct sc as [ct cm ic]. simpl in *. subst ic.
  destruct (PyStr.is_empty _); [by rewrite app_nil_r|done].
Qed.

Lemma for_fold_app {A L} (xs ys : list A) (body : L → A → M L) l self l1 self1 :
  for_fold xs body l self = (Return l1, self1) →
  for_fold (xs ++ ys) body l self = for_fold ys body l1 self1.
Proof.
  revert l self. induction xs as [|x xs IH]; intros l self H; simpl in *.
  - unfold ret in H. by simplify_eq.
  - unfold bind in *. destruct (body l x self) as [[l2|e] self2]; [|done].
    by apply IH.
Qed.

(** X4. A line whose stripped text starts with a slash and an asterisk opens
    a block comment whatever the line ends with, so a comment closed on
    its own line does not end there: every following line is taken as
    comment text and none reaches the content until a line whose stripped
    text ends with an asterisk and a slash. The object is not touched. *)
Theorem block_comment_swallows_lines sc first rest closing self :
  in_comment sc = false →
  PyStr.startswith (PyStr.strip first) "/*" = true →
  Forall (λ l, PyStr.endswith (PyStr.strip l) "*/" = false) rest →
  PyStr.endswith (PyStr.strip closing) "*/" = true →
  for_fold (first :: rest) parse sc self
  = (Return (mkScan (content sc)
               (comment sc ++ block_open_text first ++ (block_comment_text <$> rest))
               true), self)
  ∧ for_fold (first :: rest ++ [closing]) parse sc self
    = (Return (mkScan (content sc)
                 (comment sc ++ block_open_text first ++ (block_comment_text <$> rest)
                  ++ block_close_text closing)
                 false), self).
Proof.
  intros Hin Hopen Hrest Hclose.
  assert (for_fold (first :: rest) parse sc self
          = (Return (mkScan (content sc)
                       (comment sc ++ block_open_text first ++ (block_comment_text <$> rest))
                       true), self)) as E.
  { simpl. unfold bind. rewrite parse_line_block_open by done.
    rewrite for_fold_in_block by done. simpl. by rewrite <- app_assoc. }
  split; [done|].
  rewrite app_comm_cons, (for_fold_app _ _ _ _ _ _ _ E). simpl. unfold bind.
  rewrite parse_line_block_close by done. simpl. unfold ret.
  by rewrite <- !app_assoc.
Qed.

Lemma parse_line_line_comment sc line self :
  in_comment sc = false →
  PyStr.startswith (PyStr.strip line) "//" = true →
  parse sc line self
  = (Return (mkScan (content sc) (comment sc ++ option_list (line_comment_text line))
               false), self).
Proof.
  intros Hin Hsl. destruct (startswith_slashes _ Hsl) as [Hne Hopen].
  unfold parse_line, line_comment_text. rewrite Hin, Hne, Hopen, Hsl.
  destruct sc as [ct cm ic]. simpl in *. subst ic.
  destruct (_ || _); simpl; [done|by rewrite app_nil_r].
Qed.

Lemma for_fold_line_comments block : ∀ sc self,
  in_comment sc = false →
  Forall (λ l, PyStr.startswith (PyStr.strip l) "//" = true) block →
  for_fold block parse sc self
  = (Return (mkScan (content sc) (comment sc ++ omap line_comment_text block) false),
     self).
Proof.
  induction block as [|line block IH]; intros sc self Hin Hall; simpl.
  - rewrite app_nil_r. destruct sc as [ct cm ic]. simpl in *. by subst ic.
  - inversion Hall as [|? ? Hline Hrest]; subst.
    unfold bind. rewrite parse_line_line_comment by done.
    rewrite IH by done. simpl. rewrite <- app_assoc.
    by destruct (line_comment_text line).
Qed.

Lemma parse_line_key_run sc line self key :
  in_comment sc = false → is_content_line line = true → comment sc ≠ [] →
  re_match_key (PyStr.strip line) = Some key →
  parse sc line self
  = (Return (mkScan (content sc ++ [line]) [] false),
     set_comments
       (setdefault key (dedent (PyStr.join PyStr.nl (comment sc))) (comments self))
       self).
Proof.
  intros Hin Hline Hcm Hkey. unfold is_content_line in Hline.
  apply andb_prop in Hline as [Hline H3]. apply andb_prop in Hline as [H1 H2].
  apply negb_true_iff in H1, H2, H3.
  unfold parse_line. rewrite Hin, H1, H2, H3, Hkey.
  destruct sc as [ct cm ic]. simpl in *. subst ic.
  destruct cm as [|c0 cm]; [done|].
  unfold bind, get_self, update, ret, setdefault.
  destruct (comments self !! key) eqn:E; simpl; [|done].
  by rewrite set_comments_id.
Qed.

(** X5. A run of [//] lines followed by a content line that starts with a
    key gives the key, if it has no comment yet, the dedent of the texts
    after the slashes, one per line and in order, joined by line feeds; a
    line whose text after the slashes is not empty and ends in [//] is a
    separator and is left out. The content gains the key line alone. *)
Theorem line_comments_reach_key block line self key :
  Forall (λ l, PyStr.startswith (PyStr.strip l) "//" = true) block →
  omap line_comment_text block ≠ [] →
  is_content_line line = true →
  re_match_key (PyStr.strip line) = Some key →
  comments self !! key = None →
  scan_lines dedent (block ++ [line]) self
  = (Return (mkScan [line] [] false),
     set_comments
       (<[key := dedent (PyStr.join PyStr.nl (omap line_comment_text block))]>
          (comments self))
       self).
Proof.
  intros Hblock Hne Hline Hkey Hfresh. unfold scan_lines.
  rewrite (for_fold_app _ _ _ _ _ _ _
             (for_fold_line_comments block (mkScan [] [] false) self eq_refl Hblock)).
  simpl. unfold bind. rewrite (parse_line_key_run _ _ _ key) by done.
  simpl. unfold ret, setdefault. by rewrite Hfresh.
Qed.

(** *** Reloading *)

Lemma after_resource_comments_only resource self1 self2 :
  comments self1 = comments self2 →
  comments (after_resource load_resource sublime_decode_value dedent resource self1)
  = comments (after_resource load_resource sublime_decode_value dedent resource self2).
Proof.
  intros Hc. unfold after_resource.
  destruct (is_ignored resource); [done|].
  destruct (load_resource resource) as [text|e]; [|done].
  assert (harvested dedent (PyStr.splitlines text) (add_event (DebugParsing resource) self1)
          = harvested dedent (PyStr.splitlines text) (add_event (DebugParsing resource) self2))
    as Hh by by apply harvested_comments_only.
  destruct (decoded _ _ _) as [v|e]; simpl; [|done].
  destruct (py_items v); simpl; done.
Qed.

Lemma scan_comments_only resources : ∀ self1 self2,
  comments self1 = comments self2 →
  comments (foldl (λ s r, after_resource load_resource sublime_decode_value dedent r s)
              self1 resources)
  = comments (foldl (λ s r, after_resource load_resource sublime_decode_value dedent r s)
                self2 resources).
Proof.
  induction resources as [|r rs IH]; intros self1 self2 Hc; simpl; [done|].
  by apply IH, after_resource_comments_only.
Qed.

Lemma foldl_after_resource_defaults resources self k :
  defaults (foldl (λ s r, after_resource load_resource sublime_decode_value dedent r s)
              self resources) !! k
  = match defaults self !! k with
    | Some v => Some v
    | None => first_defined load_resource sublime_decode_value dedent k resources
    end.
Proof.
  pose proof (scan_defaults load_resource sublime_decode_value dedent resources self k) as H.
  by rewrite for_each_load_run in H.
Qed.

(** The tables a reload followed by the scan leaves. *)
Lemma reload_then_load_defaults self k :
  defaults (load (trigger_settings_reload self)).2 !! k
  = first_defined load_resource sublime_decode_value dedent k
      (resource_list find_resources (filename self)).
Proof.
  destruct (_load_settings_run find_resources load_resource sublime_decode_value dedent
              (trigger_settings_reload self)) as (evs & _ & E).
  rewrite E. simpl. unfold finish.
  destruct (on_loaded _); simpl; by rewrite foldl_after_resource_defaults.
Qed.

Lemma reload_then_load_comments self1 self2 :
  filename self1 = filename self2 →
  comments (load (trigger_settings_reload self1)).2
  = comments (load (trigger_settings_reload self2)).2.
Proof.
  intros Hf.
  destruct (_load_settings_run find_resources load_resource sublime_decode_value dedent
              (trigger_settings_reload self1)) as (evs1 & _ & E1).
  destruct (_load_settings_run find_resources load_resource sublime_decode_value dedent
              (trigger_settings_reload self2)) as (evs2 & _ & E2).
  rewrite E1, E2. simpl. rewrite Hf. unfold finish.
  assert (∀ s, comments (if on_loaded (add_event DebugLoadingTook s)
                         then add_event CallOnLoaded (add_event DebugLoadingTook s)
                         else add_event DebugLoadingTook s) = comments s) as Hfin.
  { intros s. by destruct (on_loaded _). }
  rewrite !Hfin. by apply scan_comments_only.
Qed.

(** X6. After [trigger_settings_reload], [_load_settings] leaves for every
    key the default of the first resource of the scan list that defines
    it, and none for a key that no resource defines. Nothing of the tables
    held before the reload survives: two objects for the same file name end
    with the same defaults and the same comments. *)
Theorem reload_discards_old_tables self :
  (∀ k, defaults (load (trigger_settings_reload self)).2 !! k
        = first_defined load_resource sublime_decode_value dedent k
            (find_resources (filename self)
             ++ find_resources (filename self +:+ "-hints")
             ++ (if syntax_specific find_resources (filename self)
                 then find_resources PREF_FILE ++ find_resources (PREF_FILE +:+ "-hints")
                 else [])))
  ∧ ∀ other,
      filename other = filename self →
      defaults (load (trigger_settings_reload other)).2
      = defaults (load (trigger_settings_reload self)).2
      ∧ comments (load (trigger_settings_reload other)).2
        = comments (load (trigger_settings_reload self)).2.
Proof.
  split; [intros k; apply reload_then_load_defaults|].
  intros other Hf. split; [|by apply reload_then_load_comments].
  apply map_eq. intros k. by rewrite !reload_then_load_defaults, Hf.
Qed.

End Host.

End Scan.

(** ** The layout of a settings file and the comments of its keys *)

Module Layout.

Import Settings Scan.

(** What can stand between two lines that start with a key: a [//] line, a
    blank line, a content line that does not start with a key, or a block
    comment from the line that opens it to the line that closes it. *)
Inductive piece : Type :=
| LineComment (line : string)
| Blank (line : string)
| Plain (line : string)
| BlockComment (first : string) (rest : list string) (closing : string).


(** The lines of a piece, the comment texts it holds and the content lines
    it holds. *)
Definition piece_lines (p : piece) : list string :=
  match p with
  | LineComment line | Blank line | Plain line => [line]
  | BlockComment first rest closing => first :: rest ++ [closing]
  end.


Definition piece_content (p : piece) : list string :=
  match p with
  | Plain line => [line]
  | _ => []
  end.

(** A line that starts with a key, with the pieces above it, up to the
    line before that starts with a key or to the start of the file. *)
Record entry : Type := mkEntry {
  entry_above : list piece;
  entry_line : string;
  entry_key : string
}.


Definition entry_lines (e : entry) : list string :=
  (entry_above e ≫= piece_lines) ++ [entry_line e].
Definition entry_content (e : entry) : list string :=
  (entry_above e ≫= piece_content) ++ [entry_line e].

(** A file: its entries and the pieces after the last line that starts
    with a key. *)
Definition layout_lines (entries : list entry) (tail : list piece) : list string :=
  (entries ≫= entry_lines) ++ (tail ≫= piece_lines).
Definition layout_content (entries : list entry) (tail : list piece) : list string :=
  (entries ≫= entry_content) ++ (tail ≫= piece_content).

Section Host.

Variable find_resources : string → list string.
Variable load_resource : string → outcome string.
Variable sublime_decode_value : string → outcome value.
Variable dedent : string → string.

Local Abbreviation parse := (parse_line dedent).
Local Abbreviation load_into :=
  (load_resource_into load_resource sublime_decode_value dedent).



(** *** The scan of a layout *)








(** *** The table after the entries *)





(** *** What a resource leaves in the table *)





End Host.

End Layout.

(** ** Layouts at the sample *)

Module LayoutSample.

Import Settings Scan Layout.

Local Abbreviation scan := (scan_lines Sample.dedent).
Local Abbreviation load_into :=
  (load_resource_into Sample.load_resource Sample.sublime_decode_value Sample.dedent).

(** The layout of [Sample.python_lines]. *)
Definition python_entries : list entry :=
  [ mkEntry [Plain "{"; LineComment "    // Tab size"]
      ("    " +:+ q "tab_size" +:+ ": 4,") "tab_size";
    mkEntry
      [Blank ""; BlockComment "    /*" ["     * Columns in which to draw rulers"] "     */"]
      ("    " +:+ q "rulers" +:+ ": [79]") "rulers" ].
Definition python_tail : list piece := [Plain "}"].

(** The layout of [Sample.broken_lines]. *)
Definition broken_entries : list entry :=
  [ mkEntry [Plain "{"; LineComment "    // Use spaces"]
      ("    " +:+ q "translate_tabs_to_spaces" +:+ ": true,") "translate_tabs_to_spaces" ].
Definition broken_tail : list piece := [Plain "    oops"].

Example sample_layouts :
  layout_lines python_entries python_tail = Sample.python_lines
  ∧ layout_content python_entries python_tail = Sample.python_content
  ∧ layout_lines broken_entries broken_tail = Sample.broken_lines
  ∧ layout_content broken_entries broken_tail = Sample.broken_content.
Proof. repeat split; reflexivity. Qed.






End LayoutSample.

(** ** The view-facing functions of [src/settings.py] *)

Module SettingsView.

Import Settings.

Definition KEY_SCOPE : string := "entity.name.other.key.sublime-settings".
Definition VALUE_SCOPE : string :=
  "meta.expect-value | meta.mapping.value | punctuation.separator.mapping.pair.json".

(** A [sublime.Region]: its two ends, in either order. *)
Record Region : Type := mkRegion { region_a : Z; region_b : Z }.

Definition begin (r : Region) : Z := Z.min (region_a r) (region_b r).
Definition end_ (r : Region) : Z := Z.max (region_a r) (region_b r).
Definition contains (r : Region) (point : Z) : bool :=
  (begin r <=? point)%Z && (point <=? end_ r)%Z.

(** A region has a length, its size, so where the code tests a region an
    empty one counts as false. *)
Definition region_size (r : Region) : Z := Z.abs (region_a r - region_b r).
Definition region_true (r : Region) : bool := negb (region_size r =? 0)%Z.

(** What the modelled functions read of a [sublime.View]. [substr_none] is
    the outcome of [view.substr(None)], [char_at] is [view.substr(point)],
    [window] tells whether [view.window()] is a window. *)
Record View : Type := mkView {
  match_selector : Z → string → bool;
  find_by_selector : string → list Region;
  substr : Region → string;
  substr_none : outcome string;
  char_at : Z → string;
  line : Z → Region;
  view_size : Z;
  window : bool;
  file_name : option string
}.

(** What they do to the outside: records sent to the logger, messages on
    the status bar, and calls that change the view. *)
Inductive effect : Type :=
| LogDebug (msg : string)
| LogWarning (msg : string)
| StatusMessage (msg : string)
| AddRegions (key : string) (regions : list Region) (scope : value)
    (icon : string) (flags : nat)
| EraseRegions (key : string)
| SelClear
| SelAdd (point : Z)
| ShowAtCenter (point : Z)
| HidePopup
| FocusView
| RunCommand (name : string) (contents : string).

Inductive flag : Type := INHIBIT_WORD_COMPLETIONS.

Definition get_key_region_at (view : View) (point : Z) : option Region :=
  if match_selector view point KEY_SCOPE
  then List.find (λ region, contains region point) (find_by_selector view KEY_SCOPE)
  else None.

Definition get_key_name (view : View) (point : Z) : option string :=
  match get_key_region_at view point with
  | Some region => if region_true region then Some (substr view region) else None
  | None => None
  end.

(** The loop of [get_last_key_name_from]. *)
Fixpoint last_region_before (point : Z) (last_region : option Region)
    (regions : list Region) : option Region :=
  match regions with
  | [] => last_region
  | region :: regions' =>
      if (point <? begin region)%Z then last_region
      else last_region_before point (Some region) regions'
  end.

Definition get_last_key_name_from (view : View) (point : Z) : outcome (option string) :=
  match find_by_selector view KEY_SCOPE with
  | [] => Return None
  | regions =>
      match last_region_before point None regions with
      | Some last_region => Return (Some (substr view last_region))
      | None =>
          match substr_none view with
          | Return s => Return (Some s)
          | Raise e => Raise e
          end
      end
  end.

Definition get_value_region_at (view : View) (point : Z) : option Region :=
  if match_selector view point VALUE_SCOPE
  then List.find (λ region, contains region point) (find_by_selector view VALUE_SCOPE)
  else None.

(** [s[offset:]] for an offset of either sign. *)
Definition slice_from_z (offset : Z) (s : string) : string :=
  if (0 <=? offset)%Z then PyStr.slice_from (Z.to_nat offset) s
  else PyStr.slice_from (String.length s - Z.to_nat (- offset)) s.

(** [s[1:-1]] *)
Fixpoint drop_last (s : string) : string :=
  match s with
  | EmptyString => EmptyString
  | String c s' => match s' with EmptyString => EmptyString | _ => String c (drop_last s') end
  end.
Definition strip_ends (s : string) : string := drop_last (PyStr.slice_from 1 s).

(** *** Computations that also act on the view and the logger *)

Record World : Type := mkWorld {
  self_ : KnownSettings;
  effects : list effect
}.

Definition V (A : Type) : Type := World → outcome A * World.

Definition vret {A} (a : A) : V A := λ w, (Return a, w).
Definition vbind {A B} (m : V A) (k : A → V B) : V B :=
  λ w, match m w with
       | (Return a, w') => k a w'
       | (Raise e, w') => (Raise e, w')
       end.
Definition vlift {A} (o : outcome A) : V A := λ w, (o, w).
Definition run_method {A} (m : M A) : V A :=
  λ w, match m (self_ w) with (o, self') => (o, mkWorld self' (effects w)) end.
Definition act (e : effect) : V unit :=
  λ w, (Return tt, mkWorld (self_ w) (effects w ++ [e])).
Definition get_object : V KnownSettings := λ w, (Return (self_ w), w).

Declare Scope view_scope.
Delimit Scope view_scope with view.
Notation "x <- c1 ;; c2" := (vbind c1 (λ x, c2))
  (at level 100, c1 at next level, right associativity) : view_scope.
Notation "c1 ;; c2" := (vbind c1 (λ _, c2))
  (at level 100, right associativity) : view_scope.
Local Open Scope view_scope.

Section Host.

Variable sublime_decode_value : string → outcome value.
Variable py_int : string → option Z.
Variable py_float : string → option float.
Variable repr : value → string.
Variable _color_scheme_completions : M (option (list (string * value))).
Variable _theme_completions : M (option (list (string * value))).

(** [sublime.encode_value(value)] *)
Variable encode_value : value → string.

Local Abbreviation value_completions_for :=
  (_value_completions_for sublime_decode_value py_int py_float repr
     _color_scheme_completions _theme_completions).

Definition _key_snippet (key : string) (v : value) (bol eol : string) : string :=
  let encoded := encode_value v in
  let quoted_key := String PyStr.dquote key +:+ String PyStr.dquote "" in
  match v with
  | VStr _ =>
      bol +:+ quoted_key +:+ ": " +:+ String PyStr.dquote "${1:"
      +:+ strip_ends encoded +:+ "}" +:+ String PyStr.dquote eol +:+ "$0"
  | VList _ =>
      bol +:+ quoted_key +:+ ":" +:+ PyStr.nl +:+ "[" +:+ PyStr.nl
      +:+ String PyStr.tab "${1:" +:+ strip_ends encoded +:+ "}" +:+ PyStr.nl
      +:+ "]" +:+ eol +:+ "$0"
  | VDict _ =>
      bol +:+ quoted_key +:+ ":" +:+ PyStr.nl +:+ "{" +:+ PyStr.nl
      +:+ String PyStr.tab "${1:" +:+ strip_ends encoded +:+ "}" +:+ PyStr.nl
      +:+ "}" +:+ eol +:+ "$0"
  | _ => bol +:+ quoted_key +:+ ": ${1:" +:+ encoded +:+ "}" +:+ eol +:+ "$0"
  end.

(** The items of the dict [defaults], each key once; the order in which
    the table yields them is not observed by what follows. *)
Definition defaults_items (self : KnownSettings) : list (string * value) :=
  map_to_list (defaults self).

Definition setting_trigger (key : string) : string :=
  key +:+ "  " +:+ String PyStr.tab "setting".

Definition key_completions (self : KnownSettings) (view : View) (prefix : string)
    (point : Z) : list (string * string) * flag :=
  if match_selector view (point - 1)%Z "string" then
    ((λ kv, (setting_trigger kv.1, kv.1)) <$> defaults_items self,
     INHIBIT_WORD_COMPLETIONS)
  else
    let line := PyStr.strip (substr view (line view point)) in
    let eol :=
      if String.length line =? String.length prefix then "," else "," +:+ PyStr.nl in
    ((λ kv, (setting_trigger kv.1, _key_snippet kv.1 kv.2 "" eol)) <$> defaults_items self,
     INHIBIT_WORD_COMPLETIONS).

(** Whether a completion counts as a string for [is_str]. *)
Definition is_string_like (v : value) : bool :=
  match v with
  | VStr _ => true
  | VList (VStr _ :: _) => true
  | _ => false
  end.

(** The entry of one completion when the string branch is taken. *)
Definition string_entry (tv : string * value) : option (string * string) :=
  match tv.2 with
  | VStr s => Some (tv.1, s)
  | _ => None
  end.

(** The entry of one completion in the other branch. *)
Definition encoded_entry (typed prefix : string) (tv : string * value)
  : option (string * string) :=
  match tv.2 with
  | VFloat _ =>
      let value_str := py_str repr tv.2 in
      if PyStr.startswith value_str typed then
        let offset := (Z.of_nat (String.length typed) - Z.of_nat (String.length prefix))%Z in
        Some (tv.1, slice_from_z offset value_str)
      else None
  | v => Some (tv.1, encode_value v)
  end.

Definition within_string_message : string := "Cannot complete value set within a string".

Definition value_completions (view : View) (prefix : string) (point : Z)
  : V (option (list (string * string) * flag)) :=
  match get_value_region_at view point with
  | None => act (LogDebug "unable to find current key region") ;; vret None
  | Some value_region =>
      if negb (region_true value_region) then
        act (LogDebug "unable to find current key region") ;; vret None
      else
      key <- vlift (get_last_key_name_from view (begin value_region)) ;;
      match key with
      | None | Some EmptyString => act (LogDebug "unable to find current key") ;; vret None
      | Some key =>
          completions <- run_method (value_completions_for key) ;;
          match completions with
          | None | Some [] => act (LogDebug "no completions to offer") ;; vret None
          | Some completions =>
              let is_str := existsb (λ tv, is_string_like tv.2) completions in
              let in_str := match_selector view point "string" in
              act (LogDebug ("completing a string (" +:+ py_str repr (VBool is_str)
                             +:+ ") within a string (" +:+ py_str repr (VBool in_str)
                             +:+ ")")) ;;
              if in_str && negb is_str then
                (if window view then act (StatusMessage within_string_message)
                 else vlift (Raise AttributeError)) ;;
                act (LogWarning within_string_message) ;;
                vret None
              else
                let results :=
                  if in_str && is_str then omap string_entry completions
                  else
                    let typed :=
                      PyStr.lstrip_by PyStr.is_space
                        (substr view (mkRegion (begin value_region) point)) in
                    omap (encoded_entry typed prefix) completions in
                vret (Some (Ordering.sorted_completions results, INHIBIT_WORD_COMPLETIONS))
          end
      end
  end.

(** *** Linting *)

(** [os.sep], the settings object of the package ([None] for a key it does
    not hold) and [style_flags_from_list] of the package's library. *)
Variable os_sep : string.
Variable package_settings : string → option value.
Variable style_flags_from_list : value → nat.

Definition USER_PATH : string :=
  os_sep +:+ "Packages" +:+ os_sep +:+ "User" +:+ os_sep.

(** The truth value Python gives a value; a key the settings do not hold
    reads as [None]. *)
Definition truthy (v : option value) : bool :=
  match v with
  | None | Some VNone => false
  | Some (VBool b) => b
  | Some (VInt n) => negb (n =? 0)%Z
  | Some (VFloat x) => negb (PrimFloat.eqb x 0)
  | Some (VStr s) => negb (PyStr.is_empty s)
  | Some (VList l) => match l with [] => false | _ => true end
  | Some (VDict d) => match d with [] => false | _ => true end
  end.

(** [settings.get(key, default)] *)
Definition get_or (key : string) (default : value) : value :=
  match package_settings key with
  | Some v => v
  | None => default
  end.

(** The fields of a [SettingsListener] that [do_linting] reads. *)
Record SettingsListener : Type := mkSettingsListener {
  view : View;
  known_settings : option KnownSettings
}.

Definition marks_key : string := "unknown_settings_keys".

(** The list comprehension of [do_linting]: the key regions whose text is
    no key of the known settings. Membership in the object goes through
    its iterator over [defaults]. *)
Definition unknown_key_regions (v : View) (ks : KnownSettings) : list Region :=
  List.filter (λ region, negb (bool_decide (is_Some (defaults ks !! substr v region))))
    (find_by_selector v KEY_SCOPE).

(** [do_linting]: the call it makes on the view, or the exception of the
    containment test on a missing file name. *)
Definition do_linting (listener : SettingsListener) : outcome effect :=
  let unknown_regions : outcome (option (list Region)) :=
    match known_settings listener with
    | None => Return None
    | Some ks =>
        match file_name (view listener) with
        | None => Raise TypeError
        | Some name =>
            if PyStr.contains name USER_PATH then
              if truthy (package_settings "settings.linting")
              then Return (Some (unknown_key_regions (view listener) ks))
              else Return None
            else Return None
        end
    end in
  match unknown_regions with
  | Raise e => Raise e
  | Return (Some (r :: rs)) =>
      let styles :=
        get_or "settings.highlight_styles"
          (VList [VStr "DRAW_SOLID_UNDERLINE"; VStr "DRAW_NO_FILL"; VStr "DRAW_NO_OUTLINE"]) in
      Return (AddRegions marks_key (r :: rs) (get_or "settings.highlight_scope" (VStr "text"))
                "dot" (style_flags_from_list styles))
  | Return _ => Return (EraseRegions marks_key)
  end.

(** *** Properties *)

Lemma last_region_before_app point pre : ∀ acc rest,
  Forall (λ x, (begin x <= point)%Z) pre →
  last_region_before point acc (pre ++ rest)
  = last_region_before point (from_option Some acc (last pre)) rest.
Proof.
  induction pre as [|x pre IH]; intros acc rest Hall; simpl; [done|].
  inversion Hall as [|? ? Hx Hpre]; subst.
  assert ((point <? begin x)%Z = false) as -> by (apply Z.ltb_ge; lia).
  rewrite IH by done. destruct pre as [|y pre']; [done|].
  change (last (x :: y :: pre')) with (last (y :: pre')).
  destruct (last (y :: pre')) eqn:E; [done|]. by apply last_None in E.
Qed.

(** X7. [get_last_key_name_from] returns [None] for a view without key
    regions; otherwise it returns the text of the last key region of the
    leading run of regions that begin at or before the point. When already
    the first key region begins after the point it has no region to read
    and passes [None] on to [view.substr]. *)
Theorem last_key_before_point view point :
  (find_by_selector view KEY_SCOPE = [] →
   get_last_key_name_from view point = Return None)
  ∧ (∀ pre r post,
        find_by_selector view KEY_SCOPE = pre ++ r :: post →
        Forall (λ x, (begin x <= point)%Z) (pre ++ [r]) →
        match post with [] => True | x :: _ => (point < begin x)%Z end →
        get_last_key_name_from view point = Return (Some (substr view r)))
  ∧ (∀ r post,
        find_by_selector view KEY_SCOPE = r :: post →
        (point < begin r)%Z →
        get_last_key_name_from view point
        = match substr_none view with
          | Return s => Return (Some s)
          | Raise e => Raise e
          end).
Proof.
  unfold get_last_key_name_from. split; [by intros ->|]. split.
  - intros pre r post Hr Hall Hpost. rewrite Hr.
    replace (pre ++ r :: post) with ((pre ++ [r]) ++ post) by by rewrite <- app_assoc.
    destruct ((pre ++ [r]) ++ post) as [|x xs] eqn:E; [by destruct pre|].
    rewrite <- E, last_region_before_app by done. rewrite last_snoc. simpl.
    destruct post as [|y post]; simpl; [done|].
    by assert ((point <? begin y)%Z = true) as -> by (apply Z.ltb_lt; lia).
  - intros r post Hr Hlt. rewrite Hr. simpl.
    by assert ((point <? begin r)%Z = true) as -> by (apply Z.ltb_lt; lia).
Qed.

Lemma length_app (s1 s2 : string) :
  String.length (s1 +:+ s2) = String.length s1 + String.length s2.
Proof. induction s1 as [|c s1 IH]; [done|]. rewrite Html.app_cons. simpl. by rewrite IH. Qed.

Lemma setting_trigger_inj k1 k2 : setting_trigger k1 = setting_trigger k2 → k1 = k2.
Proof.
  unfold setting_trigger. revert k2.
  induction k1 as [|c k1 IH]; intros [|d k2] H; try done.
  - apply (f_equal String.length) in H. rewrite !length_app in H.
    simpl in H. lia.
  - apply (f_equal String.length) in H. rewrite !length_app in H.
    simpl in H. lia.
  - rewrite !Html.app_cons in H. injection H as -> H. f_equal. by apply IH.
Qed.

Lemma key_completions_offered self view prefix point k :
  (∃ content, (setting_trigger k, content) ∈ (key_completions self view prefix point).1)
  ↔ is_Some (defaults self !! k).
Proof.
  unfold key_completions, defaults_items.
  destruct (match_selector view (point - 1) "string"); simpl; split.
  - intros (content & Hin). apply list_elem_of_fmap in Hin as ([k' v] & Heq & Hin).
    simpl in Heq. injection Heq as Hk _. apply setting_trigger_inj in Hk as ->.
    apply elem_of_map_to_list in Hin. by exists v.
  - intros [v Hv]. exists k. apply list_elem_of_fmap. exists (k, v).
    split; [done|]. by apply elem_of_map_to_list.
  - intros (content & Hin). apply list_elem_of_fmap in Hin as ([k' v] & Heq & Hin).
    simpl in Heq. injection Heq as Hk _. apply setting_trigger_inj in Hk as ->.
    apply elem_of_map_to_list in Hin. by exists v.
  - intros [v Hv]. eexists. apply list_elem_of_fmap. exists (k, v).
    split; [done|]. by apply elem_of_map_to_list.
Qed.

(** X8. [key_completions] offers one completion per key of [defaults] and
    no other: a key is offered exactly when it has a default, and the list
    is as long as the table. With the caret inside a string the content of
    each completion is the bare key. *)
Theorem key_completions_cover_defaults self view prefix point :
  (∀ k, (∃ content,
           (k +:+ "  " +:+ String PyStr.tab "setting", content)
           ∈ (key_completions self view prefix point).1)
        ↔ is_Some (defaults self !! k))
  ∧ length (key_completions self view prefix point).1 = size (defaults self)
  ∧ (match_selector view (point - 1)%Z "string" = true →
     ∀ t c, (t, c) ∈ (key_completions self view prefix point).1 →
            t = c +:+ "  " +:+ String PyStr.tab "setting"
            ∧ is_Some (defaults self !! c)).
Proof.
  split; [intros k; apply key_completions_offered|]. split.
  - unfold key_completions, defaults_items.
    destruct (match_selector _ _ _); simpl; by rewrite length_fmap, length_map_to_list.
  - intros Hs t c Hin. unfold key_completions, defaults_items in Hin.
    rewrite Hs in Hin. simpl in Hin.
    apply list_elem_of_fmap in Hin as ([k v] & Heq & Hin). simpl in Heq.
    injection Heq as -> ->. split; [done|].
    apply elem_of_map_to_list in Hin. by exists v.
Qed.

Definition by_trigger (x y : string * string) : Prop :=
  String.le (PyStr.lower x.1) (PyStr.lower y.1).

Lemma value_completions_run view prefix point w vr key cs :
  get_value_region_at view point = Some vr →
  region_true vr = true →
  get_last_key_name_from view (begin vr) = Return (Some key) →
  key ≠ EmptyString →
  (value_completions_for key (self_ w)).1 = Return (Some cs) →
  cs ≠ [] →
  ∃ w1,
    effects w1 = effects w
    ∧ value_completions view prefix point w
      = let is_str := existsb (λ tv, is_string_like tv.2) cs in
        let in_str := match_selector view point "string" in
        let w2 :=
          mkWorld (self_ w1)
            (effects w1
             ++ [LogDebug ("completing a string (" +:+ py_str repr (VBool is_str)
                           +:+ ") within a string (" +:+ py_str repr (VBool in_str)
                           +:+ ")")]) in
        if in_str && negb is_str then
          if window view then
            (Return None,
             mkWorld (self_ w1)
               (effects w2 ++ [StatusMessage within_string_message;
                               LogWarning within_string_message]))
          else (Raise AttributeError, w2)
        else
          (Return
             (Some (Ordering.sorted_completions
                      (if in_str && is_str then omap string_entry cs
                       else omap (encoded_entry
                                    (PyStr.lstrip_by PyStr.is_space
                                       (substr view (mkRegion (begin vr) point)))
                                    prefix) cs),
                    INHIBIT_WORD_COMPLETIONS)), w2).
Proof.
  intros Hvr Htrue Hkey Hne Hcs Hcs0. unfold value_completions. rewrite Hvr, Htrue.
  cbn [negb].
  unfold vbind at 1, vlift at 1. rewrite Hkey.
  destruct key as [|c key]; [done|].
  unfold vbind at 1, run_method at 1.
  destruct (value_completions_for (String c key) (self_ w)) as [o self'] eqn:E.
  simpl in Hcs. subst o. destruct cs as [|c0 cs]; [done|].
  exists (mkWorld self' (effects w)). split; [done|].
  unfold vbind, act, vret, vlift. simpl.
  destruct (match_selector view point "string"); simpl.
  - destruct (is_string_like c0.2 || existsb _ cs); simpl; [done|].
    destruct (window view); simpl; [|done]. by rewrite <- app_assoc.
  - done.
Qed.

(** X9. With the caret inside a string, [value_completions] offers the
    completions whose value is a string and no other, each with the bare
    string as content, ordered by lowercased trigger. If no completion
    counts as a string it offers nothing, and in a view with a window it
    puts its message on the status bar. *)
Theorem value_completions_in_string view prefix point w vr key cs :
  get_value_region_at view point = Some vr →
  region_true vr = true →
  get_last_key_name_from view (begin vr) = Return (Some key) →
  key ≠ EmptyString →
  (value_completions_for key (self_ w)).1 = Return (Some cs) →
  cs ≠ [] →
  match_selector view point "string" = true →
  window view = true →
  (existsb (λ tv, is_string_like tv.2) cs = true →
   ∃ results,
     (value_completions view prefix point w).1
     = Return (Some (results, INHIBIT_WORD_COMPLETIONS))
     ∧ StronglySorted by_trigger results
     ∧ ∀ t c, (t, c) ∈ results ↔ (t, VStr c) ∈ cs)
  ∧ (existsb (λ tv, is_string_like tv.2) cs = false →
     (value_completions view prefix point w).1 = Return None
     ∧ StatusMessage within_string_message
       ∈ effects (value_completions view prefix point w).2).
Proof.
  intros Hvr Htrue Hkey Hne Hcs Hcs0 Hin Hwin.
  destruct (value_completions_run view prefix point w vr key cs Hvr Htrue Hkey Hne Hcs Hcs0)
    as (w1 & Hw1 & ->).
  simpl. rewrite Hin, Hwin. split; intros Hstr; rewrite Hstr; simpl.
  - eexists. split; [reflexivity|]. split; [apply Ordering.sorted_completions_sorted|].
    intros t c. rewrite Ordering.sorted_completions_perm, list_elem_of_omap. split.
    + intros ([t' v] & Hx & Hentry). unfold string_entry in Hentry. simpl in Hentry.
      destruct v; simplify_eq. done.
    + intros Hx. by exists (t, VStr c).
  - split; [done|]. rewrite !elem_of_app. right. by left.
Qed.

(** X10. With the caret outside a string, [value_completions] offers, in
    the order of the lowercased triggers: for every completion that is no
    float its JSON encoding, and for a float, only when its text starts
    with what has been typed after the value's start, that text from the
    offset between the lengths of the typed text and of the prefix. *)
Theorem value_completions_outside_string view prefix point w vr key cs :
  get_value_region_at view point = Some vr →
  region_true vr = true →
  get_last_key_name_from view (begin vr) = Return (Some key) →
  key ≠ EmptyString →
  (value_completions_for key (self_ w)).1 = Return (Some cs) →
  cs ≠ [] →
  match_selector view point "string" = false →
  let typed :=
    PyStr.lstrip_by PyStr.is_space (substr view (mkRegion (begin vr) point)) in
  ∃ results,
    (value_completions view prefix point w).1
    = Return (Some (results, INHIBIT_WORD_COMPLETIONS))
    ∧ StronglySorted by_trigger results
    ∧ ∀ t c,
        (t, c) ∈ results
        ↔ ∃ v, (t, v) ∈ cs
               ∧ match v with
                 | VFloat _ =>
                     PyStr.startswith (repr v) typed = true
                     ∧ c = slice_from_z
                             (Z.of_nat (String.length typed)
                              - Z.of_nat (String.length prefix))%Z (repr v)
                 | _ => c = encode_value v
                 end.
Proof.
  intros Hvr Htrue Hkey Hne Hcs Hcs0 Hout typed.
  destruct (value_completions_run view prefix point w vr key cs Hvr Htrue Hkey Hne Hcs Hcs0)
    as (w1 & Hw1 & ->).
  simpl. rewrite Hout. simpl.
  eexists. split; [reflexivity|]. split; [apply Ordering.sorted_completions_sorted|].
  intros t c. rewrite Ordering.sorted_completions_perm, list_elem_of_omap. split.
  - intros ([t' v] & Hx & Hentry). unfold encoded_entry in Hentry. simpl in Hentry.
    exists v. destruct v; simplify_eq; try done.
    fold typed in Hentry. change (py_str repr (VFloat x)) with (repr (VFloat x)) in Hentry.
    destruct (PyStr.startswith (repr (VFloat x)) typed) eqn:E; simplify_eq. done.
  - intros (v & Hx & Hv). exists (t, v). split; [done|].
    unfold encoded_entry. simpl. destruct v; subst; try done.
    destruct Hv as [Hs ->]. fold typed. change (py_str repr (VFloat x)) with (repr (VFloat x)).
    by rewrite Hs.
Qed.

Lemma unknown_key_regions_spec v ks r :
  r ∈ unknown_key_regions v ks
  ↔ r ∈ find_by_selector v KEY_SCOPE ∧ defaults ks !! substr v r = None.
Proof.
  unfold unknown_key_regions. rewrite !list_elem_of_In, filter_In, negb_true_iff.
  rewrite bool_decide_eq_false, <- eq_None_not_Some. done.
Qed.

Lemma do_linting_marks_unknown_keys_aux listener :
  match do_linting listener with
  | Return (AddRegions key regions scope icon flags) =>
      ∃ ks, known_settings listener = Some ks
            ∧ ∀ r, r ∈ regions
                   ↔ r ∈ find_by_selector (view listener) KEY_SCOPE
                     ∧ defaults ks !! substr (view listener) r = None
  | _ => True
  end.
Proof.
  unfold do_linting.
  destruct (known_settings listener) as [ks|] eqn:Hks; [|done].
  destruct (file_name (view listener)) as [name|]; [|done].
  destruct (PyStr.contains name USER_PATH); [|done].
  destruct (truthy (package_settings "settings.linting")); [|done].
  destruct (unknown_key_regions (view listener) ks) as [|r rs] eqn:Hu; [done|].
  exists ks. split; [done|]. intros r'. rewrite <- Hu. apply unknown_key_regions_spec.
Qed.

(** X11. [do_linting] makes exactly one call on the view, or raises the
    [TypeError] of a listener that has known settings but a view without a
    file name. When it marks regions, the file is in the User package,
    linting is on, and the marked regions are the key regions whose text
    has no default, at least one; no key with a default is ever marked.
    In every other case it erases the marks. *)
Theorem do_linting_marks_unknown_keys listener :
  match do_linting listener with
  | Return (AddRegions key regions scope icon flags) =>
      key = "unknown_settings_keys" ∧ icon = "dot"
      ∧ regions ≠ []
      ∧ ∃ ks name,
          known_settings listener = Some ks
          ∧ file_name (view listener) = Some name
          ∧ PyStr.contains name USER_PATH = true
          ∧ truthy (package_settings "settings.linting") = true
          ∧ ∀ r, r ∈ regions
                 ↔ r ∈ find_by_selector (view listener) KEY_SCOPE
                   ∧ defaults ks !! substr (view listener) r = None
  | Return (EraseRegions key) =>
      key = "unknown_settings_keys"
      ∧ (known_settings listener = None
         ∨ (∃ name, file_name (view listener) = Some name
                    ∧ (PyStr.contains name USER_PATH = false
                       ∨ truthy (package_settings "settings.linting") = false))
         ∨ (∃ ks, known_settings listener = Some ks
                  ∧ ∀ r, r ∈ find_by_selector (view listener) KEY_SCOPE →
                         is_Some (defaults ks !! substr (view listener) r)))
  | Return _ => False
  | Raise e =>
      e = TypeError ∧ is_Some (known_settings listener)
      ∧ file_name (view listener) = None
  end.
Proof.
  unfold do_linting.
  destruct (known_settings listener) as [ks|] eqn:Hks; [|by split; [|left]].
  destruct (file_name (view listener)) as [name|] eqn:Hname; [|by repeat split].
  destruct (PyStr.contains name USER_PATH) eqn:Huser.
  2:{ split; [done|]. right. left. exists name. split; [done|]. by left. }
  destruct (truthy (package_settings "settings.linting")) eqn:Hlint.
  2:{ split; [done|]. right. left. exists name. split; [done|]. by right. }
  destruct (unknown_key_regions (view listener) ks) as [|r rs] eqn:Hu.
  - split; [done|]. right. right. exists ks. split; [done|]. intros r Hr.
    destruct (defaults ks !! substr (view listener) r) eqn:E; [done|].
    assert (r ∈ unknown_key_regions (view listener) ks) as Hin
      by by apply unknown_key_regions_spec.
    rewrite Hu in Hin. by apply elem_of_nil in Hin.
  - split_and!; try done. exists ks, name. split_and!; try done.
    intros r0. rewrite <- Hu. apply unknown_key_regions_spec.
Qed.

(** *** What the scan feeds to completions and linting *)

Variable find_resources : string → list string.
Variable load_resource : string → outcome string.
Variable dedent : string → string.

Local Abbreviation load :=
  (_load_settings find_resources load_resource sublime_decode_value dedent).
Local Abbreviation first_value :=
  (first_defined load_resource sublime_decode_value dedent).

(** X12. After a reload and the scan, [key_completions] offers a key
    exactly when some resource of the scan list defines it. *)
Theorem scanned_keys_are_offered self view prefix point k :
  (∃ content,
     (k +:+ "  " +:+ String PyStr.tab "setting", content)
     ∈ (key_completions (load (trigger_settings_reload self)).2 view prefix point).1)
  ↔ is_Some (first_value k (resource_list find_resources (filename self))).
Proof.
  rewrite <- (Scan.reload_then_load_defaults find_resources).
  apply key_completions_offered.
Qed.

(** X13. After a reload and the scan, [do_linting] never marks a key region
    whose key some resource of the scan list defines. *)
Theorem scanned_keys_are_not_marked self v key regions scope icon flags r :
  do_linting (mkSettingsListener v (Some (load (trigger_settings_reload self)).2))
  = Return (AddRegions key regions scope icon flags) →
  r ∈ regions →
  first_value (substr v r) (resource_list find_resources (filename self)) = None.
Proof.
  intros Hdo Hr.
  pose proof (do_linting_marks_unknown_keys_aux
                (mkSettingsListener v (Some (load (trigger_settings_reload self)).2))) as H.
  rewrite Hdo in H. simpl in H. destruct H as (ks & Hks & Hspec). simplify_eq.
  apply Hspec in Hr as [_ Hnone].
  by rewrite (Scan.reload_then_load_defaults find_resources) in Hnone.
Qed.

End Host.

End SettingsView.

Example strip_ends_ex :
  SettingsView.strip_ends "[1, 2]" = "1, 2" ∧ SettingsView.strip_ends "x" = ""
  ∧ SettingsView.slice_from_z (-2) "1.25" = "25"
  ∧ SettingsView.slice_from_z 2 "1.25" = "25"
  ∧ SettingsView.slice_from_z (-9) "1.25" = "1.25".
Proof. vm_compute. done. Qed.

(** ** [_complete_context] of [src/plugins/syntax_dev/completions.py] *)

Module ContextCompletions.

Import Completions.

(** The class of the pattern that [_complete_context] searches with: any
    character but a comma, an opening bracket and a blank. *)
Definition in_real_prefix (c : ascii) : bool :=
  negb (Ascii.eqb c "," || Ascii.eqb c "[" || Ascii.eqb c " ").

Fixpoint all_chars (p : ascii → bool) (s : string) : bool :=
  match s with
  | EmptyString => true
  | String c s' => p c && all_chars p s'
  end.

(** Group 0 of the search for a run of such characters that ends the text:
    the search takes the leftmost start, so the longest such run. *)
Fixpoint real_prefix_of (line_prefix : string) : string :=
  match line_prefix with
  | EmptyString => EmptyString
  | String c s' =>
      let t := real_prefix_of s' in
      if in_real_prefix c && (String.length t =? String.length s') then String c t else t
  end.

(** Whether the loop over [locations] returns the empty list at a point. *)
Definition gives_up (view : View) (prefix : string) (point : nat) : bool :=
  let real_prefix := real_prefix_of (_line_prefix view point) in
  PyStr.startswith real_prefix "scope:" || PyStr.contains real_prefix "/"
  || negb (String.eqb real_prefix prefix).

(** [context_regions] stands for the regions of the context names in the
    view: the text of each and the row of its start, counted from 0. *)
Definition _complete_context (view : View) (context_regions : list (string * nat))
    (prefix : string) (locations : list nat) : list CompletionItem :=
  if existsb (gives_up view prefix) locations then []
  else
    format_completions ((λ r, (r.1, Some (r.2 + 1))) <$> context_regions) "" KIND_CONTEXT.

Lemma real_prefix_of_suffix s :
  ∃ pre, s = pre +:+ real_prefix_of s
         ∧ (String.length (real_prefix_of s) = String.length s → pre = EmptyString).
Proof.
  induction s as [|c s (pre & Hs & Hfull)]; [by exists EmptyString|]. simpl.
  destruct (in_real_prefix c && (String.length (real_prefix_of s) =? String.length s)) eqn:E.
  - apply andb_prop in E as [_ E]. apply Nat.eqb_eq in E.
    rewrite (Hfull E) in Hs. exists EmptyString. split; [|done].
    change (String c s = String c (real_prefix_of s)). f_equal. exact Hs.
  - exists (String c pre). split; [by rewrite Html.app_cons, <- Hs|].
    intros Hlen. exfalso.
    assert (String.length s = String.length pre + String.length (real_prefix_of s)) as Hl.
    { rewrite Hs at 1. apply SettingsView.length_app. }
    simpl in Hlen. lia.
Qed.

Lemma real_prefix_of_chars s : all_chars in_real_prefix (real_prefix_of s) = true.
Proof.
  induction s as [|c s IH]; [done|]. simpl.
  destruct (in_real_prefix c) eqn:Hc; simpl; [|done].
  destruct (_ =? _); simpl; [by rewrite Hc|done].
Qed.

Lemma real_prefix_of_longest s pre c :
  s = pre +:+ String c (real_prefix_of s) → in_real_prefix c = false.
Proof.
  revert pre. induction s as [|d s IH]; intros pre Hs.
  - destruct pre; discriminate.
  - simpl in Hs.
    destruct (in_real_prefix d && (String.length (real_prefix_of s) =? String.length s)) eqn:E.
    + apply (f_equal String.length) in Hs. rewrite SettingsView.length_app in Hs.
      apply andb_prop in E as [_ E]. apply Nat.eqb_eq in E. simpl in Hs. lia.
    + destruct pre as [|p pre].
      * change (String d s = String c (real_prefix_of s)) in Hs.
        injection Hs as -> Hs. rewrite <- Hs in E.
        by rewrite Nat.eqb_refl, andb_true_r in E.
      * rewrite Html.app_cons in Hs. injection Hs as -> Hs. by apply (IH pre).
Qed.

(** X14. The real prefix that [_complete_context] reads at a caret is the
    end of the line prefix after its last comma, opening bracket or blank.
    If at some caret it starts with [scope:], holds a slash, or differs
    from the prefix the editor passed, no completion is offered; otherwise
    there is one completion per context name, in the order of the view,
    of kind context, each pointing to the line of its definition, counted
    from 1. *)
Theorem context_completions view context_regions prefix locations :
  (∀ point,
      let real_prefix := real_prefix_of (_line_prefix view point) in
      (∃ pre, _line_prefix view point = pre +:+ real_prefix)
      ∧ all_chars in_real_prefix real_prefix = true
      ∧ ∀ pre c, _line_prefix view point = pre +:+ String c real_prefix →
                 c = ","%char ∨ c = "["%char ∨ c = " "%char)
  ∧ ((∃ point, point ∈ locations
               ∧ (PyStr.startswith (real_prefix_of (_line_prefix view point)) "scope:" = true
                  ∨ PyStr.contains (real_prefix_of (_line_prefix view point)) "/" = true
                  ∨ real_prefix_of (_line_prefix view point) ≠ prefix)) →
     _complete_context view context_regions prefix locations = [])
  ∧ ((∀ point, point ∈ locations →
        PyStr.startswith prefix "scope:" = false
        ∧ PyStr.contains prefix "/" = false
        ∧ real_prefix_of (_line_prefix view point) = prefix) →
     _complete_context view context_regions prefix locations
     = (λ r, mkItem r.1 "" KIND_CONTEXT (goto_line (r.2 + 1))) <$> context_regions).
Proof.
  split; [|split].
  - intros point. simpl. split; [|split].
    + destruct (real_prefix_of_suffix (_line_prefix view point)) as (pre & H & _). eauto.
    + apply real_prefix_of_chars.
    + intros pre c Hs. apply real_prefix_of_longest in Hs.
      unfold in_real_prefix in Hs. apply negb_false_iff in Hs.
      apply orb_prop in Hs as [Hs|Hs]; [apply orb_prop in Hs as [Hs|Hs]|];
        apply Ascii.eqb_eq in Hs; auto.
  - intros (point & Hin & Hbad). unfold _complete_context.
    assert (existsb (gives_up view prefix) locations = true) as ->; [|done].
    apply existsb_exists. exists point. split; [by apply list_elem_of_In|].
    unfold gives_up. destruct Hbad as [->|[->|Hne]]; [done|by rewrite orb_true_r|].
    apply String.eqb_neq in Hne. rewrite Hne. by rewrite !orb_true_r.
  - intros Hok. unfold _complete_context.
    assert (existsb (gives_up view prefix) locations = false) as ->.
    { apply not_true_is_false. intros H. apply existsb_exists in H as (point & Hin & Hg).
      apply list_elem_of_In, Hok in Hin as (H1 & H2 & H3).
      unfold gives_up in Hg. rewrite H3, H1, H2, String.eqb_refl in Hg. done. }
    unfold format_completions. rewrite <- list_fmap_compose. done.
Qed.

End ContextCompletions.

(** ** A sample settings view *)

Module ViewSample.

Import Settings SettingsView.

(** The user's [Python.sublime-settings], with one misspelt key and the
    caret inside the string that starts the value of the third key. *)
Definition key1 : Region := mkRegion 7 15.
Definition key2 : Region := mkRegion 27 35.
Definition key3 : Region := mkRegion 47 63.
Definition value1 : Region := mkRegion 17 19.
Definition value2 : Region := mkRegion 37 39.
Definition value3 : Region := mkRegion 65 68.

Definition region_eqb (r1 r2 : Region) : bool :=
  (region_a r1 =? region_a r2)%Z && (region_b r1 =? region_b r2)%Z.

Definition sample_view : View :=
  mkView
    (λ point selector,
       if String.eqb selector VALUE_SCOPE
       then existsb (λ r, contains r point) [value1; value2; value3]
       else if String.eqb selector "string" then (65 <=? point)%Z
       else if String.eqb selector KEY_SCOPE
       then existsb (λ r, contains r point) [key1; key2; key3]
       else false)
    (λ selector,
       if String.eqb selector KEY_SCOPE then [key1; key2; key3]
       else if String.eqb selector VALUE_SCOPE then [value1; value2; value3]
       else [])
    (λ r,
       if region_eqb r key1 then "tab_size"
       else if region_eqb r key2 then "tab_sise"
       else if region_eqb r key3 then "draw_white_space"
       else if region_eqb r (mkRegion 17 19) then " 2"
       else if region_eqb r (mkRegion 65 67) then " " +:+ String PyStr.dquote "s"
       else "")
    (Raise TypeError)
    (λ _, ",")
    (λ point, mkRegion point point)
    70
    true
    (Some "/home/me/Packages/User/Python.sublime-settings").

(** [sublime.encode_value] on the values of the sample. *)
Definition encode_value (v : value) : string :=
  match v with
  | VInt n => pretty n
  | VBool true => "true"
  | VBool false => "false"
  | VStr s => String PyStr.dquote s +:+ String PyStr.dquote ""
  | _ => "null"
  end.

Definition package_settings (key : string) : option value :=
  if String.eqb key "settings.linting" then Some (VBool true) else None.

Definition style_flags_from_list (styles : value) : nat := 0.

Definition start : World := mkWorld Sample.loaded [].

Local Abbreviation complete_values :=
  (value_completions Sample.sublime_decode_value Sample.py_int Sample.py_float
     Sample.repr Sample.no_completions Sample.no_completions encode_value sample_view).
Local Abbreviation lint :=
  (do_linting "/" package_settings style_flags_from_list).
Local Abbreviation load :=
  (_load_settings Sample.find_resources Sample.load_resource
     Sample.sublime_decode_value Sample.dedent).

Example value_completions_sample :
  (complete_values "s" 67%Z start).1
  = Return (Some ([ ("all  " +:+ String PyStr.tab "str", "all");
                    ("none  " +:+ String PyStr.tab "str", "none");
                    ("selection  " +:+ String PyStr.tab "str", "selection") ],
                  INHIBIT_WORD_COMPLETIONS))
  ∧ (complete_values "2" 19%Z start).1
    = Return (Some ([("4  " +:+ String PyStr.tab "int", "4")], INHIBIT_WORD_COMPLETIONS))
  ∧ (complete_values "" 40%Z start).1 = Return None.
Proof. vm_compute. done. Qed.

Example do_linting_sample :
  lint (mkSettingsListener sample_view (Some Sample.loaded))
  = Return (AddRegions "unknown_settings_keys" [key2] (VStr "text") "dot" 0).
Proof. vm_compute. done. Qed.

Lemma last_key_before_point_witness :
  get_last_key_name_from sample_view 40 = Return (Some "tab_sise").
Proof.
  destruct (last_key_before_point sample_view 40) as (_ & H & _).
  apply (H [key1] key2 [key3]).
  - reflexivity.
  - repeat constructor; vm_compute; discriminate.
  - reflexivity.
Defined.

Lemma key_completions_cover_defaults_witness :
  ∃ content,
    ("tab_size" +:+ "  " +:+ String PyStr.tab "setting", content)
    ∈ (key_completions encode_value Sample.loaded sample_view "" 67).1.
Proof.
  destruct (key_completions_cover_defaults encode_value Sample.loaded sample_view "" 67)
    as (H & _).
  apply (H "tab_size"). exists (VInt 4). vm_compute. reflexivity.
Defined.

Definition white_space_completions : list (string * value) :=
  [Sample.str_item "none"; Sample.str_item "selection"; Sample.str_item "all"].

Lemma value_completions_in_string_witness :
  ∃ results,
    (complete_values "s" 67%Z start).1
    = Return (Some (results, INHIBIT_WORD_COMPLETIONS))
    ∧ StronglySorted by_trigger results
    ∧ ∀ t c, (t, c) ∈ results ↔ (t, VStr c) ∈ white_space_completions.
Proof.
  destruct (value_completions_in_string Sample.sublime_decode_value Sample.py_int
              Sample.py_float Sample.repr Sample.no_completions Sample.no_completions
              encode_value sample_view "s" 67%Z start value3 "draw_white_space"
              white_space_completions) as (H & _).
  - reflexivity.
  - reflexivity.
  - reflexivity.
  - discriminate.
  - vm_compute. reflexivity.
  - discriminate.
  - reflexivity.
  - reflexivity.
  - apply H. reflexivity.
Defined.

Lemma value_completions_outside_string_witness :
  ∃ results,
    (complete_values "2" 19%Z start).1
    = Return (Some (results, INHIBIT_WORD_COMPLETIONS))
    ∧ StronglySorted by_trigger results
    ∧ ∀ t c,
        (t, c) ∈ results
        ↔ ∃ v, (t, v) ∈ [("4  " +:+ String PyStr.tab "int", VInt 4)]
               ∧ match v with
                 | VFloat _ =>
                     PyStr.startswith (Sample.repr v) "2" = true
                     ∧ c = slice_from_z (1 - 1)%Z (Sample.repr v)
                 | _ => c = encode_value v
                 end.
Proof.
  apply (value_completions_outside_string Sample.sublime_decode_value Sample.py_int
           Sample.py_float Sample.repr Sample.no_completions Sample.no_completions
           encode_value sample_view "2" 19%Z start value1 "tab_size"
           [("4  " +:+ String PyStr.tab "int", VInt 4)]).
  - reflexivity.
  - reflexivity.
  - reflexivity.
  - discriminate.
  - vm_compute. reflexivity.
  - discriminate.
  - reflexivity.
Defined.

Lemma scanned_keys_are_not_marked_witness :
  first_defined Sample.load_resource Sample.sublime_decode_value Sample.dedent
    (substr sample_view key2)
    (resource_list Sample.find_resources (filename Sample.python_settings))
  = None.
Proof.
  apply (scanned_keys_are_not_marked Sample.sublime_decode_value "/" package_settings
           style_flags_from_list Sample.find_resources Sample.load_resource Sample.dedent
           Sample.python_settings sample_view "unknown_settings_keys" [key2]
           (VStr "text") "dot" 0 key2).
  - vm_compute. reflexivity.
  - constructor.
Defined.

End ViewSample.

(** ** The scan at the sample *)

Module ScanSample.

Import Settings Scan.

Local Abbreviation parse := (parse_line Sample.dedent).
Local Abbreviation load :=
  (_load_settings Sample.find_resources Sample.load_resource
     Sample.sublime_decode_value Sample.dedent).

Definition one_line_comment : string := "    /* Columns in which to draw rulers */".
Definition rulers_line : string := "    " +:+ q "rulers" +:+ ": [79]".
Definition tab_size_line : string := "    " +:+ q "tab_size" +:+ ": 4,".

Lemma block_comment_swallows_lines_witness :
  for_fold [one_line_comment; rulers_line; "}"] parse (mkScan ["{"] [] false)
    Sample.python_settings
  = (Return (mkScan ["{"] [" Columns in which to draw rulers */"; rulers_line; "}"] true),
     Sample.python_settings).
Proof.
  destruct (block_comment_swallows_lines Sample.dedent (mkScan ["{"] [] false)
              one_line_comment [rulers_line; "}"] "*/" Sample.python_settings)
    as [H _].
  - reflexivity.
  - vm_compute. reflexivity.
  - repeat constructor.
  - vm_compute. reflexivity.
  - exact H.
Defined.

Lemma line_comments_reach_key_witness :
  scan_lines Sample.dedent ["    // Tab size"; "    //////"; tab_size_line]
    Sample.python_settings
  = (Return (mkScan [tab_size_line] [] false),
     set_comments (<["tab_size" := "Tab size"]> ∅) Sample.python_settings).
Proof.
  apply (line_comments_reach_key Sample.dedent ["    // Tab size"; "    //////"]
           tab_size_line Sample.python_settings "tab_size").
  - repeat constructor.
  - vm_compute. discriminate.
  - vm_compute. reflexivity.
  - vm_compute. reflexivity.
  - reflexivity.
Defined.

Lemma reload_discards_old_tables_witness :
  defaults (load (trigger_settings_reload Sample.loaded)).2
  = defaults (load (trigger_settings_reload Sample.python_settings)).2
  ∧ comments (load (trigger_settings_reload Sample.loaded)).2
    = comments (load (trigger_settings_reload Sample.python_settings)).2.
Proof.
  destruct (reload_discards_old_tables Sample.find_resources Sample.load_resource
              Sample.sublime_decode_value Sample.dedent Sample.python_settings)
    as [_ H].
  apply (H Sample.loaded). vm_compute. reflexivity.
Defined.

End ScanSample.

(** ** Context completions at a sample *)

Module ContextSample.

Import Completions ContextCompletions.

Definition include_view : View :=
  mkView true ["source.python"] (λ _, "    - include: ma").

Lemma context_completions_witness :
  _complete_context include_view [("main", 8); ("maybe", 13)] "ma" [0]
  = [ mkItem "main" "" KIND_CONTEXT (goto_line 9);
      mkItem "maybe" "" KIND_CONTEXT (goto_line 14) ].
Proof.
  destruct (context_completions include_view [("main", 8); ("maybe", 13)] "ma" [0])
    as (_ & _ & H).
  apply H. intros point _. vm_compute. done.
Defined.

Example external_include_gives_nothing :
  _complete_context (mkView true [] (λ _, "    - include: scope:source.js#ma"))
    [("main", 8)] "ma" [0] = [].
Proof. reflexivity. Qed.

End ContextSample.

(** ** Key completions of a syntax definition *)

Module KeywordCompletions.

Import Completions.

(** What is left of a text after the longest run of blanks and of list
    dashes followed by a blank. *)
Fixpoint after_indent (s : string) : string :=
  match s with
  | EmptyString => EmptyString
  | String c s' =>
      if Ascii.eqb c " " then after_indent s'
      else if Ascii.eqb c "-" then
        match s' with
        | String d s'' => if Ascii.eqb d " " then after_indent s'' else s
        | EmptyString => s
        end
      else s
  end.

(** The texts that the pattern of the substitution matches after its first
    blank: blanks, and dashes each followed by a blank, in any number. *)
Fixpoint is_indent (s : string) : bool :=
  match s with
  | EmptyString => true
  | String c s' =>
      if Ascii.eqb c " " then is_indent s'
      else if Ascii.eqb c "-" then
        match s' with
        | String d s'' => Ascii.eqb d " " && is_indent s''
        | EmptyString => false
        end
      else false
  end.

(** The substitution that collapses the leading white space: the pattern
    is anchored at the start and asks for one blank or more, followed by
    any number of dashes with their blanks; what it matches becomes one
    blank. *)
Definition collapse (line_prefix : string) : string :=
  if PyStr.startswith line_prefix " " then String " " (after_indent line_prefix)
  else line_prefix.

(** The class of a key: word characters and the hyphen. *)
Definition is_key_char (c : ascii) : bool := Settings.is_word c || Ascii.eqb c "-".

(** [span_by p s] is the longest start of [s] made of characters of [p]. *)
Fixpoint span_by (p : ascii → bool) (s : string) : string :=
  match s with
  | EmptyString => EmptyString
  | String c s' => if p c then String c (span_by p s') else EmptyString
  end.

(** Group 1 of the match of the key pattern at the start of the text: white
    space, as much as there is, then key characters, as many as there are,
    up to the end of the text or to a line feed that ends it. Giving back
    white space or key characters never makes the end match, so the greedy
    attempt decides. *)
Definition key_pattern_group (real_prefix : string) : option string :=
  let tail := PyStr.lstrip_by is_key_char (PyStr.lstrip_by PyStr.is_space real_prefix) in
  if PyStr.is_empty tail || String.eqb tail PyStr.nl
  then Some (span_by PyStr.is_space real_prefix)
  else None.

(** The two static tables of the listener. *)
Inductive static_completions : Type :=
| base_completions_root
| base_completions_contexts.

Section Host.

(** [view.match_selector] *)
Variable match_selector : nat → string → bool.

Definition _complete_keyword (view : View) (prefix : string) (locations : list nat)
  : option static_completions :=
  let prefixes : gset string :=
    list_to_set ((λ point, collapse (_line_prefix view point)) <$> locations) in
  match elements prefixes with
  | [real_prefix] =>
      match key_pattern_group real_prefix with
      | None => None
      | Some group1 =>
          if PyStr.is_empty group1 then Some base_completions_root
          else if forallb (λ point, match_selector point "meta.block.contexts") locations
               then Some base_completions_contexts
               else None
      end
  | _ => None
  end.

End Host.

(** *** Properties *)

Lemma string_pair_ind (P : string → Prop) :
  P EmptyString →
  (∀ c, P (String c EmptyString)) →
  (∀ c d s, P s → P (String d s) → P (String c (String d s))) →
  ∀ s, P s.
Proof.
  intros H0 H1 H2 s.
  assert (P s ∧ ∀ c, P (String c s)) as [H _]; [|exact H].
  induction s as [|d s [IH1 IH2]]; [by split|].
  split; [apply IH2|]. intros c. apply H2; [done|apply IH2].
Qed.

Lemma startswith_blank s :
  PyStr.startswith s " " = true ↔ ∃ s', s = String " " s'.
Proof.
  destruct s as [|c s]; cbn [PyStr.startswith]; [split; [done|by intros [? ?]]|].
  rewrite Html.startswith_nil, andb_true_r. split.
  - intros H. apply Ascii.eqb_eq in H. subst. by eexists.
  - intros [s' H]. injection H as -> _. apply Ascii.eqb_refl.
Qed.

Lemma startswith_dash_blank s :
  PyStr.startswith s "- " = true ↔ ∃ s', s = String "-" (String " " s').
Proof.
  destruct s as [|c [|d s]]; cbn [PyStr.startswith].
  - split; [done|by intros [? ?]].
  - rewrite andb_false_r. split; [done|by intros [? ?]].
  - rewrite Html.startswith_nil, andb_true_r. split.
    + intros H. apply andb_prop in H as [H1 H2].
      apply Ascii.eqb_eq in H1, H2. subst. by eexists.
    + intros [s' H]. injection H as -> -> _. by rewrite !Ascii.eqb_refl.
Qed.

Lemma after_indent_cons c s :
  after_indent (String c s)
  = if Ascii.eqb c " " then after_indent s
    else if Ascii.eqb c "-" then
      match s with
      | String d s'' => if Ascii.eqb d " " then after_indent s'' else String c s
      | EmptyString => String c s
      end
    else String c s.
Proof. done. Qed.

Lemma is_indent_cons c s :
  is_indent (String c s)
  = if Ascii.eqb c " " then is_indent s
    else if Ascii.eqb c "-" then
      match s with
      | String d s'' => Ascii.eqb d " " && is_indent s''
      | EmptyString => false
      end
    else false.
Proof. done. Qed.

Lemma after_indent_suffix s :
  ∃ pre, s = pre +:+ after_indent s ∧ is_indent pre = true.
Proof.
  induction s as [| c | c d s (pre & IH & Hpre) (pre' & IH' & Hpre')]
    using string_pair_ind.
  - by exists EmptyString.
  - rewrite after_indent_cons. destruct (Ascii.eqb c " ") eqn:E.
    { exists (String c EmptyString). split; [done|]. by rewrite is_indent_cons, E. }
    destruct (Ascii.eqb c "-"); by exists EmptyString.
  - rewrite after_indent_cons. destruct (Ascii.eqb c " ") eqn:E.
    { exists (String c pre'). split; [by rewrite Html.app_cons, <- IH'|].
      by rewrite is_indent_cons, E. }
    destruct (Ascii.eqb c "-") eqn:E'; [|by exists EmptyString].
    destruct (Ascii.eqb d " ") eqn:E''; [|by exists EmptyString].
    exists (String c (String d pre)). split; [by rewrite !Html.app_cons, <- IH|].
    by rewrite is_indent_cons, E, E', E''.
Qed.

Lemma after_indent_head s :
  PyStr.startswith (after_indent s) " " = false
  ∧ PyStr.startswith (after_indent s) "- " = false.
Proof.
  induction s as [| c | c d s IH IH'] using string_pair_ind.
  - done.
  - rewrite after_indent_cons. destruct (Ascii.eqb c " ") eqn:E; [done|].
    destruct (Ascii.eqb c "-") eqn:E'; cbn [PyStr.startswith].
    + rewrite Ascii.eqb_sym, E. by rewrite andb_false_r.
    + rewrite Ascii.eqb_sym, E. rewrite (Ascii.eqb_sym "-" c), E'. done.
  - rewrite after_indent_cons. destruct (Ascii.eqb c " ") eqn:E; [done|].
    destruct (Ascii.eqb c "-") eqn:E'.
    + destruct (Ascii.eqb d " ") eqn:E''; [done|]. cbn [PyStr.startswith].
      rewrite Ascii.eqb_sym, E. rewrite (Ascii.eqb_sym " " d), E''.
      by rewrite andb_false_r.
    + cbn [PyStr.startswith]. rewrite Ascii.eqb_sym, E.
      rewrite (Ascii.eqb_sym "-" c), E'. done.
Qed.

Lemma after_indent_fixed s :
  PyStr.startswith s " " = false → PyStr.startswith s "- " = false →
  after_indent s = s.
Proof.
  destruct s as [|c [|d s]]; [done|rewrite after_indent_cons..]; cbn [PyStr.startswith].
  - rewrite andb_true_r, Ascii.eqb_sym. intros -> _.
    by destruct (Ascii.eqb c "-").
  - rewrite !Html.startswith_nil, !andb_true_r, Ascii.eqb_sym. intros ->.
    rewrite (Ascii.eqb_sym "-" c), (Ascii.eqb_sym " " d).
    destruct (Ascii.eqb c "-"); cbn [andb]; [by intros ->|done].
Qed.

(** After such a run the scan stops where the run stops. *)
Lemma after_indent_app pre : ∀ rest,
  is_indent pre = true →
  PyStr.startswith rest " " = false → PyStr.startswith rest "- " = false →
  after_indent (pre +:+ rest) = rest.
Proof.
  induction pre as [| c | c d pre IH1 IH2] using string_pair_ind; intros rest Hp H1 H2.
  - by apply after_indent_fixed.
  - rewrite is_indent_cons in Hp. rewrite Html.app_cons, after_indent_cons.
    destruct (Ascii.eqb c " "); [by apply after_indent_fixed|].
    by destruct (Ascii.eqb c "-").
  - rewrite is_indent_cons in Hp. rewrite !Html.app_cons, after_indent_cons.
    destruct (Ascii.eqb c " ").
    { rewrite <- Html.app_cons. by apply IH2. }
    destruct (Ascii.eqb c "-"); [|done].
    apply andb_prop in Hp as [-> Hp]. by apply IH1.
Qed.

(** X15. The collapse of the leading white space leaves a line prefix that
    does not start with a blank as it is. A line prefix that starts with a
    blank splits in one way only into that blank, a run of blanks and of
    list dashes each followed by a blank, and a rest that starts with no
    blank and with no dash before a blank; the collapse is one blank
    followed by that rest, so nothing but the run is dropped. Doing it
    twice changes nothing more. *)
Theorem collapse_leading_blanks (line_prefix : string) :
  (PyStr.startswith line_prefix " " = false → collapse line_prefix = line_prefix)
  ∧ (PyStr.startswith line_prefix " " = true →
     ∃ pre rest,
       collapse line_prefix = String " " rest
       ∧ line_prefix = String " " pre +:+ rest
       ∧ is_indent pre = true
       ∧ PyStr.startswith rest " " = false
       ∧ PyStr.startswith rest "- " = false)
  ∧ (∀ pre rest,
       line_prefix = String " " pre +:+ rest →
       is_indent pre = true →
       PyStr.startswith rest " " = false →
       PyStr.startswith rest "- " = false →
       collapse line_prefix = String " " rest)
  ∧ collapse (collapse line_prefix) = collapse line_prefix.
Proof.
  unfold collapse. split; [by intros ->|]. split; [|split].
  - intros H. rewrite H. apply startswith_blank in H as [s' ->].
    destruct (after_indent_suffix s') as (pre & Hpre & Hind).
    exists pre, (after_indent s'). split; [done|].
    split; [by rewrite Html.app_cons, <- Hpre|]. split; [done|]. apply after_indent_head.
  - intros pre rest -> Hind H1 H2. rewrite Html.app_cons.
    cbn [PyStr.startswith]. rewrite Html.startswith_nil, Ascii.eqb_refl.
    cbn [andb]. f_equal.
    change (after_indent (String " " (pre +:+ rest))) with (after_indent (pre +:+ rest)).
    by apply after_indent_app.
  - destruct (PyStr.startswith line_prefix " ") eqn:H; [|by rewrite H].
    change (PyStr.startswith (String " " (after_indent line_prefix)) " ")
      with (true && PyStr.startswith (after_indent line_prefix) "").
    rewrite Html.startswith_nil. cbn [andb]. f_equal.
    change (after_indent (String " " (after_indent line_prefix)))
      with (after_indent (after_indent line_prefix)).
    apply after_indent_fixed; apply after_indent_head.
Qed.

Lemma span_lstrip p s : s = span_by p s +:+ PyStr.lstrip_by p s.
Proof.
  induction s as [|c s IH]; [done|]. simpl. destruct (p c); [|done].
  by rewrite Html.app_cons, <- IH.
Qed.

Lemma span_all p s : ContextCompletions.all_chars p (span_by p s) = true.
Proof.
  induction s as [|c s IH]; [done|]. simpl. destruct (p c) eqn:E; [|done].
  simpl. by rewrite E.
Qed.

Definition stops (p : ascii → bool) (s : string) : Prop :=
  match s with
  | EmptyString => True
  | String c _ => p c = false
  end.

Lemma lstrip_stops p s : stops p (PyStr.lstrip_by p s).
Proof.
  induction s as [|c s IH]; [done|]. simpl. by destruct (p c) eqn:E.
Qed.

Lemma span_lstrip_app p a b :
  ContextCompletions.all_chars p a = true → stops p b →
  span_by p (a +:+ b) = a ∧ PyStr.lstrip_by p (a +:+ b) = b.
Proof.
  intros Ha Hb. induction a as [|c a IH].
  - change (EmptyString +:+ b) with b. destruct b as [|c b]; [done|].
    simpl in *. by rewrite Hb.
  - rewrite Html.app_cons. simpl in *. apply andb_prop in Ha as [Hc Ha].
    rewrite Hc. destruct (IH Ha) as [-> ->]. done.
Qed.

Lemma span_empty p s : span_by p s = EmptyString → PyStr.lstrip_by p s = s.
Proof. destruct s as [|c s]; [done|]. simpl. by destruct (p c). Qed.

Lemma key_char_no_space c : is_key_char c = true → PyStr.is_space c = false.
Proof.
  unfold is_key_char, Settings.is_word, PyStr.is_space, PyStr.code_in.
  intros H. destruct (Ascii.eqb c "-") eqn:E.
  - apply Ascii.eqb_eq in E. by subst.
  - rewrite orb_false_r in H. destruct (Ascii.eqb c "_") eqn:E'.
    + apply Ascii.eqb_eq in E'. by subst.
    + rewrite orb_false_r in H.
      apply orb_false_intro; apply andb_false_iff;
        repeat (apply orb_prop in H as [H|H]);
        apply andb_prop in H as [H1 H2];
        apply Nat.leb_le in H1, H2;
        rewrite !Nat.leb_gt; lia.
Qed.

Lemma elements_of_list (l : list string) (p : string) :
  elements (list_to_set l : gset string) = [p] ↔ l ≠ [] ∧ ∀ x, x ∈ l → x = p.
Proof.
  split.
  - intros H. split.
    + intros ->. by rewrite list_to_set_nil, elements_empty in H.
    + intros x Hx. apply (elem_of_list_to_set (C := gset string)) in Hx.
      apply elem_of_elements in Hx. rewrite H in Hx. by apply list_elem_of_singleton in Hx.
  - intros [Hne Hall].
    assert ((list_to_set l : gset string) = {[ p ]}) as ->; [|apply elements_singleton].
    apply set_eq. intros x. rewrite elem_of_list_to_set, elem_of_singleton. split.
    + apply Hall.
    + intros ->. destruct l as [|y l]; [done|].
      rewrite (Hall y) by left. left.
Qed.


Lemma key_pattern_group_spec p g :
  key_pattern_group p = Some g
  ↔ ∃ word line_end,
      ContextCompletions.all_chars PyStr.is_space g = true
      ∧ ContextCompletions.all_chars is_key_char word = true
      ∧ (line_end = EmptyString ∨ (line_end = PyStr.nl ∧ word ≠ EmptyString))
      ∧ p = g +:+ word +:+ line_end.
Proof.
  unfold key_pattern_group. split.
  - set (rest := PyStr.lstrip_by PyStr.is_space p).
    set (tail := PyStr.lstrip_by is_key_char rest).
    intros H. destruct (PyStr.is_empty tail || String.eqb tail PyStr.nl) eqn:E; [|done].
    injection H as <-. exists (span_by is_key_char rest), tail.
    split; [apply span_all|]. split; [apply span_all|]. split.
    + apply orb_prop in E as [E|E]; [left; by destruct tail|].
      apply String.eqb_eq in E. right. split; [done|]. intros Hw.
      apply span_empty in Hw. fold tail in Hw. rewrite E in Hw.
      pose proof (lstrip_stops PyStr.is_space p) as Hs. fold rest in Hs.
      rewrite <- Hw in Hs. done.
    + unfold tail. rewrite <- span_lstrip. unfold rest. apply span_lstrip.
  - intros (word & line_end & Hg & Hw & Hend & ->).
    assert (stops PyStr.is_space (word +:+ line_end)) as Hstop.
    { destruct word as [|c word].
      - destruct Hend as [->|[_ ?]]; done.
      - rewrite Html.app_cons. simpl in *. apply andb_prop in Hw as [Hc _].
        by apply key_char_no_space. }
    destruct (span_lstrip_app PyStr.is_space g _ Hg Hstop) as [-> ->].
    assert (stops is_key_char line_end) as Hstop' by by destruct Hend as [->|[-> _]].
    destruct (span_lstrip_app is_key_char word _ Hw Hstop') as [_ ->].
    by destruct Hend as [->|[-> _]].
Qed.

Lemma collapse_no_blank s p :
  collapse s = p → PyStr.startswith p " " = false → s = p.
Proof.
  unfold collapse. destruct (PyStr.startswith s " ") eqn:E; [|done].
  intros <-. cbn [PyStr.startswith]. by rewrite Html.startswith_nil.
Qed.

Lemma all_chars_is_empty p s :
  ContextCompletions.all_chars p s = true → stops p s → s = EmptyString.
Proof. destruct s as [|c s]; [done|]. simpl. intros H Hc. by rewrite Hc in H. Qed.

Section Keyword.

Variable match_selector : nat → string → bool.

Lemma _complete_keyword_run view prefix locations result :
  _complete_keyword match_selector view prefix locations = Some result
  ↔ locations ≠ []
    ∧ ∃ p group1,
        (∀ point, point ∈ locations → collapse (_line_prefix view point) = p)
        ∧ key_pattern_group p = Some group1
        ∧ match result with
          | base_completions_root => group1 = EmptyString
          | base_completions_contexts =>
              group1 ≠ EmptyString
              ∧ ∀ point, point ∈ locations →
                         match_selector point "meta.block.contexts" = true
          end.
Proof.
  unfold _complete_keyword.
  set (l := (λ point, collapse (_line_prefix view point)) <$> locations).
  assert (∀ p, (l ≠ [] ∧ ∀ x, x ∈ l → x = p)
               ↔ locations ≠ [] ∧ ∀ point, point ∈ locations →
                                   collapse (_line_prefix view point) = p) as Hl.
  { intros p. unfold l. split; intros [Hne Hall]; (split; [by destruct locations|]).
    - intros point Hin. apply Hall. apply list_elem_of_fmap. by exists point.
    - intros x Hx. apply list_elem_of_fmap in Hx as (point & -> & Hin). by apply Hall. }
  split.
  - destruct (elements (list_to_set l : gset string)) as [|p [|? ?]] eqn:E; try done.
    apply elements_of_list, Hl in E as [Hne Hall].
    destruct (key_pattern_group p) as [group1|] eqn:Hg; [|done].
    intros H. split; [done|]. exists p, group1. split; [done|]. split; [done|].
    destruct group1 as [|c g]; cbn [PyStr.is_empty] in H; [by simplify_eq|].
    destruct (forallb _ locations) eqn:Hf; simplify_eq. split; [done|].
    intros point Hin. rewrite forallb_forall in Hf. apply Hf. by apply list_elem_of_In.
  - intros (Hne & p & group1 & Hall & Hg & Hres).
    assert (elements (list_to_set l : gset string) = [p]) as ->
      by by apply elements_of_list, Hl.
    rewrite Hg. destruct result.
    + by subst.
    + destruct Hres as [Hg1 Hsel]. destruct group1 as [|c g]; [done|].
      cbn [PyStr.is_empty].
      assert (forallb (λ point, match_selector point "meta.block.contexts") locations = true)
        as ->; [|done].
      apply forallb_forall. intros point Hin. apply Hsel. by apply list_elem_of_In.
Qed.

(** X16. [_complete_keyword] offers the keys of the root exactly when
    there is a caret and every caret's line prefix is the same run of word
    characters and hyphens, with nothing before it, possibly closed by a
    line feed. It offers the keys of a context exactly when there is a
    caret, every caret is inside the contexts block, and the collapsed line
    prefixes are the same white space followed by such a run: an indented
    line never gets the keys of the root. *)
Theorem keyword_completions_by_indent view prefix locations :
  (_complete_keyword match_selector view prefix locations = Some base_completions_root
   ↔ locations ≠ []
     ∧ ∃ word line_end,
         ContextCompletions.all_chars is_key_char word = true
         ∧ (line_end = EmptyString ∨ (line_end = PyStr.nl ∧ word ≠ EmptyString))
         ∧ ∀ point, point ∈ locations → _line_prefix view point = word +:+ line_end)
  ∧ (_complete_keyword match_selector view prefix locations = Some base_completions_contexts
     ↔ locations ≠ []
       ∧ (∀ point, point ∈ locations → match_selector point "meta.block.contexts" = true)
       ∧ ∃ space word line_end,
           space ≠ EmptyString
           ∧ ContextCompletions.all_chars PyStr.is_space space = true
           ∧ ContextCompletions.all_chars is_key_char word = true
           ∧ (line_end = EmptyString ∨ (line_end = PyStr.nl ∧ word ≠ EmptyString))
           ∧ ∀ point, point ∈ locations →
                      collapse (_line_prefix view point) = space +:+ word +:+ line_end).
Proof.
  split; rewrite _complete_keyword_run; split.
  - intros (Hne & p & g & Hall & Hg & ->). split; [done|].
    apply key_pattern_group_spec in Hg as (word & line_end & _ & Hw & Hend & Hp).
    change (EmptyString +:+ word +:+ line_end) with (word +:+ line_end) in Hp.
    exists word, line_end. split; [done|]. split; [done|].
    intros point Hin. rewrite <- Hp. apply collapse_no_blank; [by apply Hall|].
    rewrite Hp. destruct word as [|c word].
    + by destruct Hend as [->|[-> _]].
    + rewrite Html.app_cons. cbn [PyStr.startswith]. rewrite Html.startswith_nil, andb_true_r.
      simpl in Hw. apply andb_prop in Hw as [Hc _].
      destruct (Ascii.eqb " " c) eqn:E; [|done]. apply Ascii.eqb_eq in E. by subst.
  - intros (Hne & word & line_end & Hw & Hend & Hall). split; [done|].
    exists (word +:+ line_end), EmptyString.
    assert (PyStr.startswith (word +:+ line_end) " " = false) as Hblank.
    { destruct word as [|c word].
      - by destruct Hend as [->|[-> _]].
      - rewrite Html.app_cons. cbn [PyStr.startswith].
        rewrite Html.startswith_nil, andb_true_r.
        simpl in Hw. apply andb_prop in Hw as [Hc _].
        destruct (Ascii.eqb " " c) eqn:E; [|done]. apply Ascii.eqb_eq in E. by subst. }
    split; [|split; [|done]].
    + intros point Hin. rewrite (Hall point Hin). unfold collapse. by rewrite Hblank.
    + apply key_pattern_group_spec. by exists word, line_end.
  - intros (Hne & p & g & Hall & Hg & Hg1 & Hsel). split; [done|]. split; [done|].
    apply key_pattern_group_spec in Hg as (word & line_end & Hs & Hw & Hend & Hp).
    exists g, word, line_end. split_and!; try done. intros point Hin.
    rewrite <- Hp. by apply Hall.
  - intros (Hne & Hsel & space & word & line_end & Hsp & Hs & Hw & Hend & Hall).
    split; [done|]. exists (space +:+ word +:+ line_end), space.
    split; [done|]. split; [|done].
    apply key_pattern_group_spec. by exists word, line_end.
Qed.

End Keyword.

Example list_item_gets_context_keys :
  _complete_keyword (λ _ _, true) (mkView true [] (λ _, "    - mat")) "mat" [0]
  = Some base_completions_contexts
  ∧ _complete_keyword (λ _ _, true) (mkView true [] (λ _, "file_ext")) "file_ext" [0; 1]
    = Some base_completions_root
  ∧ _complete_keyword (λ _ _, true) (mkView true [] (λ _, "  match: a")) "a" [0] = None.
Proof. vm_compute. done. Qed.

End KeywordCompletions.

(** ** Completions for the [color_scheme] setting *)

Module ColorSchemes.

Import Settings.

Section Host.

(** [sublime.find_resources] and the list of patterns that the package
    setting [settings.exclude_color_scheme_patterns] holds, empty where the
    setting is missing or false. *)
Variable find_resources : string → list string.
Variable hidden : list string.

Definition is_hidden (scheme_path : string) : bool :=
  existsb (λ hide, PyStr.contains scheme_path hide) hidden.

(** The unpacking of the path segments into the second and the last, with
    any number between them: it takes three segments at least. *)
Definition unpack (parts : list string) : outcome (string * string) :=
  match parts with
  | _ :: package :: rest =>
      match last rest with
      | Some file_name => Return (package, file_name)
      | None => Raise ValueError
      end
  | _ => Raise ValueError
  end.

Definition _color_scheme_completions : outcome (list (string * value)) :=
  fold_outcome
    (λ completions scheme_path,
       if is_hidden scheme_path then Return completions
       else
         match unpack (PyStr.split "/" scheme_path) with
         | Return (package, file_name) =>
             set_add (file_name +:+ "  " +:+ String PyStr.tab package, VStr scheme_path)
               completions
         | Raise e => Raise e
         end)
    (find_resources "*.tmTheme") [].

(** *** Properties *)

Lemma unpack_spec parts :
  match unpack parts with
  | Return (package, file_name) =>
      3 ≤ length parts ∧ parts !! 1 = Some package ∧ last parts = Some file_name
  | Raise e => e = ValueError ∧ length parts < 3
  end.
Proof.
  destruct parts as [|a [|b [|c rest]]]; simpl; try (split; [done|lia]).
  destruct (last (c :: rest)) as [f|] eqn:E; [|by apply last_None in E].
  split; [lia|]. split; [done|].
  change (last (a :: b :: c :: rest)) with (last (c :: rest)). done.
Qed.

(** The completion that a visible path with three segments gives. *)
Definition scheme_item (scheme_path : string) : option (string * value) :=
  if is_hidden scheme_path then None
  else
    match unpack (PyStr.split "/" scheme_path) with
    | Return (package, file_name) =>
        Some (file_name +:+ "  " +:+ String PyStr.tab package, VStr scheme_path)
    | Raise _ => None
    end.

Definition unpacks (scheme_path : string) : bool :=
  is_hidden scheme_path || (3 <=? length (PyStr.split "/" scheme_path)).

Lemma fold_schemes paths : ∀ completions,
  fold_outcome
    (λ completions scheme_path,
       if is_hidden scheme_path then Return completions
       else
         match unpack (PyStr.split "/" scheme_path) with
         | Return (package, file_name) =>
             set_add (file_name +:+ "  " +:+ String PyStr.tab package, VStr scheme_path)
               completions
         | Raise e => Raise e
         end)
    paths completions
  = if forallb unpacks paths then Return (completions ++ omap scheme_item paths)
    else Raise ValueError.
Proof.
  induction paths as [|p paths IH]; intros completions.
  { cbn [fold_outcome forallb]. by rewrite app_nil_r. }
  cbn [fold_outcome forallb]. csimpl.
  unfold unpacks at 1, scheme_item at 1.
  destruct (is_hidden p); cbn [orb andb]; [apply IH|].
  pose proof (unpack_spec (PyStr.split "/" p)) as Hu.
  destruct (unpack (PyStr.split "/" p)) as [[package file_name]|e].
  - destruct Hu as (Hlen & _). apply Nat.leb_le in Hlen. rewrite Hlen.
    unfold set_add. cbn [hashable snd andb]. rewrite IH.
    destruct (forallb unpacks paths); [|done]. by rewrite <- app_assoc.
  - destruct Hu as [-> Hlen]. apply Nat.leb_gt in Hlen. by rewrite Hlen.
Qed.

Lemma forallb_false {A} (f : A → bool) (l : list A) :
  forallb f l = false → ∃ x, x ∈ l ∧ f x = false.
Proof.
  induction l as [|x l IH]; [done|]. simpl. destruct (f x) eqn:E.
  - intros H. destruct (IH H) as (y & Hy & Hf). exists y. split; [by right|done].
  - intros _. exists x. split; [left|done].
Qed.

(** X17. [_color_scheme_completions] raises [ValueError], and nothing
    else, exactly when some color scheme that no pattern hides has a path of
    fewer than three segments. When it returns, it holds one completion for
    every color scheme that no pattern hides, and no other: the trigger is
    the last segment of the path, two blanks, a tab and the second segment,
    the content is the whole path. *)
Theorem color_scheme_completions_spec :
  (_color_scheme_completions = Raise ValueError
   ↔ ∃ scheme_path,
       scheme_path ∈ find_resources "*.tmTheme"
       ∧ is_hidden scheme_path = false
       ∧ length (PyStr.split "/" scheme_path) < 3)
  ∧ (∀ e, _color_scheme_completions = Raise e → e = ValueError)
  ∧ ∀ completions,
      _color_scheme_completions = Return completions →
      ∀ trigger content,
        (trigger, content) ∈ completions
        ↔ ∃ scheme_path package file_name,
            scheme_path ∈ find_resources "*.tmTheme"
            ∧ is_hidden scheme_path = false
            ∧ PyStr.split "/" scheme_path !! 1 = Some package
            ∧ last (PyStr.split "/" scheme_path) = Some file_name
            ∧ trigger = file_name +:+ "  " +:+ String PyStr.tab package
            ∧ content = VStr scheme_path.
Proof.
  unfold _color_scheme_completions. rewrite fold_schemes.
  destruct (forallb unpacks (find_resources "*.tmTheme")) eqn:E.
  - rewrite forallb_forall in E. split; [|split; [done|]].
    + split; [done|]. intros (p & Hin & Hh & Hlen).
      apply list_elem_of_In, E in Hin. unfold unpacks in Hin. rewrite Hh in Hin.
      cbn [orb] in Hin. apply Nat.leb_le in Hin. lia.
    + intros completions [= <-] trigger content. simpl. rewrite list_elem_of_omap.
      split.
      * intros (p & Hin & Hitem). unfold scheme_item in Hitem.
        destruct (is_hidden p) eqn:Hh; [done|].
        pose proof (unpack_spec (PyStr.split "/" p)) as Hu.
        destruct (unpack (PyStr.split "/" p)) as [[package file_name]|e]; [|done].
        destruct Hu as (_ & H1 & H2). injection Hitem as <- <-.
        by exists p, package, file_name.
      * intros (p & package & file_name & Hin & Hh & H1 & H2 & -> & ->).
        exists p. split; [done|]. unfold scheme_item. rewrite Hh.
        pose proof (unpack_spec (PyStr.split "/" p)) as Hu.
        destruct (unpack (PyStr.split "/" p)) as [[package' file_name']|e].
        -- destruct Hu as (_ & H1' & H2'). by simplify_eq.
        -- destruct Hu as [_ Hlen]. apply list_elem_of_In, E in Hin.
           unfold unpacks in Hin. rewrite Hh in Hin. cbn [orb] in Hin.
           apply Nat.leb_le in Hin. lia.
  - split; [|split; [by intros e [= <-]|done]].
    split; [|done]. intros _.
    apply forallb_false in E as (p & Hin & Hp). unfold unpacks in Hp.
    apply orb_false_elim in Hp as [Hh Hlen]. apply Nat.leb_gt in Hlen.
    by exists p.
Qed.

End Host.

End ColorSchemes.

(** ** Snippets and popup navigation of [src/settings.py] *)

Module Snippets.

Import Settings SettingsView.

(** The exceptions met here: those of the other parts and [KeyError]. *)
Inductive raised : Type :=
| Builtin (e : exn)
| KeyError.

Inductive run (A : Type) : Type :=
| Done (a : A)
| Raised (e : raised).
Arguments Done {A} a.
Arguments Raised {A} e.

(** The view of the user's file, as made from the id that the settings of
    the hovered view hold: whether it is valid, and [view.find]. *)
Record UserView : Type := mkUserView {
  user_view : View;
  is_valid : bool;
  find : string → Z → Region
}.

Section Host.

Variable encode_value : value → string.

(** [insert_snippet]: the outcome and the calls made on [view], in order. *)
Definition insert_snippet (self : KnownSettings) (view : View) (key : string)
  : run unit * list effect :=
  let '(point, bol, eol) :=
    match last (find_by_selector view VALUE_SCOPE) with
    | None =>
        match last (find_by_selector view "meta.mapping") with
        | None =>
            let point := view_size view in
            let is_empty_line :=
              PyStr.is_empty (PyStr.strip (substr view (line view point))) in
            (point,
             if is_empty_line then "{" +:+ PyStr.nl +:+ String PyStr.tab ""
             else PyStr.nl +:+ "{" +:+ PyStr.nl +:+ String PyStr.tab "",
             PyStr.nl +:+ "}" +:+ PyStr.nl)
        | Some region => ((end_ region - 1)%Z, String PyStr.tab "", PyStr.nl)
        end
    | Some region =>
        let point := end_ region in
        if String.eqb (char_at view point) ","
        then ((point + 1)%Z, PyStr.nl, "")
        else (point, "," +:+ PyStr.nl, "")
    end in
  match defaults self !! key with
  | None => (Raised KeyError, [])
  | Some v =>
      (Done tt,
       [SelClear; SelAdd point;
        RunCommand "insert_snippet" (_key_snippet encode_value key v bol eol)])
  end.

(** [on_navigate]. The calls on the hovered view ([HidePopup],
    [FocusView]) and on the user's view come in one list, in order. *)
Definition on_navigate (listener : SettingsListener) (other : UserView) (href : string)
  : run unit * list effect :=
  match PyStr.split ":" href with
  | [command; argument] =>
      if String.eqb command "edit" then
        if negb (is_valid other) then (Done tt, [])
        else
          let result := find other (q argument) 0%Z in
          let shown := HidePopup :: (if window (view listener) then [FocusView] else []) in
          if (region_a result =? -1)%Z then
            match known_settings listener with
            | None => (Raised (Builtin AttributeError), shown)
            | Some ks =>
                let '(outcome, calls) := insert_snippet ks (user_view other) argument in
                (outcome, shown ++ calls)
            end
          else
            (Done tt,
             shown ++ [SelClear; ShowAtCenter (end_ result); SelAdd (end_ result + 2)%Z])
      else (Done tt, [])
  | _ => (Raised (Builtin ValueError), [])
  end.

(** *** Properties *)

Lemma split_length c s : length (PyStr.split c s) = S (Html.count c s).
Proof.
  induction s as [|d s IH]; [done|]. simpl.
  destruct (Ascii.eqb d c); simpl; [by rewrite IH|].
  destruct (PyStr.split c s) as [|h r]; simpl in *; [done|lia].
Qed.

Lemma split_join c s : PyStr.join (String c "") (PyStr.split c s) = s.
Proof.
  induction s as [|d s IH]; [done|]. simpl.
  pose proof (split_length c s) as Hlen.
  destruct (Ascii.eqb d c) eqn:E.
  - apply Ascii.eqb_eq in E as ->.
    destruct (PyStr.split c s) as [|h r]; [done|].
    change (PyStr.join (String c "") ("" :: h :: r))
      with (String c (PyStr.join (String c "") (h :: r))).
    by rewrite IH.
  - destruct (PyStr.split c s) as [|h r]; [done|].
    destruct r as [|h' r]; simpl in *; [by rewrite IH|].
    rewrite <- IH. done.
Qed.

Lemma split_no_sep c s x :
  x ∈ PyStr.split c s → Html.count c x = 0.
Proof.
  revert x. induction s as [|d s IH]; intros x Hx.
  - apply list_elem_of_singleton in Hx. by subst.
  - simpl in Hx. destruct (Ascii.eqb d c) eqn:E.
    + apply elem_of_cons in Hx as [->|Hx]; [done|by apply IH].
    + pose proof (split_length c s) as Hlen.
      destruct (PyStr.split c s) as [|h r]; [done|].
      apply elem_of_cons in Hx as [->|Hx].
      * simpl. rewrite E. apply IH. left.
      * apply IH. by right.
Qed.

Lemma insert_snippet_run self view key :
  match defaults self !! key with
  | None => insert_snippet self view key = (Raised KeyError, [])
  | Some v =>
      ∃ point bol eol,
        insert_snippet self view key
        = (Done tt,
           [SelClear; SelAdd point;
            RunCommand "insert_snippet" (_key_snippet encode_value key v bol eol)])
  end.
Proof.
  unfold insert_snippet.
  destruct (last (find_by_selector view VALUE_SCOPE)) as [region|];
    [destruct (String.eqb (char_at view (end_ region)) ",")
    |destruct (last (find_by_selector view "meta.mapping")) as [region|]];
    destruct (defaults self !! key) as [v|]; try done; by eexists _, _, _.
Qed.

(** X18. [insert_snippet] raises [KeyError] for a key without default and
    then has done nothing to the view. For any other key it clears the
    selection, puts one caret and inserts one snippet of the key. After the
    last value of the view the snippet starts with a comma exactly when no
    comma follows the value, and the caret goes behind a comma that does;
    in a view without value the snippet goes before the end of the last
    mapping, and in a view without mapping it brings the braces. *)
Theorem insert_snippet_spec self view key :
  match defaults self !! key with
  | None => insert_snippet self view key = (Raised KeyError, [])
  | Some v =>
      ∃ point bol eol,
        insert_snippet self view key
        = (Done tt,
           [SelClear; SelAdd point;
            RunCommand "insert_snippet" (_key_snippet encode_value key v bol eol)])
        ∧ match last (find_by_selector view VALUE_SCOPE) with
          | Some region =>
              eol = EmptyString
              ∧ ((char_at view (end_ region) = ","
                  ∧ point = (end_ region + 1)%Z ∧ bol = PyStr.nl)
                 ∨ (char_at view (end_ region) ≠ ","
                    ∧ point = end_ region ∧ bol = "," +:+ PyStr.nl))
          | None =>
              match last (find_by_selector view "meta.mapping") with
              | Some region =>
                  point = (end_ region - 1)%Z ∧ bol = String PyStr.tab ""
                  ∧ eol = PyStr.nl
              | None =>
                  point = view_size view
                  ∧ PyStr.endswith bol ("{" +:+ PyStr.nl +:+ String PyStr.tab "") = true
                  ∧ eol = PyStr.nl +:+ "}" +:+ PyStr.nl
              end
          end
  end.
Proof.
  unfold insert_snippet.
  destruct (last (find_by_selector view VALUE_SCOPE)) as [region|].
  - destruct (String.eqb (char_at view (end_ region)) ",") eqn:E;
      destruct (defaults self !! key) as [v|]; try done.
    + apply String.eqb_eq in E. eexists _, _, _. split; [done|]. split; [done|]. by left.
    + apply String.eqb_neq in E. eexists _, _, _. split; [done|]. split; [done|]. by right.
  - destruct (last (find_by_selector view "meta.mapping")) as [region|].
    + destruct (defaults self !! key) as [v|]; [|done]. by eexists _, _, _.
    + destruct (defaults self !! key) as [v|]; [|done]. eexists _, _, _.
      split; [done|]. split; [done|]. split; [|done].
      by destruct (PyStr.is_empty _).
Qed.

Lemma split_pair c s command argument :
  PyStr.split c s = [command; argument] →
  s = command +:+ String c argument ∧ Html.count c s = 1.
Proof.
  intros H. split.
  - rewrite <- (split_join c s), H. done.
  - pose proof (split_length c s) as Hlen. rewrite H in Hlen. simpl in Hlen. lia.
Qed.

Lemma caret_after_clear (shown rest : list effect) point before after :
  (∀ call, call ∈ shown → call = HidePopup ∨ call = FocusView) →
  shown ++ SelClear :: rest = before ++ SelAdd point :: after →
  SelClear ∈ before.
Proof.
  intros Hshown Heq. apply app_eq_inv in Heq as [(k & Hs & Hk)|(k & Hb & Hk)].
  - destruct k as [|x k]; [done|]. injection Hk as <- _.
    destruct (Hshown (SelAdd point)) as [?|?]; try done.
    rewrite Hs. apply elem_of_app. right. left.
  - destruct k as [|x k]; [done|]. injection Hk as -> _.
    rewrite Hb. apply elem_of_app. right. left.
Qed.

Lemma no_caret (shown : list effect) point before after :
  (∀ call, call ∈ shown → call = HidePopup ∨ call = FocusView) →
  shown ≠ before ++ SelAdd point :: after.
Proof.
  intros Hshown ->. destruct (Hshown (SelAdd point)) as [?|?]; try done.
  apply elem_of_app. right. left.
Qed.

(** X19. [on_navigate] raises [ValueError] exactly for a reference that
    does not hold one colon, and then has done nothing. Whenever it raises,
    the user's view is untouched. It inserts a snippet only for an [edit]
    reference to a key with a default that the search of the user's view
    did not find, and it never adds a caret to a selection that it has not
    cleared before. *)
Theorem on_navigate_spec listener other href :
  ((on_navigate listener other href).1 = Raised (Builtin ValueError)
   ↔ Html.count ":" href ≠ 1)
  ∧ (Html.count ":" href ≠ 1 → (on_navigate listener other href).2 = [])
  ∧ (∀ e, (on_navigate listener other href).1 = Raised e →
          ∀ call, call ∈ (on_navigate listener other href).2 →
                  call = HidePopup ∨ call = FocusView)
  ∧ (∀ name contents,
        RunCommand name contents ∈ (on_navigate listener other href).2 →
        name = "insert_snippet"
        ∧ ∃ argument ks v,
            href = "edit:" +:+ argument
            ∧ is_valid other = true
            ∧ region_a (find other (q argument) 0%Z) = (-1)%Z
            ∧ known_settings listener = Some ks
            ∧ defaults ks !! argument = Some v)
  ∧ (∀ point before after,
        (on_navigate listener other href).2 = before ++ SelAdd point :: after →
        SelClear ∈ before).
Proof.
  unfold on_navigate.
  pose proof (split_length ":" href) as Hlen.
  destruct (PyStr.split ":" href) as [|command [|argument [|x rest]]] eqn:Hsplit;
    simpl in Hlen.
  1,2,4: (split; [split; [intros _; lia|done]|]; split; [done|]; split; [by intros ? ? ? Hc; apply elem_of_nil in Hc|];
          split; [by intros ? ? Hc; apply elem_of_nil in Hc|];
          by intros ? [|? ?] ? ?).
  apply split_pair in Hsplit as [Hhref Hcount].
  set (shown := HidePopup :: (if window (view listener) then [FocusView] else [])).
  assert (∀ call, call ∈ shown → call = HidePopup ∨ call = FocusView) as Hshown.
  { intros call Hc. unfold shown in Hc. apply elem_of_cons in Hc as [->|Hc]; [by left|].
    destruct (window (view listener)); [|by apply elem_of_nil in Hc].
    apply list_elem_of_singleton in Hc. by right. }
  destruct (String.eqb command "edit") eqn:Hcmd.
  2:{ split; [split; [done|lia]|]. split; [done|].
      split; [by intros ? ? ? Hc; apply elem_of_nil in Hc|].
      split; [by intros ? ? Hc; apply elem_of_nil in Hc|].
      by intros ? [|? ?] ? ?. }
  apply String.eqb_eq in Hcmd. subst command.
  destruct (is_valid other) eqn:Hvalid; cbn [negb].
  2:{ split; [split; [done|lia]|]. split; [done|].
      split; [by intros ? ? ? Hc; apply elem_of_nil in Hc|].
      split; [by intros ? ? Hc; apply elem_of_nil in Hc|].
      by intros ? [|? ?] ? ?. }
  destruct (region_a (find other (q argument) 0) =? -1)%Z eqn:Hfound.
  - apply Z.eqb_eq in Hfound.
    destruct (known_settings listener) as [ks|] eqn:Hks.
    + pose proof (insert_snippet_run ks (user_view other) argument) as Hins.
      destruct (defaults ks !! argument) as [v|] eqn:Hv.
      * destruct Hins as (point & bol & eol & ->). cbn [fst snd].
        split; [split; [done|lia]|]. split; [lia|]. split; [done|]. split.
        -- intros name contents Hc. apply elem_of_app in Hc as [Hc|Hc].
           { apply Hshown in Hc as [?|?]; done. }
           repeat (apply elem_of_cons in Hc as [Hc|Hc]; [try done|]).
           ++ injection Hc as -> _. split; [done|]. by exists argument, ks, v.
           ++ by apply elem_of_nil in Hc.
        -- intros p before after Heq. by apply (caret_after_clear _ _ _ _ _ Hshown) in Heq.
      * rewrite Hins. cbn [fst snd]. rewrite app_nil_r.
        split; [split; [done|lia]|]. split; [lia|]. split; [by intros ? _|]. split.
        -- intros name contents Hc. apply Hshown in Hc as [?|?]; done.
        -- intros p before after Heq. by apply no_caret in Heq.
    + cbn [fst snd]. split; [split; [done|lia]|]. split; [lia|].
      split; [by intros ? _|]. split.
      * intros name contents Hc. apply Hshown in Hc as [?|?]; done.
      * intros p before after Heq. by apply no_caret in Heq.
  - cbn [fst snd]. split; [split; [done|lia]|]. split; [lia|]. split; [done|]. split.
    + intros name contents Hc. apply elem_of_app in Hc as [Hc|Hc].
      { apply Hshown in Hc as [?|?]; done. }
      repeat (apply elem_of_cons in Hc as [Hc|Hc]; [try done|]).
      by apply elem_of_nil in Hc.
    + intros p before after Heq. by apply (caret_after_clear _ _ _ _ _ Hshown) in Heq.
Qed.

End Host.

End Snippets.

(** ** The tooltip of a settings key *)

Module Tooltip.

Import Settings SettingsView.

(** The pencil sign of the edit link, as the bytes of its UTF-8 form. *)
Definition pencil : string :=
  String "226" (String "156" (String "143" "")).

(** [POPUP_TEMPLATE.format(body)] *)
Definition POPUP_TEMPLATE (body : string) : string :=
  PyStr.join PyStr.nl
    ["";
     "<body id=" +:+ q "sublime-settings" +:+ ">";
     "<style>";
     "    body {";
     "        margin: 0;";
     "        padding: 0;";
     "    }";
     "    h1, h2 {";
     "        border-bottom: 1px solid color(var(--background) blend(white 80%));";
     "        font-weight: normal;";
     "        margin: 0;";
     "        padding: 0.5rem 0.6rem;";
     "    }";
     "    h1 {";
     "        color: color(var(--background) blend(var(--orangish) 20%));";
     "        font-size: 1.0rem;";
     "    }";
     "    h2 {";
     "        color: color(var(--background) blend(var(--foreground) 30%));";
     "        font-size: 1.0rem;";
     "        font-family: monospace;";
     "    }";
     "    p {";
     "        margin: 0;";
     "        padding: 0.5rem;";
     "    }";
     "    a {";
     "        text-decoration: none;";
     "    }";
     "</style>";
     body;
     "</body>";
     ""].

Definition NO_DESCRIPTION : string := "No description.".

Inductive hover_zone : Type := HOVER_TEXT | HOVER_GUTTER | HOVER_MARGIN.

(** The arguments of [view.show_popup] that depend on the hover. *)
Record popup : Type := mkPopup {
  content : string;
  location : Z;
  max_width : Z
}.

Section Host.

(** [sublime.encode_value(value, pretty=True)] *)
Variable encode_value_pretty : value → string.

(** [comments.get(key) or default]: a missing and an empty comment count
    alike. *)
Definition comment_or (self : KnownSettings) (key default : string) : string :=
  match comments self !! key with
  | Some comment => if PyStr.is_empty comment then default else comment
  | None => default
  end.

Definition is_base (edit_settings_view : option value) : bool :=
  match edit_settings_view with
  | Some (VStr s) => String.eqb s "base"
  | _ => false
  end.

(** [build_tooltip]; [edit_settings_view] is what the settings of the view
    hold under that name. *)
Definition build_tooltip (self : KnownSettings) (edit_settings_view : option value)
    (key : string) : string :=
  let '(comment, default, edit) :=
    match defaults self !! key with
    | Some v =>
        (Html.html_encode (comment_or self key NO_DESCRIPTION),
         Html.html_encode (encode_value_pretty v),
         if is_base edit_settings_view
         then "<a href=" +:+ q ("edit:" +:+ key) +:+ ">" +:+ pencil +:+ "</a>"
         else "")
    | None => (NO_DESCRIPTION, "unknown setting", "")
    end in
  "<h1>" +:+ key +:+ " " +:+ edit +:+ "</h1>"
  +:+ "<h2>Default: " +:+ default +:+ "</h2>"
  +:+ "<p>" +:+ comment +:+ "</p>".

(** [on_hover]: the popup it shows, if any. [viewport_width] is the width
    of the viewport as an integer. *)
Definition on_hover (listener : SettingsListener) (edit_settings_view : option value)
    (viewport_width : Z) (point : Z) (zone : hover_zone) : option popup :=
  match known_settings listener, zone with
  | Some ks, HOVER_TEXT =>
      match get_key_region_at (view listener) point with
      | Some key_region =>
          if region_true key_region then
            let key := substr (view listener) key_region in
            let body := build_tooltip ks edit_settings_view key in
            let window_width := Z.min 1000 (viewport_width - 64) in
            let key_start := begin key_region in
            let location :=
              Z.max (key_start - 1) (begin (line (view listener) key_start)) in
            Some (mkPopup (POPUP_TEMPLATE body) location window_width)
          else None
      | None => None
      end
  | _, _ => None
  end.

(** *** Properties *)

Lemma html_encode_tags s :
  Html.count "<" (Html.html_encode s) = Html.count PyStr.newline s
  ∧ Html.count PyStr.tab (Html.html_encode s) = 0
  ∧ Html.count PyStr.newline (Html.html_encode s) = 0.
Proof.
  unfold Html.html_encode. destruct (PyStr.is_empty s) eqn:E.
  { destruct s; [done|discriminate]. }
  unfold PyStr.nl, PyStr.tab, PyStr.newline.
  repeat split;
    repeat (rewrite Html.replace_count_char
            || rewrite Html.replace_count_other by done);
    simpl; lia.
Qed.

(** X20. The tooltip of a key without default is the same whatever the
    comments hold and whatever the view. In the tooltip of a key with a
    default, a comment that is missing or empty reads as no description,
    and the comment and the default add no markup of their own: besides
    the tags of the frame and of the edit link and what the key itself
    holds, the tooltip has one opening angle bracket per line feed of the
    comment and of the default, and no tab and no line feed. *)
Theorem tooltip_markup self edit_settings_view key :
  match defaults self !! key with
  | None =>
      build_tooltip self edit_settings_view key
      = "<h1>" +:+ key +:+ " </h1><h2>Default: unknown setting</h2><p>No description.</p>"
  | Some v =>
      let links := if is_base edit_settings_view then 1 else 0 in
      Html.count "<" (build_tooltip self edit_settings_view key)
      = 6 + 2 * links + (1 + links) * Html.count "<" key
        + Html.count PyStr.newline (comment_or self key "No description.")
        + Html.count PyStr.newline (encode_value_pretty v)
      ∧ Html.count PyStr.newline (build_tooltip self edit_settings_view key)
        = (1 + links) * Html.count PyStr.newline key
      ∧ Html.count PyStr.tab (build_tooltip self edit_settings_view key)
        = (1 + links) * Html.count PyStr.tab key
  end.
Proof.
  unfold build_tooltip. destruct (defaults self !! key) as [v|]; [|done].
  destruct (html_encode_tags (comment_or self key NO_DESCRIPTION)) as (Hc1 & Hc2 & Hc3).
  destruct (html_encode_tags (encode_value_pretty v)) as (Hv1 & Hv2 & Hv3).
  destruct (is_base edit_settings_view); unfold q, pencil, PyStr.dquote;
    repeat split; rewrite ?Html.count_app, ?Hc1, ?Hc2, ?Hc3, ?Hv1, ?Hv2, ?Hv3;
    unfold NO_DESCRIPTION; cbn; rewrite ?Html.count_app; cbn; lia.
Qed.

Lemma find_in {A} (f : A → bool) (l : list A) (x : A) :
  List.find f l = Some x → x ∈ l ∧ f x = true.
Proof. intros H. apply find_some in H as [H1 H2]. split; [by apply list_elem_of_In|done]. Qed.

(** X21. [on_hover] shows a popup only with known settings, over text, at
    a point inside a key region that is not empty; the popup holds the
    tooltip of the text of that region, is at most 1000 wide, and sits one
    character before the key or, if the key starts its line, at the start
    of the key: never before the start of that line. *)
Theorem on_hover_popup listener edit_settings_view viewport_width point zone shown :
  on_hover listener edit_settings_view viewport_width point zone = Some shown →
  ∃ ks key_region,
    known_settings listener = Some ks
    ∧ zone = HOVER_TEXT
    ∧ key_region ∈ find_by_selector (view listener) KEY_SCOPE
    ∧ contains key_region point = true
    ∧ region_a key_region ≠ region_b key_region
    ∧ content shown
      = POPUP_TEMPLATE (build_tooltip ks edit_settings_view
                          (substr (view listener) key_region))
    ∧ (max_width shown <= 1000)%Z
    ∧ (begin key_region - 1 <= location shown)%Z
    ∧ (begin (line (view listener) (begin key_region)) <= location shown)%Z
    ∧ ((begin (line (view listener) (begin key_region)) <= begin key_region)%Z →
       (location shown <= begin key_region)%Z)
    ∧ ((begin (line (view listener) (begin key_region)) < begin key_region)%Z →
       location shown = (begin key_region - 1)%Z).
Proof.
  unfold on_hover. intros H.
  destruct (known_settings listener) as [ks|]; [|done].
  destruct zone; try done.
  unfold get_key_region_at in H.
  destruct (match_selector (view listener) point KEY_SCOPE); [|done].
  destruct (List.find _ _) as [key_region|] eqn:Hfind; [|done].
  apply find_in in Hfind as [Hin Hc].
  destruct (region_true key_region) eqn:Ht; [|done].
  injection H as <-. exists ks, key_region. simpl.
  split_and!; try done; try lia.
  unfold region_true, region_size in Ht. apply negb_true_iff, Z.eqb_neq in Ht. lia.
Qed.

End Host.

End Tooltip.

(** ** A listener between its creation and the scan *)

Module ListenerInit.

Import Settings SettingsView.

Section Host.

(** [os.path.basename], [os.sep], the settings of the package and
    [style_flags_from_list]. *)
Variable basename : string → string.
Variable os_sep : string.
Variable package_settings : string → option value.
Variable style_flags_from_list : value → nat.

(** [KnownSettings.__init__]: the two fields, then the reload, which
    empties both tables and schedules the scan. *)
Definition KnownSettings__init__ (filename : string) (on_loaded : bool) : KnownSettings :=
  trigger_settings_reload (mkKnownSettings filename on_loaded ∅ ∅ []).

(** [SettingsListener.__init__], without the records it sends to the
    logger: known settings only for a file name that ends as a settings
    file does. *)
Definition SettingsListener__init__ (view : View) : SettingsListener :=
  mkSettingsListener view
    match file_name view with
    | Some filepath =>
        if negb (PyStr.is_empty filepath) && PyStr.endswith filepath ".sublime-settings"
        then Some (KnownSettings__init__ (basename filepath) true)
        else None
    | None => None
    end.

Local Abbreviation lint := (do_linting os_sep package_settings style_flags_from_list).

(** *** Properties *)

Lemma unknown_key_regions_empty v ks :
  defaults ks = ∅ → unknown_key_regions v ks = find_by_selector v KEY_SCOPE.
Proof.
  intros H. unfold unknown_key_regions. rewrite H.
  induction (find_by_selector v KEY_SCOPE) as [|r rs IH]; [done|].
  simpl. rewrite lookup_empty. rewrite bool_decide_false by by intros [? ?].
  simpl. by rewrite IH.
Qed.

(** X22. On a listener as [__init__] leaves it, [do_linting] never raises:
    known settings come with a file name. Until the scan has run the
    tables are empty, so when linting marks anything in that state it
    marks every key region of the view. *)
Theorem linting_before_the_scan (view : View) :
  (∀ e, lint (SettingsListener__init__ view) ≠ Raise e)
  ∧ (∀ ks, known_settings (SettingsListener__init__ view) = Some ks →
           defaults ks = ∅ ∧ comments ks = ∅
           ∧ ∃ filepath, file_name view = Some filepath
                         ∧ PyStr.endswith filepath ".sublime-settings" = true
                         ∧ filename ks = basename filepath)
  ∧ ∀ key regions scope icon flags,
      lint (SettingsListener__init__ view)
      = Return (AddRegions key regions scope icon flags) →
      regions = find_by_selector view KEY_SCOPE.
Proof.
  unfold SettingsListener__init__, do_linting. simpl.
  destruct (file_name view) as [filepath|] eqn:Hname; simpl.
  2:{ split; [done|]. split; [done|]. done. }
  destruct (negb (PyStr.is_empty filepath)
            && PyStr.endswith filepath ".sublime-settings") eqn:E; simpl.
  2:{ split; [done|]. split; [done|]. done. }
  apply andb_prop in E as [_ Hends].
  rewrite unknown_key_regions_empty by done.
  split; [|split].
  - intros e. destruct (PyStr.contains filepath _); [|done].
    destruct (truthy _); [|done]. by destruct (find_by_selector view KEY_SCOPE).
  - intros ks [= <-]. split; [done|]. split; [done|]. by exists filepath.
  - intros key regions scope icon flags.
    destruct (PyStr.contains filepath _); [|done].
    destruct (truthy _); [|done].
    destruct (find_by_selector view KEY_SCOPE); [done|]. by intros [= <- <- <- <- <-].
Qed.

End Host.

End ListenerInit.

(** ** Navigation, tooltip and color schemes at the sample *)

Module ListenerSample.

Import Settings SettingsView ViewSample Snippets Tooltip.

Definition listener : SettingsListener :=
  mkSettingsListener sample_view (Some Sample.loaded).

(** The sample view with lines that start before the keys. *)
Definition hover_view : View :=
  mkView (match_selector sample_view) (find_by_selector sample_view) (substr sample_view)
    (substr_none sample_view) (char_at sample_view) (λ _, mkRegion 3 20) 70 true
    (file_name sample_view).

Definition not_found : UserView := mkUserView sample_view true (λ _ _, mkRegion (-1) (-1)).
Definition found : UserView := mkUserView sample_view true (λ _ _, mkRegion 7 17).

Example insert_snippet_sample :
  insert_snippet encode_value Sample.loaded sample_view "tab_size"
  = (Done tt,
     [SelClear; SelAdd 69;
      RunCommand "insert_snippet" (PyStr.nl +:+ q "tab_size" +:+ ": ${1:4}$0")])
  ∧ insert_snippet encode_value Sample.loaded sample_view "tab_sise"
    = (Raised KeyError, []).
Proof. vm_compute. done. Qed.

Example on_navigate_sample :
  on_navigate encode_value listener not_found "edit:draw_white_space"
  = (Done tt,
     [HidePopup; FocusView; SelClear; SelAdd 69;
      RunCommand "insert_snippet"
        (PyStr.nl +:+ q "draw_white_space" +:+ ": " +:+ q "${1:selection}" +:+ "$0")])
  ∧ on_navigate encode_value listener found "edit:tab_size"
    = (Done tt, [HidePopup; FocusView; SelClear; ShowAtCenter 17; SelAdd 19])
  ∧ on_navigate encode_value listener found "edit:a:b"
    = (Raised (Builtin ValueError), []).
Proof. vm_compute. done. Qed.

Example build_tooltip_sample :
  build_tooltip encode_value Sample.loaded (Some (VStr "base")) "tab_size"
  = "<h1>tab_size <a href=" +:+ q "edit:tab_size" +:+ ">" +:+ pencil
    +:+ "</a></h1><h2>Default: 4</h2><p>Tab size</p>"
  ∧ build_tooltip encode_value Sample.loaded None "tab_sise"
    = "<h1>tab_sise </h1><h2>Default: unknown setting</h2><p>No description.</p>".
Proof. vm_compute. done. Qed.

Lemma on_hover_popup_witness :
  ∃ ks key_region,
    known_settings (mkSettingsListener hover_view (Some Sample.loaded)) = Some ks
    ∧ key_region ∈ find_by_selector hover_view KEY_SCOPE
    ∧ contains key_region 10 = true
    ∧ (begin key_region - 1 <= 6)%Z
    ∧ ((begin (line hover_view (begin key_region)) < begin key_region)%Z →
       6%Z = (begin key_region - 1)%Z).
Proof.
  destruct (on_hover_popup encode_value
              (mkSettingsListener hover_view (Some Sample.loaded)) None 800 10 HOVER_TEXT
              (mkPopup
                 (POPUP_TEMPLATE
                    (build_tooltip encode_value Sample.loaded None "tab_size"))
                 6 736))
    as (ks & key_region & Hks & _ & Hin & Hc & _ & _ & _ & Hloc & _ & _ & Hleft).
  - vm_compute. reflexivity.
  - exists ks, key_region. split; [exact Hks|]. split; [exact Hin|].
    split; [exact Hc|]. split; [exact Hloc|exact Hleft].
Defined.

Example color_scheme_sample :
  ColorSchemes._color_scheme_completions
    (λ _, ["Packages/Color Scheme - Default/Monokai.tmTheme";
           "Packages/User/themes/dark/Mine.tmTheme";
           "Packages/Color Scheme - Legacy/Old.tmTheme"])
    ["Legacy"]
  = Return
      [("Monokai.tmTheme  " +:+ String PyStr.tab "Color Scheme - Default",
        VStr "Packages/Color Scheme - Default/Monokai.tmTheme");
       ("Mine.tmTheme  " +:+ String PyStr.tab "User",
        VStr "Packages/User/themes/dark/Mine.tmTheme")]
  ∧ ColorSchemes._color_scheme_completions (λ _, ["Monokai.tmTheme"]) []
    = Raise ValueError.
Proof. vm_compute. done. Qed.

Example fresh_listener_marks_every_key :
  do_linting "/" package_settings style_flags_from_list
    (ListenerInit.SettingsListener__init__ (λ _, "Python.sublime-settings") sample_view)
  = Return (AddRegions "unknown_settings_keys" [key1; key2; key3] (VStr "text") "dot" 0).
Proof. vm_compute. done. Qed.

End ListenerSample.
